(** * MCP_Search: the search engine of [MCP_Search.pyw]

  A shallow embedding of the search core of the application: the
  result record, the file cache ([CacheManager]), the per-source client
  ([BaseSearchClient]) with its retrieval strategies and parsers, and
  the category orchestration ([SearchManager]). Around the core: the
  search history of [ConfigManager] and, of the window
  ([MCPSearchGUI]), the thread of a search, the selection in the list
  of results and the clearing of the cache.

  Conventions of the embedding.
  - A Python [str] is a [string]; the model covers the ASCII range
    (case folding and white space are those of ASCII characters).
  - A value decoded from JSON is a [json]; the fields of a result that
    the code fills from a JSON item without conversion are [json]
    values, with [JStr] as a coercion for the fields built from text.
  - Code with effects (cache files, HTTP, clock, callbacks) is a
    computation [M A]: it takes the [world], and returns a value or a
    raised exception together with the new [world].
  - Library functions (MD5, URL quoting, [str.format], JSON and base64
    decoding, the HTML parser, [urljoin], the regular expression of
    the fall-back on raw HTML, the interpolation of the
    [ConfigParser]) and the network are fields of the environment
    [Env]. A function that can raise returns a sum.
  - The configuration is the [ConfigParser] as loaded, without a
    section of defaults; a value is read through the interpolation,
    which raises on a value that it cannot expand.
  - The clock moves with [time.sleep] only, and a write of the cache
    leaves its entry; the statements on a later look-up name the clock
    and the entry that this look-up finds. *)

From Stdlib Require Import ZArith Ascii String Lia DecimalString DecimalNat.
From stdpp Require Import base option list strings gmap.

Set Warnings "-register-all".

Local Open Scope string_scope.
Local Open Scope Z_scope.

(** ** Python strings *)

Module Py.

Definition code (c : ascii) : N := N_of_ascii c.

(** [str.isspace] on ASCII: TAB..CR, FS..US and SPACE. *)
Definition isspace (c : ascii) : bool :=
  let n := code c in
  ((9 <=? n) && (n <=? 13) || (28 <=? n) && (n <=? 32))%N.

Definition isdigit (c : ascii) : bool :=
  let n := code c in ((48 <=? n) && (n <=? 57))%N.

Definition lower_char (c : ascii) : ascii :=
  let n := code c in
  if ((65 <=? n) && (n <=? 90))%N then ascii_of_N (n + 32) else c.

(** [s.lower()] *)
Fixpoint lower (s : string) : string :=
  match s with
  | EmptyString => EmptyString
  | String c s' => String (lower_char c) (lower s')
  end.

(** [s.startswith(p)] *)
Fixpoint startswith (p s : string) : bool :=
  match p, s with
  | EmptyString, _ => true
  | String a p', String b s' =>
      if Ascii.eqb a b then startswith p' s' else false
  | String _ _, EmptyString => false
  end.

(** [needle in hay] *)
Fixpoint contains (needle hay : string) : bool :=
  if startswith needle hay then true
  else match hay with
       | EmptyString => false
       | String _ hay' => contains needle hay'
       end.

Fixpoint mem_char (c : ascii) (chars : string) : bool :=
  match chars with
  | EmptyString => false
  | String d chars' => if Ascii.eqb c d then true else mem_char c chars'
  end.

Fixpoint rev_acc (s acc : string) : string :=
  match s with
  | EmptyString => acc
  | String c s' => rev_acc s' (String c acc)
  end.

Definition rev (s : string) : string := rev_acc s EmptyString.

(** Truth value of a string: [if s:] *)
Definition truthy (s : string) : bool :=
  match s with EmptyString => false | _ => true end.

Fixpoint lstrip_by (p : ascii -> bool) (s : string) : string :=
  match s with
  | EmptyString => EmptyString
  | String c s' => if p c then lstrip_by p s' else s
  end.

Definition strip_by (p : ascii -> bool) (s : string) : string :=
  rev (lstrip_by p (rev (lstrip_by p s))).

(** [s.strip()] *)
Definition strip (s : string) : string := strip_by isspace s.

(** [s.strip(chars)] *)
Definition strip_chars (chars s : string) : string :=
  strip_by (fun c => mem_char c chars) s.

(** [s[:n]] *)
Fixpoint take (n : nat) (s : string) : string :=
  match n, s with
  | S n', String c s' => String c (take n' s')
  | _, _ => EmptyString
  end.

Fixpoint drop (n : nat) (s : string) : string :=
  match n, s with
  | S n', String _ s' => drop n' s'
  | _, _ => s
  end.

(** [s.split(sep)] for a separator that is not empty; [skip] counts
    the characters of a separator that was just found and [cur] is the
    piece being read, in reverse. *)
Fixpoint split_acc (sep : string) (skip : nat) (s cur : string)
    : list string :=
  match s with
  | EmptyString => [rev cur]
  | String c s' =>
      match skip with
      | S skip' => split_acc sep skip' s' cur
      | O =>
          if startswith sep s
          then rev cur :: split_acc sep (String.length sep - 1) s' EmptyString
          else split_acc sep O s' (String c cur)
      end
  end.

Definition split (sep s : string) : list string :=
  split_acc sep O s EmptyString.

(** The separator of lines. *)
Definition nl : string := String "010"%char EmptyString.

(** [s.split()]: the words between runs of white space. *)
Fixpoint words_acc (s cur : string) : list string :=
  match s with
  | EmptyString => if truthy cur then [rev cur] else []
  | String c s' =>
      if isspace c
      then (if truthy cur then [rev cur] else []) ++ words_acc s' EmptyString
      else words_acc s' (String c cur)
  end.

Definition words (s : string) : list string := words_acc s EmptyString.

(** [s.count(c)] for one character *)
Fixpoint count (c : ascii) (s : string) : nat :=
  match s with
  | EmptyString => O
  | String d s' => (if Ascii.eqb c d then 1 else 0) + count c s'
  end.

(** [s in l] for a list of strings *)
Definition mem (s : string) (l : list string) : bool :=
  existsb (String.eqb s) l.

(** [s.split(sep, 1)] when [sep in s]: the text before the first
    separator and the text after it. *)
Fixpoint split1_acc (sep : ascii) (s cur : string) : string * string :=
  match s with
  | EmptyString => (rev cur, EmptyString)
  | String c s' =>
      if Ascii.eqb c sep then (rev cur, s')
      else split1_acc sep s' (String c cur)
  end.

Definition split1 (sep : ascii) (s : string) : string * string :=
  split1_acc sep s EmptyString.

(** [any(p in s for p in patterns)] *)
Definition any_in (patterns : list string) (s : string) : bool :=
  existsb (fun p => contains p s) patterns.

(** [s.replace(old, new)] for [old] not empty; [skip] counts the
    characters of an occurrence that was just replaced. *)
Fixpoint replace_from (old new : string) (skip : nat) (s : string) : string :=
  match s with
  | EmptyString => EmptyString
  | String c s' =>
      match skip with
      | S skip' => replace_from old new skip' s'
      | O =>
          if startswith old s
          then new ++ replace_from old new (String.length old - 1) s'
          else String c (replace_from old new O s')
      end
  end.

Definition replace (old new s : string) : string := replace_from old new O s.

(** [str.isalpha] on ASCII *)
Definition isalpha (c : ascii) : bool :=
  let n := code c in
  ((65 <=? n) && (n <=? 90) || (97 <=? n) && (n <=? 122))%N.

Definition upper_char (c : ascii) : ascii :=
  let n := code c in
  if ((97 <=? n) && (n <=? 122))%N then ascii_of_N (n - 32) else c.

(** [s.title()] on ASCII: a letter is in upper case after a character
    that is no letter and in lower case after a letter. *)
Fixpoint title_from (previous_is_cased : bool) (s : string) : string :=
  match s with
  | EmptyString => EmptyString
  | String c rest =>
      String (if previous_is_cased then lower_char c else upper_char c)
             (title_from (isalpha c) rest)
  end.

Definition title (s : string) : string := title_from false s.

End Py.

(** ** Regular expressions

  The fragment of Python's [re] syntax that the patterns of the source
  use: anchors, single characters and character classes with the
  quantifiers [*], [+] and [?] (all greedy, all applied to one
  character or class), concatenation and numbered capturing groups.
  Matching is by backtracking, first alternative first, as in [re]. *)

Module Re.

Inductive cls_item :=
| CChar (c : ascii)        (* a literal character *)
| CSpace                   (* \s *)
| CDigit.                  (* \d *)

Record charset := Cs { cs_neg : bool; cs_items : list cls_item }.

Definition item_has (c : ascii) (it : cls_item) : bool :=
  match it with
  | CChar d => Ascii.eqb c d
  | CSpace => Py.isspace c
  | CDigit => Py.isdigit c
  end.

Definition cs_has (cs : charset) (c : ascii) : bool :=
  xorb (cs_neg cs) (existsb (item_has c) (cs_items cs)).

Inductive regex :=
| Eps
| Bol                              (* ^ *)
| Eol                              (* $ *)
| One (cs : charset)
| Star (cs : charset)
| Plus (cs : charset)
| Opt (cs : charset)
| Cat (r1 r2 : regex)
| Grp (n : nat) (r : regex).

(** A position in the subject: number of characters consumed, the
    character just before (if any) and the text that remains. *)
Record pos := Pos { p_off : nat; p_prev : option ascii; p_rest : string }.

Definition caps := list (nat * (nat * nat)).

(** [^]: at the start of the subject and, under [re.MULTILINE], after
    each newline. *)
Definition at_bol (multiline : bool) (p : pos) : bool :=
  match p_prev p with
  | None => true
  | Some c => multiline && Ascii.eqb c "010"%char
  end.

(** [$]: at the end of the subject and before a newline that ends it;
    under [re.MULTILINE], before each newline. *)
Definition at_eol (multiline : bool) (p : pos) : bool :=
  match p_rest p with
  | EmptyString => true
  | String c rest =>
      Ascii.eqb c "010"%char
      && (multiline || match rest with EmptyString => true | _ => false end)
  end.

Definition step (cs : charset) (p : pos) : option pos :=
  match p_rest p with
  | String c rest =>
      if cs_has cs c then Some (Pos (S (p_off p)) (Some c) rest) else None
  | EmptyString => None
  end.

(** Greedy repetition of a class: the longest run first, then shorter
    ones, until the continuation accepts. *)
Fixpoint star {A} (cs : charset) (off : nat) (prev : option ascii)
    (rest : string) (k : pos -> option A) : option A :=
  match rest with
  | String c rest' =>
      if cs_has cs c then
        match star cs (S off) (Some c) rest' k with
        | Some r => Some r
        | None => k (Pos off prev rest)
        end
      else k (Pos off prev rest)
  | EmptyString => k (Pos off prev rest)
  end.

Fixpoint run (ml : bool) (r : regex) (p : pos) (cp : caps)
    (k : pos -> caps -> option caps) : option caps :=
  match r with
  | Eps => k p cp
  | Bol => if at_bol ml p then k p cp else None
  | Eol => if at_eol ml p then k p cp else None
  | One cs =>
      match step cs p with
      | Some p' => k p' cp
      | None => None
      end
  | Star cs => star cs (p_off p) (p_prev p) (p_rest p) (fun p' => k p' cp)
  | Plus cs =>
      match step cs p with
      | Some p' =>
          star cs (p_off p') (p_prev p') (p_rest p') (fun p'' => k p'' cp)
      | None => None
      end
  | Opt cs =>
      match step cs p with
      | Some p' =>
          match k p' cp with
          | Some r => Some r
          | None => k p cp
          end
      | None => k p cp
      end
  | Cat r1 r2 => run ml r1 p cp (fun p' cp' => run ml r2 p' cp' k)
  | Grp n r' =>
      run ml r' p cp (fun p' cp' => k p' ((n, (p_off p, p_off p')) :: cp'))
  end.

(** A match that starts at [p]: the spans of the groups, group 0 being
    the whole match. *)
Definition match_at (ml : bool) (r : regex) (p : pos) : option caps :=
  run ml r p [] (fun p' cp => Some ((0%nat, (p_off p, p_off p')) :: cp)).

(** [re.match]: the match starts at the first character. *)
Definition rmatch (ml : bool) (r : regex) (s : string) : option caps :=
  match_at ml r (Pos 0 None s).

Fixpoint span_of (n : nat) (cp : caps) : option (nat * nat) :=
  match cp with
  | [] => None
  | (m, sp) :: cp' => if Nat.eqb n m then Some sp else span_of n cp'
  end.

(** [match.group(n)] *)
Definition group (s : string) (cp : caps) (n : nat) : string :=
  match span_of n cp with
  | Some (a, b) => Py.take (b - a) (Py.drop a s)
  | None => EmptyString
  end.

(** A character that stands for itself. *)
Definition lit (c : ascii) : charset := Cs false [CChar c].

(** [.] matches everything but a newline. *)
Definition dot : charset := Cs true [CChar "010"%char].

(** *** Reading a pattern

    The patterns are kept as the strings of the source and read by
    [parse]; a construct outside the fragment makes [parse] fail. *)

Definition is_alnum (c : ascii) : bool :=
  let n := Py.code c in
  ((48 <=? n) && (n <=? 57) || (65 <=? n) && (n <=? 90)
   || (97 <=? n) && (n <=? 122))%N.

(** The class denoted by a backslash followed by [c]. *)
Definition escape (c : ascii) : option cls_item :=
  if Ascii.eqb c "s" then Some CSpace
  else if Ascii.eqb c "d" then Some CDigit
  else if is_alnum c then None
  else Some (CChar c).

(** The items of a bracketed class, up to the closing bracket. A dash
    is taken literally in first or last place only. *)
Fixpoint parse_items (s : string) (first : bool) (acc : list cls_item)
    : option (list cls_item * string) :=
  match s with
  | EmptyString => None
  | String c rest =>
      if Ascii.eqb c "]" then Some (rev acc, rest)
      else if Ascii.eqb c "\" then
        match rest with
        | String e rest' =>
            match escape e with
            | Some it => parse_items rest' false (it :: acc)
            | None => None
            end
        | EmptyString => None
        end
      else if Ascii.eqb c "-" then
        if first || Py.startswith "]" rest
        then parse_items rest false (CChar c :: acc)
        else None
      else parse_items rest false (CChar c :: acc)
  end.

Definition parse_class (s : string) : option (charset * string) :=
  let '(neg, s) :=
    match s with
    | String c rest => if Ascii.eqb c "^" then (true, rest) else (false, s)
    | EmptyString => (false, s)
    end in
  match parse_items s true [] with
  | Some (items, rest) => Some (Cs neg items, rest)
  | None => None
  end.

(** A class followed by its quantifier, if any. *)
Definition quantified (cs : charset) (s : string) : regex * string :=
  match s with
  | String q rest =>
      if Ascii.eqb q "*" then (Star cs, rest)
      else if Ascii.eqb q "+" then (Plus cs, rest)
      else if Ascii.eqb q "?" then (Opt cs, rest)
      else (One cs, s)
  | EmptyString => (One cs, s)
  end.

Definition is_quantifier (s : string) : bool :=
  Py.startswith "*" s || Py.startswith "+" s || Py.startswith "?" s
  || Py.startswith "{" s.

(** A sequence of atoms, up to the end of the pattern or to a closing
    parenthesis; [g] is the number of the next group. *)
Fixpoint parse_seq (fuel : nat) (s : string) (g : nat)
    : option (regex * string * nat) :=
  match fuel with
  | O => None
  | S fuel' =>
      match s with
      | EmptyString => Some (Eps, s, g)
      | String c rest =>
          if Ascii.eqb c ")" then Some (Eps, s, g)
          else if Ascii.eqb c "|" then None
          else
            let atom : option (regex * string * nat) :=
              if Ascii.eqb c "^" then Some (Bol, rest, g)
              else if Ascii.eqb c "$" then Some (Eol, rest, g)
              else if Ascii.eqb c "(" then
                if Py.startswith "?" rest then None
                else
                  match parse_seq fuel' rest (S g) with
                  | Some (r, String d rest', g') =>
                      if Ascii.eqb d ")" && negb (is_quantifier rest')
                      then Some (Grp g r, rest', g')
                      else None
                  | _ => None
                  end
              else if Ascii.eqb c "[" then
                match parse_class rest with
                | Some (cs, rest') =>
                    let '(r, rest'') := quantified cs rest' in
                    Some (r, rest'', g)
                | None => None
                end
              else if Ascii.eqb c "\" then
                match rest with
                | String e rest' =>
                    match escape e with
                    | Some it =>
                        let '(r, rest'') := quantified (Cs false [it]) rest' in
                        Some (r, rest'', g)
                    | None => None
                    end
                | EmptyString => None
                end
              else if is_quantifier s then None
              else
                let cs := if Ascii.eqb c "." then dot else lit c in
                let '(r, rest') := quantified cs rest in
                Some (r, rest', g)
            in
            match atom with
            | Some (r, rest', g') =>
                match parse_seq fuel' rest' g' with
                | Some (r', rest'', g'') => Some (Cat r r', rest'', g'')
                | None => None
                end
            | None => None
            end
      end
  end.

Definition parse (pattern : string) : option regex :=
  match parse_seq (S (String.length pattern)) pattern 1 with
  | Some (r, EmptyString, _) => Some r
  | _ => None
  end.

(** [re.match(pattern, s, re.MULTILINE)] *)
Definition re_match_multiline (pattern s : string) : option caps :=
  match parse pattern with
  | Some r => rmatch true r s
  | None => None
  end.

(** The position [n] characters further. *)
Fixpoint advance (n : nat) (p : pos) : pos :=
  match n, p_rest p with
  | S n', String c rest => advance n' (Pos (S (p_off p)) (Some c) rest)
  | _, _ => p
  end.

(** The scan of [re.sub(r, '', s)] from [p]: a match that is not empty
    is left out and the scan goes on after it, otherwise one character
    is kept. *)
Fixpoint delete_from (fuel : nat) (r : regex) (p : pos) : string :=
  match fuel with
  | O => p_rest p
  | S fuel' =>
      let keep_one :=
        match p_rest p with
        | EmptyString => EmptyString
        | String c rest =>
            String c (delete_from fuel' r (Pos (S (p_off p)) (Some c) rest))
        end in
      match match_at false r p with
      | Some cp =>
          match span_of 0 cp with
          | Some (a, b) =>
              if (a <? b)%nat then delete_from fuel' r (advance (b - a) p)
              else keep_one
          | None => keep_one
          end
      | None => keep_one
      end
  end.

(** [re.sub(pattern, '', s)] *)
Definition re_sub_empty (pattern s : string) : string :=
  match parse pattern with
  | Some r => delete_from (S (String.length s)) r (Pos 0 None s)
  | None => s
  end.

End Re.

(** ** Values and records *)

(** A value decoded by [json.loads] / [response.json()]. The items of an
    object are those of the resulting [dict]: one per key. *)
Inductive json :=
| JNull
| JBool (b : bool)
| JNum (literal : string)
| JStr (s : string)
| JArr (items : list json)
| JObj (members : list (string * json)).

Coercion JStr : string >-> json.

(** A [dict] with string keys, as a list of items with distinct keys. *)
Fixpoint dict_get {V} (k : string) (d : list (string * V)) : option V :=
  match d with
  | [] => None
  | (k', v) :: d' => if String.eqb k k' then Some v else dict_get k d'
  end.

(** [d[k] = v]: the value of an existing key is replaced in place, a new
    key goes last. *)
Fixpoint dict_set {V} (k : string) (v : V) (d : list (string * V))
    : list (string * V) :=
  match d with
  | [] => [(k, v)]
  | (k', v') :: d' =>
      if String.eqb k k' then (k, v) :: d' else (k', v') :: dict_set k v d'
  end.

(** [@dataclass SearchResult]; [additional_info] is the dictionary that
    [__post_init__] leaves in place ([{}] for [None]). *)
Record SearchResult := mkResult {
  name : json;
  description : json;
  url : json;
  github_url : json;
  category : string;
  source : string;
  last_updated : string;
  additional_info : list (string * json)
}.

(** [SearchResult(name=.., description=.., url=.., github_url=..,
    source=.., category=..)] with the defaults of the other fields. *)
Definition result_of (n d u g : json) (src cat : string) : SearchResult :=
  mkResult n d u g cat src "" [].

(** A source's section of the configuration, as the [dict] that
    [get_source_config] returns. *)
Abbreviation source_config := (gmap string string).

(** [source_config.get(key, default)] *)
Definition cfg_get (cfg : source_config) (key dflt : string) : string :=
  default dflt (cfg !! key).


(** ** Markdown catalogues: [_parse_awesome_list_content] *)

Module Awesome.

Definition patterns : list string :=
  ["^[\s]*[-\*]\s*\[([^\]]+)\]\(([^)]+)\)\s*[-:]?\s*(.*)$";
   "^[\s]*[-\*]\s*\*\*\[([^\]]+)\]\(([^)]+)\)\*\*\s*[-:]?\s*(.*)$";
   "^[\s]*[-\*]\s*\[([^\]]+)\]\(([^)]+)\)\s*\*\*([^*]+)\*\*.*$";
   "^[\s]*\d+\.\s*\[([^\]]+)\]\(([^)]+)\)\s*[-:]?\s*(.*)$"].

Definition skip_patterns : list string :=
  ["table of contents"; "contributing"; "license"; "readme";
   "back to top"; "go to"; "see also"; "more info";
   "documentation"; "wiki"; "website"; "homepage"].

(** [any(skip in name.lower() or skip in description.lower()
         for skip in skip_patterns)] *)
Definition is_noise (nm descr : string) : bool :=
  existsb (fun skip => Py.contains skip (Py.lower nm)
                       || Py.contains skip (Py.lower descr))
          skip_patterns.

(** The description that is stored, once the query has matched. *)
Definition enhance (descr current_category : string) : string :=
  let descr :=
    if Py.truthy current_category
       && negb (Py.contains (Py.lower current_category) (Py.lower descr))
    then if Py.truthy descr
         then descr ++ " (Category: " ++ current_category ++ ")"
         else "From " ++ current_category ++ " category"
    else descr in
  if negb (Py.truthy descr) && Py.truthy current_category
  then "Tool from " ++ current_category ++ " category"
  else if negb (Py.truthy descr) then "Tool from awesome list"
  else descr.

(** The inner loop [for pattern in patterns] on one line; the result is
    what the loop appends to [results]. A [continue] goes on with the
    next pattern, the [break] after a match that was kept or filtered
    out by the query ends the loop. *)
Fixpoint try_patterns (pats : list string) (line query_lower
    current_category source_name : string) : list SearchResult :=
  match pats with
  | [] => []
  | pat :: pats' =>
      match Re.re_match_multiline pat line with
      | None =>
          try_patterns pats' line query_lower current_category source_name
      | Some m =>
          let nm := Py.strip (Re.group line m 1) in
          let u := Py.strip (Re.group line m 2) in
          let descr := Py.strip (Re.group line m 3) in
          let descr := Re.re_sub_empty "[*_`]" descr in
          let descr := Py.strip_chars " .-:" descr in
          if negb (Py.truthy nm) || (String.length nm <? 2)%nat then
            try_patterns pats' line query_lower current_category source_name
          else if is_noise nm descr then
            try_patterns pats' line query_lower current_category source_name
          else if Py.contains query_lower (Py.lower nm)
                  || Py.contains query_lower (Py.lower descr)
                  || Py.contains query_lower (Py.lower current_category)
          then [result_of nm (enhance descr current_category) u
                  (if Py.contains "github.com" u then u else "")
                  source_name current_category]
          else []
      end
  end.

(** The loop [for line in lines], with [current_category] threaded
    through. *)
Fixpoint scan_lines (lines : list string) (query_lower current_category
    source_name : string) : list SearchResult :=
  match lines with
  | [] => []
  | line :: lines' =>
      let line := Py.strip line in
      if Py.startswith "#" line then
        scan_lines lines' query_lower
                   (Py.strip (Re.re_sub_empty "^#+\s*" line)) source_name
      else
        try_patterns patterns line query_lower current_category source_name
        ++ scan_lines lines' query_lower current_category source_name
  end.

(** [_parse_awesome_list_content(content, source_config, query)]. The
    body only works on strings and raises nothing, so the handler of its
    [try] is never entered. *)
Definition _parse_awesome_list_content (content : string)
    (cfg : source_config) (query : string) : list SearchResult :=
  let source_name := cfg_get cfg "name" "GitHub" in
  let query_lower := Py.lower query in
  scan_lines (Py.split Py.nl content) query_lower "" source_name.

End Awesome.


(** ** Parsed HTML

    The tree that [BeautifulSoup(html, 'html.parser')] builds: elements
    with a name, attributes and children, and text. The root is the
    document object itself. *)

Module Dom.

Inductive node :=
| Text (s : string)
| Tag (tag : string) (attrs : list (string * string)) (children : list node).

(** An element together with [element.parent]. *)
Record located := Loc { el : node; parent : node }.

Definition tag_name (n : node) : string :=
  match n with Tag t _ _ => t | Text _ => "" end.

(** [element.get(a)] *)
Definition get_attr (a : string) (n : node) : option string :=
  match n with Tag _ attrs _ => dict_get a attrs | Text _ => None end.

(** The values of the [class] attribute. *)
Definition classes (n : node) : list string :=
  match get_attr "class" n with Some v => Py.words v | None => [] end.

(** The elements below [n], in document order, each with its parent. *)
Fixpoint descendants (n : node) : list located :=
  match n with
  | Text _ => []
  | Tag _ _ children =>
      flat_map (fun c =>
                  match c with
                  | Tag _ _ _ => Loc c n :: descendants c
                  | Text _ => []
                  end) children
  end.

(** [n.find_all(...)] for the elements that satisfy [p] *)
Definition find_all (p : node -> bool) (n : node) : list located :=
  filter (fun x => p (el x) = true) (descendants n).

(** [n.find(...)] *)
Definition find (p : node -> bool) (n : node) : option node :=
  el <$> head (find_all p n).

(** The pieces of text below [n], in document order. *)
Fixpoint strings (n : node) : list string :=
  match n with
  | Text s => [s]
  | Tag _ _ children => flat_map strings children
  end.

(** [n.get_text(strip=True)] *)
Definition get_text (n : node) : string :=
  foldr String.append EmptyString
        (filter (fun s => Py.truthy s = true) (map Py.strip (strings n))).

(** Search by element name: ['h1'] or [['span', 'div']]. *)
Definition is_tag (names : list string) (n : node) : bool :=
  match n with Tag t _ _ => Py.mem t names | Text _ => false end.

(** [href=True] *)
Definition has_attr (a : string) (n : node) : bool :=
  match get_attr a n with Some _ => true | None => false end.

(** [class_=lambda x: x and (p1 in x or p2 in x ...)]: the function is
    tried on each value of the attribute and on the values joined by
    spaces; the fragments hold no space, so the joined text contains one
    exactly when a value does. *)
Definition class_has (fragments : list string) (n : node) : bool :=
  existsb (Py.any_in fragments) (classes n).

(** [soup.select(selector)] for the selectors of the source: [.c] is an
    element with the class [c], a bare word an element of that name. *)
Definition select (selector : string) (n : node) : list located :=
  match selector with
  | String "." c => find_all (fun x => Py.mem c (classes x)) n
  | _ => find_all (is_tag [selector]) n
  end.

(** [href=lambda x: x and (f1 in x or f2 in x ...)] on an attribute
    that holds one value. *)
Definition attr_has (a : string) (fragments : list string) (n : node) : bool :=
  match get_attr a n with
  | Some v => Py.any_in fragments v
  | None => false
  end.

(** [element.find_all(.., recursive=False)] looks at these. *)
Definition children (n : node) : list node :=
  match n with Tag _ _ cs => cs | Text _ => [] end.

(** An element with what is around it: its parent, the ancestors above
    the parent (the nearest first) and the nodes that follow the
    element under its parent. *)
Record place := Place {
  here : located;
  above : list node;
  after : list node
}.

(** The elements below [n], in document order, each with what is
    around it; [ancestors] are the ancestors of [n]. *)
Fixpoint places (ancestors : list node) (n : node) : list place :=
  match n with
  | Text _ => []
  | Tag _ _ cs =>
      (fix siblings (nodes : list node) : list place :=
         match nodes with
         | [] => []
         | c :: rest =>
             match c with
             | Tag _ _ _ =>
                 Place (Loc c n) ancestors rest
                 :: (places (n :: ancestors) c ++ siblings rest)%list
             | Text _ => siblings rest
             end
         end) cs
  end.

(** [soup.find_all(...)], each element with what is around it. *)
Definition find_all_placed (p : node -> bool) (soup : node) : list place :=
  filter (fun x => p (el (here x)) = true) (places [] soup).

(** [soup.select(selector)], each element with what is around it. *)
Definition select_placed (selector : string) (soup : node) : list place :=
  match selector with
  | String "." c => find_all_placed (fun x => Py.mem c (classes x)) soup
  | _ => find_all_placed (is_tag [selector]) soup
  end.

End Dom.

(** ** Effects: exceptions, the world and computations *)

(** The exceptions that the search core meets; all are subclasses of
    [Exception]. *)
Inductive exn :=
| RequestException (what : string)   (* requests.RequestException *)
| JSONDecodeError                    (* requests.exceptions.JSONDecodeError *)
| Error (what : string).             (* any other exception *)

(** [except requests.RequestException]: the exception that
    [response.json()] raises (requests 2.27 and later) is a
    [RequestException] as well as a [json.JSONDecodeError]. *)
Definition is_request_exception (e : exn) : bool :=
  match e with
  | RequestException _ | JSONDecodeError => true
  | Error _ => false
  end.

(** What the interpolation of the [ConfigParser] raises on a value that
    it cannot expand. *)
Definition InterpolationError : exn := Error "InterpolationError".

Definition is_json_decode_error (e : exn) : bool :=
  match e with JSONDecodeError => true | _ => false end.

Definition is_exception (e : exn) : bool := true.

(** The arguments of one [session.get]. *)
Record request := Request {
  rq_url : string;
  rq_params : list (string * string);
  rq_headers : list (string * string)
}.

Record response := Response { status_code : Z; text : string }.

(** What [session.get] meets: an error of the transport (time-out,
    connection) or a response. *)
Inductive outcome :=
| Failed (what : string)
| Answer (r : response).

(** A file of the cache directory: time of its last write and its
    content, [None] when [pickle.load] fails on it. *)
Record cache_file := CacheFile {
  mtime : Z;
  pickled : option (list SearchResult)
}.

Inductive event :=
| CacheStat (file : string)      (* os.path.exists, os.path.getmtime *)
| CacheLoad (file : string)      (* open(file, 'rb'), pickle.load *)
| CacheRemove (file : string)    (* os.remove *)
| CacheWrite (file : string)     (* open(file, 'wb'), pickle.dump *)
| HttpGet (rq : request)         (* session.get *)
| Sleep (seconds : Z).           (* time.sleep *)

(** The state outside the program text: the cache directory, the clock
    (in seconds), what was done so far (oldest first), and the field
    [results] of the [SearchManager]. *)
Record world := World {
  files : gmap string cache_file;
  now : Z;
  trace : list event;
  manager_results : gmap string (gmap string (list SearchResult))
}.

Definition log (e : event) (w : world) : world :=
  World (files w) (now w) (trace w ++ [e]) (manager_results w).

Definition set_files (fs : gmap string cache_file) (w : world) : world :=
  World fs (now w) (trace w) (manager_results w).

(** A computation: from a world to a value or a raised exception, and
    the world after. *)
Definition M (A : Type) : Type := world -> (exn + A) * world.

Definition ret {A} (a : A) : M A := fun w => (inr a, w).

Definition raise {A} (e : exn) : M A := fun w => (inl e, w).

Definition bind {A B} (m : M A) (k : A -> M B) : M B :=
  fun w =>
    match m w with
    | (inl e, w') => (inl e, w')
    | (inr a, w') => k a w'
    end.

(** [try: m / except <class>: h] *)
Definition try_except {A} (m : M A) (caught : exn -> bool) (h : exn -> M A)
    : M A :=
  fun w =>
    match m w with
    | (inl e, w') => if caught e then h e w' else (inl e, w')
    | (inr a, w') => (inr a, w')
    end.

(** A step without effect that may raise. *)
Definition lift {A} (r : exn + A) : M A := fun w => (r, w).

Notation "x <- m ;; k" := (bind m (fun x => k))
  (at level 100, m at next level, right associativity).

(** [time.sleep(seconds)] *)
Definition sleep (seconds : Z) : M unit :=
  fun w =>
    (inr tt, World (files w) (now w + seconds) (trace w ++ [Sleep seconds])
                   (manager_results w)).

(** The progress callback of a category search. *)
Definition callback : Type := string -> nat -> nat -> M unit.

(** ** The environment

    The configuration, the library functions that are not embedded and
    the network. [network] answers a request given all that happened
    before it. *)
Record Env := {
  (** the [ConfigParser]: section, then option, with the value as the
      file has it *)
  config : gmap string (gmap string string);
  (** the interpolation of the parser ([BasicInterpolation.before_get])
      on a value of a section with the given options; [None] when it
      raises *)
  interpolate : gmap string string -> string -> option string;
  (** [hashlib.md5(s.encode()).hexdigest()] *)
  md5_hexdigest : string -> string;
  (** [urllib.parse.quote] *)
  quote : string -> string;
  (** [template.format(query=v)] *)
  format_query : string -> string -> exn + string;
  (** [response.json()] on the text of a response; [None] when decoding
      fails *)
  json_loads : string -> option json;
  (** [base64.b64decode(s).decode('utf-8')] *)
  b64decode_utf8 : string -> exn + string;
  (** [BeautifulSoup(html, 'html.parser')] *)
  BeautifulSoup : string -> exn + Dom.node;
  (** [urllib.parse.urljoin] *)
  urljoin : string -> string -> exn + string;
  network : list event -> request -> outcome;
  (** [re.findall(link_pattern, html, re.IGNORECASE)] for the pattern of
      [_basic_fallback_parsing]: the target and the text of each link *)
  findall_links : string -> list (string * string);
  (** [DebugManager.save_search_results(source_name, query, results,
      raw_html)]: it writes report files outside the cache directory and
      may fail *)
  save_search_results :
    string -> string -> list SearchResult -> string -> option exn
}.

(** ** [ConfigManager] *)

(** Reading one value of a section, [section[option]] or
    [section.get(option, ..)] for an option that is there. *)
Definition read_option (E : Env) (sec : gmap string string) (v : string)
    : exn + string :=
  match interpolate E sec v with
  | Some s => inr s
  | None => inl InterpolationError
  end.

(** Reading all the options of a section, [dict(section)] or
    [section.items()]: every value goes through the interpolation, and
    one value that cannot be expanded makes the reading raise. *)
Definition read_section (E : Env) (sec : gmap string string)
    : exn + gmap string string :=
  if forallb (fun kv : string * string =>
                match interpolate E sec (snd kv) with
                | Some _ => true
                | None => false
                end)
             (map_to_list sec)
  then inr (omap (interpolate E sec) sec)
  else inl InterpolationError.

(** [get_source_config(source_id)] *)
Definition get_source_config (E : Env) (source_id : string)
    : exn + source_config :=
  match config E !! ("SOURCE_" ++ source_id) with
  | Some sec => read_section E sec
  | None => inr ∅
  end.

(** [get_api_key(key_name)] *)
Definition get_api_key (E : Env) (key_name : string) : exn + string :=
  match config E !! "API_KEYS" with
  | Some sec =>
      match sec !! key_name with
      | Some v => read_option E sec v
      | None => inr ""
      end
  | None => inr ""
  end.

(** [[s.strip() for s in sources_str.split(',') if s.strip()]] *)
Definition sources_of (sources_str : string) : list string :=
  filter (fun s => Py.truthy s = true)
         (map Py.strip (Py.split "," sources_str)).

(** [get_categories()]: each category with the list of its sources. *)
Definition get_categories (E : Env) : exn + gmap string (list string) :=
  match config E !! "CATEGORIES" with
  | Some sec =>
      match read_section E sec with
      | inl e => inl e
      | inr values => inr (sources_of <$> values)
      end
  | None => inr ∅
  end.

(** [not source_config]: the dictionary is empty *)
Definition dict_is_empty (cfg : source_config) : bool :=
  bool_decide (cfg = ∅).

(** ** [CacheManager] *)

Definition CACHE_DIR : string := "cache".

Definition _get_cache_key (E : Env) (source query : string) : string :=
  let combined := source ++ "_" ++ query in
  md5_hexdigest E combined.

Definition _get_cache_file (cache_key : string) : string :=
  CACHE_DIR ++ "/" ++ cache_key ++ ".pkl".

(** [os.remove(cache_file)] *)
Definition remove_file (cache_file : string) (w : world) : world :=
  log (CacheRemove cache_file) (set_files (delete cache_file (files w)) w).

(** [get_cached_results(source, query, max_age_hours)] *)
Definition get_cached_results (E : Env) (source query : string)
    (max_age_hours : Z) : M (option (list SearchResult)) :=
  fun w =>
    let cache_key := _get_cache_key E source query in
    let cache_file := _get_cache_file cache_key in
    let w := log (CacheStat cache_file) w in
    match files w !! cache_file with
    | None => (inr None, w)
    | Some f =>
        let file_age := now w - mtime f in
        if file_age >? max_age_hours * 3600 then
          (inr None, remove_file cache_file w)
        else
          let w := log (CacheLoad cache_file) w in
          match pickled f with
          | Some results => (inr (Some results), w)
          | None => (inr None, remove_file cache_file w)
          end
    end.

(** [cache_results(source, query, results)] *)
Definition cache_results (E : Env) (source query : string)
    (results : list SearchResult) : M unit :=
  fun w =>
    let cache_key := _get_cache_key E source query in
    let cache_file := _get_cache_file cache_key in
    (inr tt,
     log (CacheWrite cache_file)
         (set_files (<[cache_file := CacheFile (now w) (Some results)]>
                       (files w)) w)).

(** ** The generic HTML pipeline *)

(** The text of a field that an HTML extractor has filled: these are
    always [str]. *)
Definition text_of (j : json) : string :=
  match j with JStr s => s | _ => "" end.

(** [_is_valid_result(result, search_url)] *)
Definition _is_valid_result (result : SearchResult) (search_url : string)
    : bool :=
  let garbage_patterns :=
    ["/new"; "/create"; "/add"; "/search"; "/filter"; "/login"; "/register";
     "/about"; "/contact"; "/help"; "/faq"; "/terms"; "/privacy";
     "javascript:"; "mailto:"; "#"; "?page="; "?sort="; "?filter="] in
  let u := text_of (url result) in
  let nm := text_of (name result) in
  if Py.any_in garbage_patterns (Py.lower u) then false
  else
    let generic_names :=
      ["new"; "create"; "add"; "search"; "filter"; "view"; "details"; "more";
       "home"; "about"; "contact"; "help"; "login"; "register"; "sign up"] in
    if negb (Py.truthy nm)
       || Py.mem (Py.strip (Py.lower nm)) generic_names
       || (String.length (Py.strip nm) <? 3)%nat
    then false
    else if Py.contains "cursor.directory" search_url then
      if Py.any_in ["/mcp/new"; "/new"; "/create"] u then false
      else if Py.contains "/mcp/" u && (4 <? Py.count "/" u)%nat then true
      else false
    else true.

(** [_looks_like_result_link(link, search_url)] *)
Definition _looks_like_result_link (link : Dom.node) (search_url : string)
    : bool :=
  let href := default "" (Dom.get_attr "href" link) in
  let txt := Dom.get_text link in
  let skip_patterns :=
    ["next"; "prev"; "page"; "home"; "about"; "contact"; "login"; "register"] in
  if existsb (fun pattern => Py.contains pattern (Py.lower href)
                             || Py.contains pattern (Py.lower txt))
             skip_patterns
  then false
  else
    let result_patterns :=
      ["/server"; "/tool"; "/agent"; "/mcp"; "/project"; "/repo"] in
    Py.any_in result_patterns (Py.lower href) && (3 <? String.length txt)%nat.

(** The first candidate whose text is longer than two characters. *)
Fixpoint pick_name (candidates : list (option Dom.node)) : string :=
  match candidates with
  | [] => ""
  | None :: rest => pick_name rest
  | Some name_elem :: rest =>
      let name_text := Dom.get_text name_elem in
      if Py.truthy name_text && (2 <? String.length name_text)%nat
      then name_text
      else pick_name rest
  end.

(** The first candidate whose text passes as a description, cut to 200
    characters. *)
Fixpoint pick_description (candidates : list (option Dom.node))
    (nm : string) : string :=
  match candidates with
  | [] => "No description available"
  | None :: rest => pick_description rest nm
  | Some desc_elem :: rest =>
      let desc_text := Dom.get_text desc_elem in
      if Py.truthy desc_text
         && (15 <? String.length desc_text)%nat
         && negb (String.eqb desc_text nm)
         && negb (Py.mem (Py.lower desc_text)
                    ["view details"; "learn more"; "read more"; "details";
                     "more"; "click here"])
         && negb (Py.startswith "http" desc_text)
         && negb (Py.startswith "www." desc_text)
      then Py.take 200 desc_text
      else pick_description rest nm
  end.

(** The loop over the links of the element: a link to an item goes to
    the front of the candidates, any other to the end. *)
Fixpoint collect_hrefs (links : list Dom.located)
    (url_candidates : list (option string)) : list (option string) :=
  match links with
  | [] => url_candidates
  | link :: rest =>
      let href := default "" (Dom.get_attr "href" (Dom.el link)) in
      if Py.any_in ["/server"; "/tool"; "/mcp"; "/project"; "/repo"] href
      then collect_hrefs rest (Some href :: url_candidates)
      else collect_hrefs rest (url_candidates ++ [Some href])
  end.

(** The first candidate that is not empty, made absolute. *)
Fixpoint pick_url (E : Env) (url_candidates : list (option string))
    (base_url : string) : exn + string :=
  match url_candidates with
  | [] => inr ""
  | Some href :: rest =>
      if Py.truthy href then
        if negb (Py.startswith "http" href) then urljoin E base_url href
        else inr href
      else pick_url E rest base_url
  | None :: rest => pick_url E rest base_url
  end.

(** [_extract_result_from_element_enhanced(element, source_config,
    base_url, search_url)]; an exception inside is caught and gives
    [None]. *)
Definition _extract_result_from_element_enhanced (E : Env)
    (element : Dom.located) (cfg : source_config)
    (base_url search_url : string) : option SearchResult :=
  let e := Dom.el element in
  let tagged names := Dom.find (Dom.is_tag names) e in
  let name_candidates :=
    [tagged ["h1"]; tagged ["h2"]; tagged ["h3"]; tagged ["h4"];
     Dom.find (fun n => Dom.is_tag ["span"; "div"] n
                        && Dom.class_has ["title"; "name"; "heading"] n) e;
     tagged ["strong"]; tagged ["b"];
     Dom.find (fun n => Dom.is_tag ["div"; "span"] n
                        && Dom.class_has ["text-lg"] n) e] in
  let nm := pick_name name_candidates in
  let nm :=
    if negb (Py.truthy nm) && String.eqb (Dom.tag_name e) "a"
    then Dom.get_text e else nm in
  let desc_candidates :=
    [Dom.find (fun n => Dom.is_tag ["p"; "div"] n
                        && Dom.class_has ["desc"; "summary"; "content"] n) e;
     Dom.find (fun n => Dom.is_tag ["span"; "div"] n
                        && Dom.class_has ["text-gray"; "text-sm"] n) e;
     tagged ["p"];
     Dom.find (Dom.is_tag ["p"]) (Dom.parent element);
     Dom.find (fun n => Dom.is_tag ["div"; "span"] n
                        && Dom.class_has ["desc"; "text"] n)
              (Dom.parent element)] in
  let descr := pick_description desc_candidates nm in
  let url_candidates :=
    if String.eqb (Dom.tag_name e) "a" then [Dom.get_attr "href" e] else [] in
  let links :=
    Dom.find_all (fun n => Dom.is_tag ["a"] n && Dom.has_attr "href" n) e in
  let url_candidates := collect_hrefs links url_candidates in
  match pick_url E url_candidates base_url with
  | inl _ => None
  | inr u =>
      if Py.truthy nm && Py.truthy u
      then Some (result_of nm descr u "" (cfg_get cfg "name" "Unknown") "")
      else None
  end.

Definition result_selectors : list string :=
  [".server-card"; ".result-item"; ".search-result"; ".mcp-server";
   ".server-listing"; ".server-item"; ".card"; ".result"; ".entry";
   "article"; ".project"; ".repository"; ".tool"].

(** The loop over the selectors: the elements of the first selector
    that finds more than one. *)
Fixpoint first_selection (selectors : list string) (soup : Dom.node)
    : list Dom.located :=
  match selectors with
  | [] => []
  | selector :: rest =>
      let elements := Dom.select selector soup in
      if (1 <? length elements)%nat then elements
      else first_selection rest soup
  end.

(** The loop [for element in result_elements[:50]] *)
Fixpoint keep_valid (E : Env) (elements : list Dom.located)
    (source_name base_url search_url : string) : list SearchResult :=
  match elements with
  | [] => []
  | element :: rest =>
      let cfg : source_config :=
        <["name" := source_name]> (<["url" := base_url]> ∅) in
      let found :=
        match _extract_result_from_element_enhanced E element cfg base_url
                search_url with
        | Some result =>
            if Py.truthy (Py.strip (text_of (name result)))
               && _is_valid_result result search_url
            then [result] else []
        | None => []
        end in
      found ++ keep_valid E rest source_name base_url search_url
  end.

(** [_parse_generic_results(soup, source_name, base_url, search_url)] *)
Definition _parse_generic_results (E : Env) (soup : Dom.node)
    (source_name base_url search_url : string) : list SearchResult :=
  let result_elements := first_selection result_selectors soup in
  let result_elements :=
    match result_elements with
    | [] =>
        let all_links :=
          Dom.find_all (fun n => Dom.is_tag ["a"] n && Dom.has_attr "href" n)
                       soup in
        filter (fun link =>
                  _looks_like_result_link (Dom.el link) search_url = true)
               all_links
    | _ => result_elements
    end in
  keep_valid E (take 50 result_elements) source_name base_url search_url.

(** ** The extractors written for one site, and the fall-back *)

(** [a or b or ..] on the results of [find]: the first element that was
    found (an element is truthy whatever it holds). *)
Fixpoint first_found (candidates : list (option Dom.node))
    : option Dom.node :=
  match candidates with
  | [] => None
  | Some n :: _ => Some n
  | None :: rest => first_found rest
  end.

(** The loop over the candidates of a description: the text of the
    first candidate that passes the test [ok]. *)
Fixpoint first_text (ok : string -> bool)
    (candidates : list (option Dom.node)) : option string :=
  match candidates with
  | [] => None
  | None :: rest => first_text ok rest
  | Some desc_elem :: rest =>
      let desc_text := Dom.get_text desc_elem in
      if ok desc_text then Some desc_text else first_text ok rest
  end.

(** [urljoin(base_url, href) if not href.startswith('http') else href] *)
Definition absolute (E : Env) (base_url href : string) : exn + string :=
  if negb (Py.startswith "http" href) then urljoin E base_url href
  else inr href.

(** [x.get_text(strip=True) and len(x.get_text(strip=True)) > n] *)
Definition long_text (n : nat) (x : Dom.node) : bool :=
  Py.truthy (Dom.get_text x) && (n <? String.length (Dom.get_text x))%nat.

(** [soup.find('a', href=True)] and the like *)
Definition is_link_to (n : Dom.node) : bool :=
  Dom.is_tag ["a"] n && Dom.has_attr "href" n.

(** The test of a description in [_parse_pulsemcp_results]. *)
Definition pulsemcp_description (nm desc_text : string) : bool :=
  Py.truthy desc_text
  && (30 <? String.length desc_text)%nat
  && negb (String.eqb desc_text nm)
  && negb (Py.mem (Py.lower desc_text)
             ["view details"; "learn more"; "read more"])
  && negb (Py.startswith "http" desc_text)
  && negb (Py.startswith "www." desc_text)
  && (3 <? length (Py.words desc_text))%nat
  && negb ((length (Py.words desc_text) =? 1)%nat
           && Py.contains "-" desc_text)
  && negb ((length (Py.words desc_text) =? 1)%nat
           && String.eqb (Py.lower desc_text) desc_text)
  && negb (Py.contains "@" desc_text)
  && negb (Py.contains "github.com" (Py.lower desc_text)).

(** The body of the loop [for card in server_cards]: the records that
    the card adds, none when an exception is caught. *)
Definition pulsemcp_card (E : Env) (card : Dom.node)
    (source_name base_url : string) : list SearchResult :=
  let tagged names := Dom.find (Dom.is_tag names) card in
  let name_elem :=
    first_found
      [tagged ["h2"]; tagged ["h3"]; tagged ["h4"];
       Dom.find (fun n => Dom.is_tag ["span"; "div"] n
                          && Dom.class_has ["title"; "name"] n) card;
       tagged ["strong"]] in
  let nm :=
    match name_elem with
    | Some x => Dom.get_text x
    | None => "Unknown Server"
    end in
  let desc_candidates :=
    ([Dom.find (fun n => Dom.is_tag ["p"] n
                         && Dom.class_has ["text-gray"; "description";
                                           "summary"] n) card;
      Dom.find (fun n => Dom.is_tag ["div"] n
                         && Dom.class_has ["description"; "summary";
                                           "content"] n) card]
     ++ map (fun p => Some (Dom.el p))
            (filter (fun p => long_text 30 (Dom.el p) = true)
                    (Dom.find_all (Dom.is_tag ["p"]) card))
     ++ map (fun d => Some (Dom.el d))
            (filter (fun d => long_text 30 (Dom.el d) = true)
                    (Dom.find_all (fun n => Dom.is_tag ["div"] n
                                            && Dom.class_has ["text"] n)
                                  card)))%list in
  let descr :=
    match first_text (pulsemcp_description nm) desc_candidates with
    | Some desc_text => Py.take 200 desc_text
    | None => "No description available"
    end in
  match Dom.find is_link_to card with
  | Some link_elem =>
      let href := default "" (Dom.get_attr "href" link_elem) in
      if Py.truthy href then
        match absolute E base_url href with
        | inl _ => []
        | inr u =>
            if Py.contains "/servers/" u
               && negb (String.eqb u base_url)
               && negb (Py.any_in ["?q="; "search"; "filter"] u)
            then [result_of nm descr u "" source_name ""]
            else []
        end
      else []
  | None => []
  end.

(** [_parse_pulsemcp_results(soup, source_name, base_url)] *)
Definition _parse_pulsemcp_results (E : Env) (soup : Dom.node)
    (source_name base_url : string) : list SearchResult :=
  let server_cards :=
    Dom.find_all (fun n => Dom.is_tag ["div"] n
                           && Dom.attr_has "data-test-id"
                                           ["mcp-server-grid-card"] n)
                 soup in
  flat_map (fun card => pulsemcp_card E (Dom.el card) source_name base_url)
           server_cards.

(** The texts that [_parse_mcpservers_results] refuses in a
    description. *)
Definition mcpservers_skips : list string :=
  ["showing"; "of"; "servers"; "page"; "view details"; "more";
   "next"; "prev"; "total"; "results"; "found";
   "sponsor"; "discover"; "extract"; "interact"; "automated access";
   "bright data"; "interface powering"; "public internet";
   "advertisement"; "promoted"; "featured"; "sponsored";
   "click here"; "learn more"; "read more"; "get started"].

(** The test of a description in [_parse_mcpservers_results]. *)
Definition mcpservers_description (nm desc_text : string) : bool :=
  Py.truthy desc_text
  && (20 <? String.length desc_text)%nat
  && (String.length desc_text <? 200)%nat
  && negb (String.eqb desc_text nm)
  && negb (Py.any_in mcpservers_skips (Py.lower desc_text))
  && negb (Py.startswith "http" desc_text)
  && negb ((Py.count "." desc_text <=? 1)%nat
           && (10 <? length (Py.words desc_text))%nat).

(** [container]: the parent of the link, or the element one or two
    levels above the parent when there is one. *)
Definition container_of (link : Dom.place) : Dom.node :=
  match Dom.above link with
  | [] => Dom.parent (Dom.here link)
  | [above_parent] => above_parent
  | _ :: second :: _ => second
  end.

(** The name and the first description that
    [_parse_mcpservers_results] makes of the target of a link. *)
Definition mcpservers_name (href : string) : string * string :=
  let server_path :=
    if Py.contains "/servers/" href
    then List.last (Py.split "/servers/" href) ""
    else "" in
  if Py.contains "/" server_path then
    let '(author, repo) := Py.split1 "/" server_path in
    (author ++ "/" ++ Py.replace "-" " " repo, "MCP server by " ++ author)
  else
    let spaced := Py.replace "-" " " server_path in
    (if Py.truthy spaced then spaced else "Unknown Server", "MCP server").

(** The body of the loop [for link in server_links]. *)
Definition mcpservers_link (E : Env) (link : Dom.place)
    (source_name base_url : string) : list SearchResult :=
  let href := default "" (Dom.get_attr "href" (Dom.el (Dom.here link))) in
  match absolute E base_url href with
  | inl _ => []
  | inr u =>
      let '(nm, description) := mcpservers_name href in
      let desc_candidates :=
        map (fun x => Some (Dom.el x))
            (Dom.find_all (Dom.is_tag ["p"; "div"; "span"])
                          (container_of link)) in
      let descr :=
        default description
                (first_text (mcpservers_description nm) desc_candidates) in
      [result_of nm descr u "" source_name ""]
  end.

(** [_parse_mcpservers_results(soup, source_name, base_url)] *)
Definition _parse_mcpservers_results (E : Env) (soup : Dom.node)
    (source_name base_url : string) : list SearchResult :=
  let server_links :=
    Dom.find_all_placed (fun n => Dom.is_tag ["a"] n
                                  && Dom.attr_has "href" ["/servers/"] n)
                        soup in
  flat_map (fun link => mcpservers_link E link source_name base_url)
           server_links.

Definition finder_selectors : list string :=
  [".server-card"; ".result-item"; ".search-result"; ".server";
   ".mcp-server"; ".card"; ".listing"].

(** The loop over the selectors of [_parse_mcpserverfinder_results]:
    the elements of the first selector that finds more than one. *)
Fixpoint first_selection_placed (selectors : list string) (soup : Dom.node)
    : list Dom.place :=
  match selectors with
  | [] => []
  | selector :: rest =>
      let elements := Dom.select_placed selector soup in
      if (1 <? length elements)%nat then elements
      else first_selection_placed rest soup
  end.

(** [result_elements] of [_parse_mcpserverfinder_results]. *)
Definition finder_elements (soup : Dom.node) : list Dom.place :=
  let result_elements := first_selection_placed finder_selectors soup in
  let result_elements :=
    match result_elements with
    | [] =>
        Dom.find_all_placed
          (fun n => Dom.is_tag ["a"] n
                    && Dom.attr_has "href" ["/servers/"; "/server/"; "/mcp/"]
                                    n)
          soup
    | _ => result_elements
    end in
  match result_elements with
  | [] =>
      let potential_containers :=
        Dom.find_all_placed
          (fun n => Dom.is_tag ["div"; "section"; "article"] n
                    && Dom.has_attr "class" n)
          soup in
      filter (fun elem =>
                is_Some (Dom.find is_link_to (Dom.el (Dom.here elem))))
             potential_containers
  | _ => result_elements
  end.

(** The first candidate whose text passes as a name. *)
Fixpoint finder_name (candidates : list (option Dom.node)) : string :=
  match candidates with
  | [] => ""
  | None :: rest => finder_name rest
  | Some name_elem :: rest =>
      let name_text := Dom.get_text name_elem in
      if Py.truthy name_text
         && (2 <? String.length name_text)%nat
         && negb (Py.mem (Py.lower name_text)
                    ["view"; "details"; "more"; "server"])
      then name_text
      else finder_name rest
  end.

(** The test of a description in [_parse_mcpserverfinder_results]. *)
Definition finder_description (nm desc_text : string) : bool :=
  Py.truthy desc_text
  && (15 <? String.length desc_text)%nat
  && negb (String.eqb desc_text nm)
  && negb (Py.mem (Py.lower desc_text)
             ["view details"; "learn more"; "read more"; "details"; "more";
              "click here"])
  && negb (Py.startswith "http" desc_text)
  && negb (Py.startswith "www." desc_text)
  && (2 <? length (Py.words desc_text))%nat
  && negb (Py.contains (Py.lower nm) (Py.lower desc_text)
           && (length (Py.words desc_text) <=? 3)%nat).

(** The test that [_parse_mcpserverfinder_results] puts before a
    record. *)
Definition finder_keeps (nm u base_url : string) : bool :=
  Py.truthy nm
  && Py.truthy u
  && negb (String.eqb nm "No name")
  && negb (Py.any_in ["search"; "filter"; "new"; "create"; "add"; "login";
                      "register"] (Py.lower u))
  && (2 <? String.length (Py.strip nm))%nat
  && (Py.contains "/server" (Py.lower u)
      || Py.contains "/mcp" (Py.lower u)
      || Py.contains base_url u).

(** The body of the loop [for element in result_elements[:50]]; an
    [href] that is absent counts as empty, no record is made of
    either. *)
Definition finder_element (E : Env) (element : Dom.place)
    (source_name base_url : string) : list SearchResult :=
  let e := Dom.el (Dom.here element) in
  let up := Dom.parent (Dom.here element) in
  let is_a := String.eqb (Dom.tag_name e) "a" in
  let tagged names := Dom.find (Dom.is_tag names) e in
  let name_candidates :=
    [tagged ["h1"]; tagged ["h2"]; tagged ["h3"]; tagged ["h4"];
     Dom.find (fun n => Dom.is_tag ["span"; "div"] n
                        && Dom.class_has ["name"; "title"; "heading"] n) e;
     tagged ["strong"]; tagged ["b"];
     Dom.find (fun n => Dom.is_tag ["div"; "span"] n
                        && Dom.class_has ["font-bold"; "font-semibold"] n)
              e] in
  let nm := finder_name name_candidates in
  let nm := if negb (Py.truthy nm) && is_a then Dom.get_text e else nm in
  let nm :=
    if negb (Py.truthy nm) then
      match (if is_a then Some e else Dom.find is_link_to e) with
      | Some link_elem =>
          let href := default "" (Dom.get_attr "href" link_elem) in
          if Py.contains "/servers/" href then
            let server_path := List.last (Py.split "/servers/" href) "" in
            Py.title (Py.replace "_" " " (Py.replace "-" " " server_path))
          else nm
      | None => nm
      end
    else nm in
  let href :=
    if is_a then default "" (Dom.get_attr "href" e)
    else match Dom.find is_link_to e with
         | Some link_elem => default "" (Dom.get_attr "href" link_elem)
         | None => ""
         end in
  let joined :=
    if Py.truthy href && negb (Py.startswith "http" href)
    then urljoin E base_url href
    else inr href in
  match joined with
  | inl _ => []
  | inr u =>
      let desc_approaches :=
        [Dom.find (fun n => Dom.is_tag ["p"; "div"] n
                            && Dom.class_has ["desc"; "summary"; "content";
                                              "info"] n) e;
         tagged ["p"];
         Dom.find (fun n => Dom.is_tag ["span"; "div"] n
                            && Dom.class_has ["text"; "gray"] n) e;
         Dom.find (Dom.is_tag ["p"]) up;
         Dom.find (fun n => Dom.is_tag ["div"; "span"] n
                            && Dom.class_has ["desc"; "text"] n) up;
         head (filter (fun d => Dom.is_tag ["div"] d && long_text 20 d = true)
                      (Dom.children e));
         head (filter (fun x => Dom.is_tag ["p"; "div"] x = true)
                      (Dom.after element))] in
      let descr :=
        match first_text (finder_description nm) desc_approaches with
        | Some desc_text => Py.take 300 desc_text
        | None => "No description available"
        end in
      if finder_keeps nm u base_url
      then [result_of nm descr u "" source_name ""]
      else []
  end.

(** [_parse_mcpserverfinder_results(soup, source_name, base_url)] *)
Definition _parse_mcpserverfinder_results (E : Env) (soup : Dom.node)
    (source_name base_url : string) : list SearchResult :=
  flat_map (fun element => finder_element E element source_name base_url)
           (take 50 (finder_elements soup)).

(** The loop [for href, text in matches[:20]] of
    [_basic_fallback_parsing]; nothing catches what [urljoin] raises. *)
Fixpoint fallback_links (E : Env) (matches : list (string * string))
    (source_name base_url : string) : exn + list SearchResult :=
  match matches with
  | [] => inr []
  | (href, txt) :: rest =>
      if (3 <? String.length (Py.strip txt))%nat then
        match absolute E base_url href with
        | inl e => inl e
        | inr u =>
            match fallback_links E rest source_name base_url with
            | inl e => inl e
            | inr results =>
                inr (result_of (Py.strip txt) "Found via basic parsing" u ""
                               source_name ""
                     :: results)
            end
        end
      else fallback_links E rest source_name base_url
  end.

(** [_basic_fallback_parsing(html, source_config)] *)
Definition _basic_fallback_parsing (E : Env) (html : string)
    (cfg : source_config) : exn + list SearchResult :=
  let source_name := cfg_get cfg "name" "Unknown" in
  let base_url := cfg_get cfg "url" "" in
  fallback_links E (take 20 (findall_links E html)) source_name base_url.

(** ** [BaseSearchClient]: parsers of responses *)

(** [for item in items]: what iterating over a decoded value gives. *)
Definition iterate (items : json) : exn + list json :=
  match items with
  | JArr l => inr l
  | JObj d => inr (map (fun kv => JStr (fst kv)) d)
  | JStr s => inr (map (fun c => JStr (String c EmptyString))
                       (list_ascii_of_string s))
  | _ => inl (Error "TypeError: object is not iterable")
  end.

(** [item.get(key, item.get(alias, ''))] *)
Definition get_aliased (item : list (string * json)) (key alias : string)
    : json :=
  default (default (JStr "") (dict_get alias item)) (dict_get key item).

(** The loop [for item in items] of [_parse_api_response]. *)
Fixpoint api_items (items : list json) (source_name : string)
    : list SearchResult :=
  match items with
  | [] => []
  | JObj item :: rest =>
      mkResult (get_aliased item "name" "title")
               (get_aliased item "description" "desc")
               (get_aliased item "url" "link")
               (get_aliased item "github_url" "repository_url")
               "" source_name "" item
      :: api_items rest source_name
  | _ :: rest => api_items rest source_name
  end.

(** [_parse_api_response(data, source_config)] *)
Definition _parse_api_response (data : json) (cfg : source_config)
    : exn + list SearchResult :=
  let source_name := cfg_get cfg "name" "Unknown" in
  let items : option json :=
    match data with
    | JObj d =>
        match dict_get "results" d with
        | Some v => Some v
        | None =>
            match dict_get "data" d with
            | Some v => Some v
            | None =>
                match dict_get "items" d with
                | Some v => Some v
                | None => Some (JArr [data])
                end
            end
        end
    | JArr _ => Some data
    | _ => None
    end in
  match items with
  | None => inr []
  | Some items =>
      match iterate items with
      | inl e => inl e
      | inr l => inr (api_items l source_name)
      end
  end.

(** The loop [for line in lines[:10]] of [_parse_text_response], with
    the list [results] that it extends. *)
Fixpoint text_lines (lines : list string) (source_name : string)
    (results : list SearchResult) : list SearchResult :=
  match lines with
  | [] => results
  | line :: rest =>
      if Py.truthy (Py.strip line) then
        let result :=
          result_of (Py.take 100 (Py.strip line))
                    ("Content from " ++ source_name) "" "" source_name "" in
        text_lines rest source_name (results ++ [result])
      else text_lines rest source_name results
  end.

(** [_parse_text_response(text, source_config)] *)
Definition _parse_text_response (txt : string) (cfg : source_config)
    : list SearchResult :=
  let source_name := cfg_get cfg "name" "Unknown" in
  let lines := Py.split Py.nl txt in
  text_lines (take 10 lines) source_name [].

(** [_parse_github_response(data, source_config, repo)] *)
Definition _parse_github_response (data : json) (cfg : source_config)
    (repo : string) : list SearchResult :=
  let source_name := cfg_get cfg "name" "Unknown" in
  [result_of (List.last (Py.split "/" repo) "")
             (cfg_get cfg "description" "")
             ("https://github.com/" ++ repo)
             ("https://github.com/" ++ repo)
             source_name ""].

(** The query that the debug report is filed under:
    [search_url.split('q=')[-1].split('&')[0]], or ["unknown"]. *)
Definition query_of_url (search_url : string) : string :=
  if Py.contains "q=" search_url then
    List.hd "" (Py.split "&" (List.last (Py.split "q=" search_url) ""))
  else "unknown".

(** [_parse_search_results_html(html, source_config, search_url)]: any
    exception of the body of the [try] leads to the fall-back. *)
Definition _parse_search_results_html (E : Env) (html : string)
    (cfg : source_config) (search_url : string) : exn + list SearchResult :=
  let source_name := cfg_get cfg "name" "Unknown" in
  let base_url := cfg_get cfg "url" "" in
  let body : exn + list SearchResult :=
    match BeautifulSoup E html with
    | inl e => inl e
    | inr soup =>
        let results :=
          if Py.contains "pulsemcp.com" search_url then
            _parse_pulsemcp_results E soup source_name base_url
          else if Py.contains "mcpservers.org" search_url then
            _parse_mcpservers_results E soup source_name base_url
          else if Py.contains "mcpserverfinder.com" search_url then
            _parse_mcpserverfinder_results E soup source_name base_url
          else
            _parse_generic_results E soup source_name base_url search_url in
        match save_search_results E source_name (query_of_url search_url)
                results html with
        | Some e => inl e
        | None => inr results
        end
    end in
  match body with
  | inl _ => _basic_fallback_parsing E html cfg
  | inr results => inr results
  end.

(** [_parse_scraped_content(html, source_config, query)] *)
Definition _parse_scraped_content (E : Env) (html : string)
    (cfg : source_config) (query : string) : exn + list SearchResult :=
  let source_name := cfg_get cfg "name" "Unknown" in
  match _parse_search_results_html E html cfg (cfg_get cfg "url" "") with
  | inl e => inl e
  | inr results =>
      match results with
      | [] => inr results
      | _ =>
          match save_search_results E source_name query results html with
          | Some e => inl e
          | None => inr results
          end
      end
  end.

(** ** [BaseSearchClient]: retrieval strategies *)

(** [session.get(url, params=.., headers=.., timeout=..)] *)
Definition session_get (E : Env) (rq : request) : M response :=
  fun w =>
    match network E (trace w) rq with
    | Failed what => (inl (RequestException what), log (HttpGet rq) w)
    | Answer r => (inr r, log (HttpGet rq) w)
    end.

(** [response.raise_for_status()] *)
Definition raise_for_status (r : response) : M unit :=
  if (400 <=? status_code r) && (status_code r <? 600)
  then raise (RequestException "HTTPError")
  else ret tt.

(** [response.json()] *)
Definition response_json (E : Env) (r : response) : M json :=
  match json_loads E (text r) with
  | Some data => ret data
  | None => raise JSONDecodeError
  end.

(** The loop that builds [params] from the template of parameters. *)
Fixpoint build_params (E : Env) (pairs : list string) (query : string)
    (params : list (string * string)) : exn + list (string * string) :=
  match pairs with
  | [] => inr params
  | param_pair :: rest =>
      if Py.contains "=" param_pair then
        let '(key, value) := Py.split1 "=" param_pair in
        if Py.contains "{query}" value then
          match format_query E value (quote E query) with
          | inl e => inl e
          | inr value => build_params E rest query (dict_set key value params)
          end
        else build_params E rest query (dict_set key value params)
      else build_params E rest query params
  end.

(** [_search_api(source_config, query)] *)
Definition _search_api (E : Env) (cfg : source_config) (query : string)
    : M (list SearchResult) :=
  let endpoint := cfg_get cfg "search_endpoint" "" in
  if negb (Py.truthy endpoint) then ret []
  else
    let params_template := cfg_get cfg "search_params" "q={query}" in
    try_except
      (r <- (if Py.contains "{query}" endpoint then
               u <- lift (format_query E endpoint (quote E query)) ;;
               session_get E (Request u [] [])
             else
               params <- lift (build_params E (Py.split "&" params_template)
                                            query []) ;;
               session_get E (Request endpoint params [])) ;;
       _ <- raise_for_status r ;;
       results <- try_except
                    (data <- response_json E r ;;
                     lift (_parse_api_response data cfg))
                    is_json_decode_error
                    (fun _ => ret (_parse_text_response (text r) cfg)) ;;
       ret results)
      is_request_exception
      (fun _ => ret []).

(** [_search_url_param(source_config, query)] *)
Definition _search_url_param (E : Env) (cfg : source_config)
    (query : string) : M (list SearchResult) :=
  let search_endpoint := cfg_get cfg "search_endpoint" "" in
  if negb (Py.truthy search_endpoint) then ret []
  else
    try_except
      (search_url <- lift (format_query E search_endpoint (quote E query)) ;;
       r <- session_get E (Request search_url [] []) ;;
       _ <- raise_for_status r ;;
       lift (_parse_search_results_html E (text r) cfg search_url))
      is_request_exception
      (fun _ => ret []).

(** The headers of a request to the GitHub API; reading the key may
    raise. *)
Definition github_headers (E : Env) : exn + list (string * string) :=
  match get_api_key E "github_api_key" with
  | inl e => inl e
  | inr github_token =>
      inr (if Py.truthy github_token
           then [("Authorization", "token " ++ github_token)]
           else [])
  end.

(** [_search_github_api(source_config, query)] *)
Definition _search_github_api (E : Env) (cfg : source_config)
    (query : string) : M (list SearchResult) :=
  let repo := cfg_get cfg "search_repo" "" in
  let search_file := cfg_get cfg "search_file" "README.md" in
  if negb (Py.truthy repo) then ret []
  else
    try_except
      (headers <- lift (github_headers E) ;;
       let search_url := "https://api.github.com/search/code" in
       let params :=
         [("q", query ++ " repo:" ++ repo ++ " filename:" ++ search_file);
          ("sort", "indexed"); ("order", "desc")] in
       r <- session_get E (Request search_url params headers) ;;
       _ <- raise_for_status r ;;
       data <- response_json E r ;;
       ret (_parse_github_response data cfg repo))
      is_request_exception
      (fun _ => ret []).

(** ['content' in data] followed by [data['content']] *)
Definition content_of (data : json) : exn + option json :=
  match data with
  | JObj d => inr (dict_get "content" d)
  | JArr l =>
      if existsb (fun j => match j with
                           | JStr s => String.eqb s "content"
                           | _ => false
                           end) l
      then inl (Error "TypeError: list indices must be integers")
      else inr None
  | JStr s =>
      if Py.contains "content" s
      then inl (Error "TypeError: string indices must be integers")
      else inr None
  | _ => inl (Error "TypeError: argument is not iterable")
  end.

(** [_search_awesome_list(source_config, query)] *)
Definition _search_awesome_list (E : Env) (cfg : source_config)
    (query : string) : M (list SearchResult) :=
  let repo := cfg_get cfg "search_repo" "" in
  let search_file := cfg_get cfg "search_file" "README.md" in
  if negb (Py.truthy repo) then ret []
  else
    try_except
      (headers <- lift (github_headers E) ;;
       let content_url :=
         "https://api.github.com/repos/" ++ repo ++ "/contents/"
         ++ search_file in
       r <- session_get E (Request content_url [] headers) ;;
       _ <- raise_for_status r ;;
       data <- response_json E r ;;
       c <- lift (content_of data) ;;
       match c with
       | Some (JStr encoded) =>
           readme_content <- lift (b64decode_utf8 E encoded) ;;
           ret (Awesome._parse_awesome_list_content readme_content cfg query)
       | Some _ => raise (Error "TypeError: a bytes-like object is required")
       | None => ret []
       end)
      is_exception
      (fun _ => ret []).

(** [_search_scrape(source_config, query)] *)
Definition _search_scrape (E : Env) (cfg : source_config) (query : string)
    : M (list SearchResult) :=
  let base_url := cfg_get cfg "url" "" in
  if negb (Py.truthy base_url) then ret []
  else
    try_except
      (r <- session_get E (Request base_url [] []) ;;
       _ <- raise_for_status r ;;
       lift (_parse_scraped_content E (text r) cfg query))
      is_request_exception
      (fun _ => ret []).

(** ** [BaseSearchClient.search] *)

(** The choice of the strategy by [search_method]; [None] for a method
    that is not known. *)
Definition strategy (E : Env) (search_method : string)
    : option (source_config -> string -> M (list SearchResult)) :=
  if String.eqb search_method "api" then Some (_search_api E)
  else if String.eqb search_method "url_param" then Some (_search_url_param E)
  else if String.eqb search_method "github_api"
  then Some (_search_github_api E)
  else if String.eqb search_method "awesome_list"
  then Some (_search_awesome_list E)
  else if String.eqb search_method "scrape" then Some (_search_scrape E)
  else None.

(** The part of [search] after the section of the source was read as
    [cfg]. *)
Definition search_section (E : Env) (cfg : source_config)
    (source_id query : string) (use_cache : bool) : M (list SearchResult) :=
  if dict_is_empty cfg then ret []
  else
    try_except
      (let search_method := cfg_get cfg "search_method" "scrape" in
       match strategy E search_method with
       | None => ret []
       | Some run =>
           results <- run cfg query ;;
           _ <- (match results with
                 | [] => ret tt
                 | _ => if use_cache
                        then cache_results E source_id query results
                        else ret tt
                 end) ;;
           ret results
       end)
      is_exception
      (fun _ => ret []).

(** The part of [search] after the look-up in the cache: the section of
    the source is read before the [try], so that a failure of the
    reading is raised to the caller. *)
Definition search_live (E : Env) (source_id query : string)
    (use_cache : bool) : M (list SearchResult) :=
  cfg <- lift (get_source_config E source_id) ;;
  search_section E cfg source_id query use_cache.

(** [search(source_id, query, use_cache)] *)
Definition search (E : Env) (source_id query : string) (use_cache : bool)
    : M (list SearchResult) :=
  cached_results <- (if use_cache
                     then get_cached_results E source_id query 24
                     else ret None) ;;
  match cached_results with
  | Some results => ret results
  | None => search_live E source_id query use_cache
  end.

(** ** [SearchManager.search_category] *)

(** The dictionary [results] and the list [failed_sources]. *)
Definition progress : Type := gmap string (list SearchResult) * list string.

(** [progress_callback(status, current, total)] when a callback was
    given. *)
Definition notify (progress_callback : option callback) (status : string)
    (current total : nat) : M unit :=
  match progress_callback with
  | Some f => f status current total
  | None => ret tt
  end.

(** [failed_sources.remove(source_id)] *)
Fixpoint list_remove (x : string) (l : list string) : list string :=
  match l with
  | [] => []
  | y :: l' => if String.eqb x y then l' else y :: list_remove x l'
  end.

(** The first loop, [for i, source_id in enumerate(sources)], from the
    index [i] on. *)
Fixpoint first_pass (E : Env) (sources : list string) (i total : nat)
    (query : string) (progress_callback : option callback) (st : progress)
    : M progress :=
  match sources with
  | [] => ret st
  | source_id :: rest =>
      _ <- notify progress_callback ("Searching " ++ source_id ++ "...")
                  i total ;;
      st <- try_except
              (source_results <- search E source_id query true ;;
               match source_results with
               | [] => ret (fst st, (snd st ++ [source_id])%list)
               | _ => ret (<[source_id := source_results]> (fst st), snd st)
               end)
              is_exception
              (fun _ => ret (fst st, (snd st ++ [source_id])%list)) ;;
      first_pass E rest (S i) total query progress_callback st
  end.

(** The loop of the retry, [for source_id in failed_sources[:]]. *)
Fixpoint retry_pass (E : Env) (pending : list string) (query : string)
    (st : progress) : M progress :=
  match pending with
  | [] => ret st
  | source_id :: rest =>
      st <- try_except
              (_ <- sleep 1 ;;
               source_results <- search E source_id query false ;;
               match source_results with
               | [] => ret st
               | _ => ret (<[source_id := source_results]> (fst st),
                           list_remove source_id (snd st))
               end)
              is_exception
              (fun _ => ret st) ;;
      retry_pass E rest query st
  end.

(** [self.results[category] = results] *)
Definition store_results (category : string)
    (results : gmap string (list SearchResult)) : M unit :=
  fun w =>
    (inr tt, World (files w) (now w) (trace w)
                   (<[category := results]> (manager_results w))).

(** [search_category(category, query, progress_callback)] *)
Definition search_category (E : Env) (category query : string)
    (progress_callback : option callback)
    : M (gmap string (list SearchResult)) :=
  categories <- lift (get_categories E) ;;
  match categories !! category with
  | None => ret ∅
  | Some sources =>
      st <- first_pass E sources 0 (length sources) query progress_callback
                       (∅, []) ;;
      st <- (match snd st, progress_callback with
             | _ :: _, Some f =>
                 _ <- f "Retrying failed sources..." (length sources)
                        (length sources) ;;
                 retry_pass E (snd st) query st
             | _, _ => ret st
             end) ;;
      _ <- store_results category (fst st) ;;
      ret (fst st)
  end.

(** ** Notions used in the statements *)

Definition is_get (e : event) : bool :=
  match e with HttpGet _ => true | _ => false end.

(** An access to the cache directory. *)
Definition is_cache_event (e : event) : bool :=
  match e with
  | CacheStat _ | CacheLoad _ | CacheRemove _ | CacheWrite _ => true
  | _ => false
  end.

(** The number of requests sent so far. *)
Definition count_gets (tr : list event) : nat :=
  length (filter (fun e => is_get e = true) tr).

(** The invariant that the data model states for a result: a name that
    is not empty and at least one of the two addresses not empty. *)
Definition valid_record (r : SearchResult) : Prop :=
  name r <> JStr "" /\ (url r <> JStr "" \/ github_url r <> JStr "").

(** The two halves of the invariant on a record of an HTML or text
    extractor, whose fields are texts. *)
Definition has_name (r : SearchResult) : Prop :=
  exists nm, name r = JStr nm /\ nm <> "".

Definition has_url (r : SearchResult) : Prop :=
  exists u, url r = JStr u /\ u <> "".

(** [urljoin] makes no empty address of the base [base_url] and a
    target that is not empty and does not start with [http]. *)
Definition urljoin_keeps (E : Env) (base_url : string) : Prop :=
  forall href u,
    href <> "" ->
    Py.startswith "http" href = false ->
    urljoin E base_url href = inr u -> u <> "".

(** The links that the pattern of the fall-back finds in [html] have a
    target: its group for the target matches one character at least. *)
Definition links_have_targets (E : Env) (html : string) : Prop :=
  forall href txt, (href, txt) ∈ findall_links E html -> href <> "".

(** [isinstance(item, dict)] *)
Definition is_object (j : json) : bool :=
  match j with JObj _ => true | _ => false end.

(** The record that [_parse_text_response] makes of a line. *)
Definition text_record (source_name line : string) : SearchResult :=
  result_of (Py.take 100 (Py.strip line)) ("Content from " ++ source_name)
            "" "" source_name "".

Definition is_blank (line : string) : bool := negb (Py.truthy (Py.strip line)).

(** The lines that the plain-text parse is said to keep, in the words of
    the specification: the first [n] lines that are not empty. *)
Definition spec_first_nonempty_lines (n : nat) (body : string) : list string :=
  take n (filter (fun line => is_blank line = false) (Py.split Py.nl body)).

(** The lines that [_parse_text_response] keeps: those of the first ten
    lines that are not blank. *)
Definition kept_lines (body : string) : list string :=
  filter (fun line => is_blank line = false) (take 10 (Py.split Py.nl body)).

(** The network is down: every request fails in the transport or is
    answered with an error status. *)
Definition network_down (E : Env) : Prop :=
  forall tr rq,
    match network E tr rq with
    | Failed _ => True
    | Answer r => 400 <= status_code r < 600
    end.

(** The request that [_search_api] builds for a query: the endpoint
    with the query in it, or the endpoint with the parameters of the
    template; building it may raise. *)
Definition api_request (E : Env) (cfg : source_config) (query : string)
    : exn + request :=
  let endpoint := cfg_get cfg "search_endpoint" "" in
  if Py.contains "{query}" endpoint then
    match format_query E endpoint (quote E query) with
    | inl e => inl e
    | inr u => inr (Request u [] [])
    end
  else
    match build_params E (Py.split "&" (cfg_get cfg "search_params"
                                                "q={query}")) query [] with
    | inl e => inl e
    | inr params => inr (Request endpoint params [])
    end.

(** The source has no section in the configuration, or an empty one. *)
Definition unknown_source (E : Env) (source_id : string) : Prop :=
  get_source_config E source_id = inr ∅.

(** The retrieval mode of the source is none of the five. *)
Definition unknown_method (E : Env) (source_id : string) : Prop :=
  exists cfg,
    get_source_config E source_id = inr cfg
    /\ strategy E (cfg_get cfg "search_method" "scrape") = None.

(** The strategy of the source raises when run in the world [w]. *)
Definition strategy_raises (E : Env) (source_id query : string) (w : world)
    : Prop :=
  exists cfg run e w',
    get_source_config E source_id = inr cfg
    /\ strategy E (cfg_get cfg "search_method" "scrape") = Some run
    /\ run cfg query w = (inl e, w').

(** The targets of the navigation links of the HTML example. *)
Definition nav_targets : list string := ["/login"; "/new"; "/search?q=x"].

Definition is_link (n : Dom.node) : bool :=
  Dom.is_tag ["a"] n && Dom.has_attr "href" n.

(** Every hyperlink of the document points to one of [nav_targets]. *)
Definition only_nav_links (soup : Dom.node) : bool :=
  forallb (fun x =>
             if is_link (Dom.el x)
             then Py.mem (default "" (Dom.get_attr "href" (Dom.el x)))
                         nav_targets
             else true)
          (Dom.descendants soup).

(** A computation that gives no record: it returns the empty list or
    raises. *)
Definition nothing (m : M (list SearchResult)) : Prop :=
  forall w, fst (m w) = inr [] \/ exists e, fst (m w) = inl e.

(** A callback that returns. *)
Definition returns (f : callback) : Prop :=
  forall status current total w,
    exists w', f status current total w = (inr tt, w').

(** A candidate address: none, or a navigation target. *)
Definition nav_or_none (o : option string) : Prop :=
  match o with
  | None => True
  | Some h => h ∈ nav_targets
  end.

(** [urljoin] keeps an absolute path: joining a base with one of the
    navigation targets gives an address that ends with the target. *)
Definition urljoin_keeps_path (E : Env) : Prop :=
  forall base href u,
    href ∈ nav_targets -> urljoin E base href = inr u ->
    exists pre, u = pre ++ href.

(** A computation that leaves the cache directory alone. *)
Definition cache_untouched {A} (m : M A) : Prop :=
  forall w,
    files (snd (m w)) = files w
    /\ exists evs, trace (snd (m w)) = (trace w ++ evs)%list
                   /\ Forall (fun e => is_cache_event e = false) evs.

(** ** Concrete environments and inputs

    Small instances on which the definitions above are evaluated. *)

Module Demo.

(** The three groups of a match of [line] against [pattern]. *)
Definition groups (pattern line : string) : option (list string) :=
  match Re.re_match_multiline pattern line with
  | Some m => Some (map (Re.group line m) [1; 2; 3]%nat)
  | None => None
  end.

(** The pattern of the markdown extraction at index [i]. *)
Definition pattern (i : nat) : string := nth i Awesome.patterns "".

(** The document of the markdown example. *)
Definition catalogue : string :=
  "# Servers" ++ Py.nl ++ "- [Foo](http://a) - bar thing"
  ++ Py.nl ++ "- [Table of Contents](http://b)".

Definition foo_record (source_name : string) : SearchResult :=
  result_of "Foo" "bar thing (Category: Servers)" "http://a" ""
            source_name "Servers".

Definition api_cfg : source_config :=
  <["name" := "Api One"]>
    (<["search_method" := "api"]>
       (<["search_endpoint" := "http://x/api?q={query}"]> ∅)).

Definition the_config : gmap string (gmap string string) :=
  <["SOURCE_api1" := api_cfg]> (<["CATEGORIES" := {["servers" := "api1"]}]> ∅).

Definition api_item : list (string * json) :=
  [("name", JStr "Foo"); ("url", JStr "http://a")].

Definition api_record : SearchResult :=
  mkResult "Foo" "" "http://a" "" "" "Api One" "" api_item.

(** A stand-in for the interpolation: a value without a percent sign
    is read as it is, any other is refused. *)
Definition plain_value (sec : gmap string string) (v : string)
    : option string :=
  if Py.contains "%" v then None else Some v.

(** A stand-in for [template.format(query=v)]: the template may hold
    the field [{query}] and no other brace. *)
Definition format (template v : string) : exn + string :=
  let rest := Py.replace "{query}" "" template in
  if Py.mem_char "{" rest || Py.mem_char "}" rest
  then inl (Error "ValueError")
  else inr (Py.replace "{query}" v template).

(** An environment with simple stand-ins for the library functions;
    [net] is the network. *)
Definition env_with (net : list event -> request -> outcome)
    (loads : string -> option json) : Env :=
  {| config := the_config;
     interpolate := plain_value;
     md5_hexdigest := fun s => s;
     quote := fun s => s;
     format_query := format;
     json_loads := loads;
     b64decode_utf8 := fun s => inr s;
     BeautifulSoup := fun _ => inr (Dom.Tag "[document]" [] []);
     urljoin := fun base href => inr (base ++ href);
     network := net;
     findall_links := fun _ => [];
     save_search_results := fun _ _ _ _ => None |}.

Definition loads_items (body : string) : option json :=
  if String.eqb body "ITEMS" then Some (JArr [JObj api_item]) else None.

(** The first request times out, every later one is answered. *)
Definition flaky_net (tr : list event) (rq : request) : outcome :=
  match count_gets tr with
  | O => Failed "timeout"
  | S _ => Answer (Response 200 "ITEMS")
  end.

Definition flaky : Env := env_with flaky_net loads_items.

(** No request gets through. *)
Definition offline : Env :=
  env_with (fun _ _ => Failed "unreachable") loads_items.

(** Every request is answered. *)
Definition steady : Env :=
  env_with (fun _ _ => Answer (Response 200 "ITEMS")) loads_items.

(** A body that is not JSON: ten empty lines, then a line of text. *)
Definition late_text : string :=
  Py.nl ++ Py.nl ++ Py.nl ++ Py.nl ++ Py.nl ++ Py.nl ++ Py.nl ++ Py.nl
  ++ Py.nl ++ Py.nl ++ "foo".

Definition plain : Env :=
  env_with (fun _ _ => Answer (Response 200 late_text)) (fun _ => None).

(** A body that is not JSON, with text on its first lines. *)
Definition two_lines : string := "  alpha " ++ Py.nl ++ Py.nl ++ "beta".

Definition plain2 : Env :=
  env_with (fun _ _ => Answer (Response 200 two_lines)) (fun _ => None).

Definition empty_world : world := World ∅ 0 [] ∅.

Definition api1_file : string := _get_cache_file (_get_cache_key steady "api1" "q").

(** A world whose cache holds [results] for source [api1] and query
    [q], written at time 0, read at time [t]. *)
Definition cached_world (t : Z) (results : list SearchResult) : world :=
  World {[ api1_file := CacheFile 0 (Some results) ]} t [] ∅.

Definition quiet : callback := fun _ _ _ => ret tt.

(** A page whose links are those of the navigation only. *)
Definition nav_page : Dom.node :=
  Dom.Tag "[document]" []
    [Dom.Tag "div" [("class", "card")]
       [Dom.Tag "h2" [] [Dom.Text "Sign in here"];
        Dom.Tag "a" [("href", "/login")] [Dom.Text "Login"]];
     Dom.Tag "div" [("class", "card")]
       [Dom.Tag "h2" [] [Dom.Text "Create a server"];
        Dom.Tag "a" [("href", "/new")] [Dom.Text "New server"]];
     Dom.Tag "a" [("href", "/search?q=x")] [Dom.Text "Search servers"]].

End Demo.


(** ** Further notions *)

(** A write to the cache directory. *)
Definition is_cache_write (e : event) : bool :=
  match e with CacheWrite _ => true | _ => false end.

(** A computation that sends [n] requests at most. *)
Definition sends_at_most {A} (n : nat) (m : M A) : Prop :=
  forall w, (count_gets (trace (snd (m w))) <= count_gets (trace w) + n)%nat.

(** The callback of a category search is absent, or returns. *)
Definition callback_returns (progress_callback : option callback) : Prop :=
  match progress_callback with
  | Some f => returns f
  | None => True
  end.

(** A search as the loops of [search_category] take it: an exception
    counts as an empty result. *)
Definition attempt (E : Env) (source_id query : string) (use_cache : bool)
    : M (list SearchResult) :=
  try_except (search E source_id query use_cache) is_exception
             (fun _ => ret []).



(** The callback of a category search, when there is one, sends no
    request of its own. *)
Definition silent (progress_callback : option callback) : Prop :=
  match progress_callback with
  | Some f => forall status current total,
                sends_at_most 0 (f status current total)
  | None => True
  end.

(** The utility paths that [_is_valid_result] refuses in an address. *)
Definition garbage_patterns : list string :=
  ["/new"; "/create"; "/add"; "/search"; "/filter"; "/login"; "/register";
   "/about"; "/contact"; "/help"; "/faq"; "/terms"; "/privacy";
   "javascript:"; "mailto:"; "#"; "?page="; "?sort="; "?filter="].

(** The names that [_is_valid_result] refuses. *)
Definition generic_names : list string :=
  ["new"; "create"; "add"; "search"; "filter"; "view"; "details"; "more";
   "home"; "about"; "contact"; "help"; "login"; "register"; "sign up"].

(** The field of the configuration that the strategy of a retrieval
    mode cannot do without. *)
Definition required_field (search_method : string) : option string :=
  if String.eqb search_method "api" then Some "search_endpoint"
  else if String.eqb search_method "url_param" then Some "search_endpoint"
  else if String.eqb search_method "github_api" then Some "search_repo"
  else if String.eqb search_method "awesome_list" then Some "search_repo"
  else if String.eqb search_method "scrape" then Some "url"
  else None.

(** A decoded value that a [for] loop cannot go through. *)
Definition non_iterable (v : json) : bool :=
  match v with
  | JNull | JBool _ | JNum _ => true
  | _ => false
  end.

(** The record that [_parse_github_response] makes of a repository. *)
Definition repository_record (cfg : source_config) (repo : string)
    : SearchResult :=
  result_of (List.last (Py.split "/" repo) "")
            (cfg_get cfg "description" "")
            ("https://github.com/" ++ repo)
            ("https://github.com/" ++ repo)
            (cfg_get cfg "name" "Unknown") "".

(** The request that [_search_github_api] sends with the headers
    [headers]. *)
Definition code_search_request (cfg : source_config) (query : string)
    (headers : list (string * string)) : request :=
  Request "https://api.github.com/search/code"
          [("q", query ++ " repo:" ++ cfg_get cfg "search_repo" ""
                 ++ " filename:" ++ cfg_get cfg "search_file" "README.md");
           ("sort", "indexed"); ("order", "desc")]
          headers.

(** The status of a response lets [raise_for_status] pass. *)
Definition status_ok (r : response) : Prop :=
  ~ (400 <= status_code r < 600).

(** The environment [E] with another configuration. *)
Definition with_config (c : gmap string (gmap string string)) (E : Env)
    : Env :=
  {| config := c;
     interpolate := interpolate E;
     md5_hexdigest := md5_hexdigest E;
     quote := quote E;
     format_query := format_query E;
     json_loads := json_loads E;
     b64decode_utf8 := b64decode_utf8 E;
     BeautifulSoup := BeautifulSoup E;
     urljoin := urljoin E;
     network := network E;
     findall_links := findall_links E;
     save_search_results := save_search_results E |}.

(** The environment [E] with other links found in raw HTML. *)
Definition with_links (links : string -> list (string * string)) (E : Env)
    : Env :=
  {| config := config E;
     interpolate := interpolate E;
     md5_hexdigest := md5_hexdigest E;
     quote := quote E;
     format_query := format_query E;
     json_loads := json_loads E;
     b64decode_utf8 := b64decode_utf8 E;
     BeautifulSoup := BeautifulSoup E;
     urljoin := urljoin E;
     network := network E;
     findall_links := links;
     save_search_results := save_search_results E |}.

(** ** Further examples *)

Module Cases.

(** Raw HTML in which the pattern of the fall-back finds two links. *)
Definition raw_links : Env :=
  with_links (fun _ => [("/servers/weather", " Weather tool "); ("#", "Up")])
             Demo.steady.

Definition raw_cfg : source_config :=
  <["name" := "Raw"]> (<["url" := "http://h"]> ∅).

(** The source of the first examples without its endpoint. *)
Definition bare : Env :=
  with_config
    {["SOURCE_api1" := <["name" := "Api One"]> (<["search_method" := "api"]> ∅)]}
    Demo.steady.

(** An API whose answer holds no list of results. *)
Definition null_results : Env :=
  Demo.env_with (fun _ _ => Answer (Response 200 "NULL"))
                (fun _ => Some (JObj [("results", JNull)])).

(** A source searched through the code search of GitHub. *)
Definition hub_cfg : source_config :=
  <["name" := "Hub"]>
    (<["search_method" := "github_api"]>
       (<["search_repo" := "owner/mcp-servers"]> ∅)).

(** A page with two result cards and a link of the navigation. *)
Definition results_page : Dom.node :=
  Dom.Tag "[document]" []
    [Dom.Tag "div" [("class", "result-item")]
       [Dom.Tag "h3" [] [Dom.Text "Weather server"];
        Dom.Tag "a" [("href", "/server/weather")] [Dom.Text "Open"]];
     Dom.Tag "div" [("class", "result-item")]
       [Dom.Tag "h3" [] [Dom.Text "Clock server"];
        Dom.Tag "a" [("href", "/server/clock")] [Dom.Text "Open"]];
     Dom.Tag "div" [("class", "result-item")]
       [Dom.Tag "h3" [] [Dom.Text "Sign in"];
        Dom.Tag "a" [("href", "/login")] [Dom.Text "Login"]]].

(** A page of cards as [_parse_pulsemcp_results] looks for them; the
    heading of the card holds a picture and no text. *)
Definition card_page : Dom.node :=
  Dom.Tag "[document]" []
    [Dom.Tag "div" [("data-test-id", "mcp-server-grid-card-7")]
       [Dom.Tag "h2" [] [Dom.Tag "img" [("src", "/logo.png")] []];
        Dom.Tag "a" [("href", "/servers/weather")] [Dom.Text "Open"]]].

(** A page of links as [_parse_mcpservers_results] looks for them. *)
Definition links_page : Dom.node :=
  Dom.Tag "[document]" []
    [Dom.Tag "ul" []
       [Dom.Tag "li" []
          [Dom.Tag "a" [("href", "/servers/acme/weather-tool")]
             [Dom.Text "Weather"]];
        Dom.Tag "li" []
          [Dom.Tag "a" [("href", "https://mcpservers.org/servers/clock")]
             [Dom.Text "Clock"]]]].

(** The section of a source whose endpoint holds an escaped character,
    and an environment configured with it. *)
Definition escaped_section : source_config :=
  <["name" := "Api One"]>
    (<["search_method" := "api"]>
       (<["search_endpoint" := "http://x/api?tag=a%20b&q={query}"]> ∅)).

Definition escaped : Env :=
  with_config {["SOURCE_api1" := escaped_section]} Demo.steady.

End Cases.

(** [str(i)] for a natural number: its decimal digits. *)
Definition str (i : nat) : string :=
  NilEmpty.string_of_uint (Nat.to_uint i).

(** ** [ConfigManager]: the search history

    The history lives in the section [SEARCH_HISTORY] of the
    [ConfigParser], under the options [search_1] to [search_10]. Here
    the parser is a state: the history is written to it. Its section
    [DEFAULT] is taken to hold none of these options. *)

Module History.

(** The sections of a [ConfigParser], each with its options. *)
Abbreviation ini := (gmap string (gmap string string)).

(** What this code leaves to the library and to the file system: the
    interpolation of the parser on a value that is written
    ([before_set]) and on one that is read ([before_get], given the
    options of the section), and whether the configuration file can be
    written. *)
Record Platform := {
  before_set : string -> exn + string;
  before_get : gmap string string -> string -> exn + string;
  writable : ini -> bool
}.

(** The manager: [self.config], and what [save_config] last wrote to
    [self.config_file], if it did. *)
Record manager := Manager {
  config : ini;
  config_file : option ini
}.

(** [f'search_{i}'] *)
Definition key (i : nat) : string := "search_" ++ str i.

(** [self.config[section].get(option, fallback)] for a section that
    exists. *)
Definition section_get (P : Platform) (sec : gmap string string)
    (option fallback : string) : exn + string :=
  match sec !! option with
  | Some v => before_get P sec v
  | None => inr fallback
  end.

(** [self.config[section][option] = value]: a value that is not empty
    goes through the interpolation first. *)
Definition section_set (P : Platform) (section option value : string)
    (c : ini) : (exn + unit) * ini :=
  match c !! section with
  | None => (inl (Error "KeyError"), c)
  | Some sec =>
      match (if Py.truthy value then before_set P value else inr value) with
      | inl e => (inl e, c)
      | inr v => (inr tt, <[section := <[option := v]> sec]> c)
      end
  end.

(** The loop [for i in range(1, 11)] of [get_search_history]. *)
Fixpoint read_entries (P : Platform) (sec : gmap string string)
    (indices : list nat) (history : list string) : exn + list string :=
  match indices with
  | [] => inr history
  | i :: rest =>
      match section_get P sec (key i) "" with
      | inl e => inl e
      | inr search =>
          read_entries P sec rest
            (if Py.truthy search then (history ++ [search])%list
             else history)
      end
  end.

(** [get_search_history()] *)
Definition get_search_history (P : Platform) (c : ini)
    : exn + list string :=
  match c !! "SEARCH_HISTORY" with
  | Some sec => read_entries P sec (seq 1 10) []
  | None => inr []
  end.

(** The loop that clears the entries. *)
Fixpoint clear_entries (P : Platform) (indices : list nat) (c : ini)
    : (exn + unit) * ini :=
  match indices with
  | [] => (inr tt, c)
  | i :: rest =>
      match section_set P "SEARCH_HISTORY" (key i) "" c with
      | (inl e, c) => (inl e, c)
      | (inr _, c) => clear_entries P rest c
      end
  end.

(** The loop [for i, search in enumerate(history, 1)], from [i] on. *)
Fixpoint write_entries (P : Platform) (i : nat) (history : list string)
    (c : ini) : (exn + unit) * ini :=
  match history with
  | [] => (inr tt, c)
  | search :: rest =>
      match section_set P "SEARCH_HISTORY" (key i) search c with
      | (inl e, c) => (inl e, c)
      | (inr _, c) => write_entries P (S i) rest c
      end
  end.

(** [save_config()]: a failure to write the file is logged, not
    raised. *)
Definition save_config (P : Platform) (m : manager) : manager :=
  if writable P (config m) then Manager (config m) (Some (config m))
  else m.

(** [add_to_search_history(search_term)] *)
Definition add_to_search_history (P : Platform) (search_term : string)
    (m : manager) : (exn + unit) * manager :=
  if negb (Py.truthy (Py.strip search_term)) then (inr tt, m)
  else
    match get_search_history P (config m) with
    | inl e => (inl e, m)
    | inr history =>
        let history :=
          if Py.mem search_term history then list_remove search_term history
          else history in
        let history := search_term :: history in
        let history := take 10 history in
        let c :=
          match config m !! "SEARCH_HISTORY" with
          | Some _ => config m
          | None => <["SEARCH_HISTORY" := ∅]> (config m)
          end in
        match clear_entries P (seq 1 10) c with
        | (inl e, c) => (inl e, Manager c (config_file m))
        | (inr _, c) =>
            match write_entries P 1 history c with
            | (inl e, c) => (inl e, Manager c (config_file m))
            | (inr _, c) => (inr tt, save_config P (Manager c (config_file m)))
            end
        end
    end.

(** A plain value: one without the character of the interpolation. *)
Definition percent_free (v : string) : Prop := Py.contains "%" v = false.

(** The interpolation leaves plain values as they are. *)
Definition keeps_plain_values (P : Platform) : Prop :=
  forall v, percent_free v ->
    before_set P v = inr v /\ forall sec, before_get P sec v = inr v.

(** A platform whose interpolation refuses every value that is not
    plain, and whose file can be written. *)
Definition strict : Platform :=
  {| before_set v :=
       if Py.contains "%" v then inl (Error "ValueError") else inr v;
     before_get _ v :=
       if Py.contains "%" v then inl (Error "InterpolationSyntaxError")
       else inr v;
     writable _ := true |}.

(** A manager with three searches in its history. *)
Definition three : manager :=
  Manager {["SEARCH_HISTORY" :=
              <["search_1" := "alpha"]>
                (<["search_2" := "beta"]> (<["search_3" := "gamma"]> ∅))]}
          None.

End History.

(** ** The list of results of the window

    [SearchResult.display_name], the label that [_create_category_tab]
    gives a result in the list of its tab, and [on_result_select], which
    finds the result of a label again. *)

Module Window.

(** A number literal denotes zero: its digits before the exponent are
    all zeros (a literal too small for a float is not told apart). *)
Fixpoint zero_literal (literal : string) : bool :=
  match literal with
  | EmptyString => true
  | String c rest =>
      if Py.mem_char c "eE" then true
      else Py.mem_char c "-0." && zero_literal rest
  end.

(** The truth value of a field: [if value:] *)
Definition json_truthy (j : json) : bool :=
  match j with
  | JNull => false
  | JBool b => b
  | JNum literal => negb (zero_literal literal)
  | JStr s => Py.truthy s
  | JArr items => match items with [] => false | _ => true end
  | JObj members => match members with [] => false | _ => true end
  end.

(** [result.display_name]: [self.name or "Unknown"] *)
Definition display_name (r : SearchResult) : json :=
  if json_truthy (name r) then name r else JStr "Unknown".

(** The label of a result in the list of its tab; [str_of] is the text
    that an f-string gives a value. *)
Definition display_text (str_of : json -> string) (source_id : string)
    (result : SearchResult) : string :=
  "[" ++ source_id ++ "] " ++ str_of (display_name result).

(** [s.index(c)]; [None] stands for [ValueError]. *)
Fixpoint index (c : ascii) (s : string) : option nat :=
  match s with
  | EmptyString => None
  | String d rest =>
      if Ascii.eqb c d then Some O else S <$> index c rest
  end.

(** [r.display_name == result_name], where [result_name] is a [str] *)
Definition named (result_name : string) (r : SearchResult) : bool :=
  match display_name r with
  | JStr s => String.eqb s result_name
  | _ => false
  end.

(** [on_result_select(category, selected_text)]: the result that is
    shown in the details panel, if any. *)
Definition on_result_select
    (current_results : gmap string (gmap string (list SearchResult)))
    (category selected_text : string) : option SearchResult :=
  match current_results !! category with
  | None => None
  | Some by_source =>
      if negb (Py.truthy selected_text) then None
      else if negb (Py.startswith "[" selected_text) then None
      else
        match index "]" selected_text with
        | None => None
        | Some source_end =>
            let source_id :=
              Py.take (source_end - 1) (Py.drop 1 selected_text) in
            let result_name := Py.drop (source_end + 2) selected_text in
            match by_source !! source_id with
            | Some results => List.find (named result_name) results
            | None => None
            end
        end
  end.

(** A tab with two results of one source that have the same name. *)
Definition twins : gmap string (gmap string (list SearchResult)) :=
  {["servers" :=
      {["api1" := [result_of "Foo" "first" "http://a" "" "Api One" "";
                   result_of "Foo" "second" "http://b" "" "Api One" ""]]}]}.

End Window.

(** ** The search of the window: [_perform_search]

    The loop over the selected categories, run in a thread of its own.
    [update_status] stands for the update of the loading dialog, [if
    self.loading_dialog: self.loading_dialog.update_status(text)]. *)

Module Gui.

(** The inner function [progress_callback(status, current, total)]. *)
Definition progress_callback (update_status : string -> M unit) : callback :=
  fun status current total =>
    update_status (status ++ " (" ++ str current ++ "/" ++ str total ++ ")").

(** The dictionary [all_results], in the order of its keys. *)
Definition results_by_category : Type :=
  list (string * gmap string (list SearchResult)).

(** The loop [for i, category in enumerate(categories)]. *)
Fixpoint search_categories (E : Env) (update_status : string -> M unit)
    (categories : list string) (search_term : string)
    (all_results : results_by_category) : M results_by_category :=
  match categories with
  | [] => ret all_results
  | category :: rest =>
      _ <- update_status
             ("Searching " ++ Py.title (Py.replace "_" " " category) ++ "...") ;;
      category_results <-
        search_category E category search_term
                        (Some (progress_callback update_status)) ;;
      search_categories E update_status rest search_term
        (if bool_decide (category_results = ∅) then all_results
         else dict_set category category_results all_results)
  end.

(** The handler that [_perform_search] hands to [self.after(0, ..)],
    with its arguments (for the handler of errors, the exception that
    the message is made of). *)
Inductive scheduled :=
| _handle_search_success (all_results : results_by_category)
                         (search_term : string)
| _handle_search_error (e : exn).

(** [_perform_search(search_term, categories)]; [after] stands for
    [self.after(0, handler)], the scheduling of a handler on the main
    thread, which is inside the [try] when it schedules the handler of
    success. *)
Definition _perform_search (E : Env) (update_status : string -> M unit)
    (after : scheduled -> M unit) (search_term : string)
    (categories : list string) : M unit :=
  try_except
    (all_results <-
       search_categories E update_status categories search_term [] ;;
     after (_handle_search_success all_results search_term))
    is_exception
    (fun e => after (_handle_search_error e)).

(** [sum(len(results) for results in category_results.values())], the
    number that [_handle_search_success] and [_create_category_tab]
    compute for a category. *)
Definition category_total
    (category_results : gmap string (list SearchResult)) : nat :=
  sum_list (map (fun entry => length (snd entry))
                (map_to_list category_results)).

(** The update of the dialog returns. *)
Definition status_returns (update_status : string -> M unit) : Prop :=
  forall status w, exists w', update_status status w = (inr tt, w').

(** A category in [all_results] as [_perform_search] leaves it, where
    [listing] is what [get_categories] returns: it was selected, and
    each of its entries is the list, not empty, of one of its sources;
    there is one entry at least. *)
Definition has_results (listing : gmap string (list string))
    (categories : list string)
    (entry : string * gmap string (list SearchResult)) : Prop :=
  fst entry ∈ categories
  /\ snd entry <> ∅
  /\ forall s rs, snd entry !! s = Some rs ->
       rs <> [] /\ exists sources,
                     listing !! fst entry = Some sources /\ s ∈ sources.

(** A dialog that takes every update, and a main thread that takes
    every handler. *)
Definition no_dialog : string -> M unit := fun _ => ret tt.

Definition main_thread : scheduled -> M unit := fun _ => ret tt.

End Gui.

(** ** The settings of the window: [clear_cache] *)

(** [file] is the path of an entry of [os.listdir(cache_dir)]: a name
    right under the cache directory. *)
Definition listed (file : string) : bool :=
  Py.startswith (CACHE_DIR ++ "/") file
  && negb (Py.mem_char "/" (Py.drop (String.length CACHE_DIR + 1) file)).

(** [clear_cache()]: every file of the cache directory is removed; the
    message boxes that report the outcome are left out. *)
Definition clear_cache : M unit :=
  fun w =>
    let file_paths :=
      List.filter listed (map fst (map_to_list (files w))) in
    (inr tt, foldl (fun w file_path => remove_file file_path w) w file_paths).

(** The digests hold no separator of paths (they are hexadecimal). *)
Definition digests_are_names (E : Env) : Prop :=
  forall s, Py.mem_char "/" (md5_hexdigest E s) = false.

(** The environment [E] with another digest. *)
Definition with_digest (digest : string -> string) (E : Env) : Env :=
  {| config := config E;
     interpolate := interpolate E;
     md5_hexdigest := digest;
     quote := quote E;
     format_query := format_query E;
     json_loads := json_loads E;
     b64decode_utf8 := b64decode_utf8 E;
     BeautifulSoup := BeautifulSoup E;
     urljoin := urljoin E;
     network := network E;
     findall_links := findall_links E;
     save_search_results := save_search_results E |}.

(** An environment whose digest is one name, and a cache with that
    entry, written at time 0 and read at time 10. *)
Definition one_digest : Env := with_digest (fun _ => "d41d8cd9") Demo.steady.

Definition one_entry : world :=
  World {[ "cache/d41d8cd9.pkl" := CacheFile 0 (Some [Demo.api_record]) ]}
        10 [] ∅.

(** * Properties *)

(** ** The models of the libraries on examples *)

Module Examples.

Import Demo.

(** Every pattern of the source is in the fragment that is modelled. *)
Example patterns_are_read :
  forallb (fun p => bool_decide (is_Some (Re.parse p))) Awesome.patterns
  = true
  /\ is_Some (Re.parse "^#+\s*") /\ is_Some (Re.parse "[*_`]").
Proof. repeat split; vm_compute; by eauto. Qed.

Example bullet_item :
  groups (pattern 0) "- [Foo](http://a) - bar thing"
  = Some ["Foo"; "http://a"; "bar thing"].
Proof. vm_compute. reflexivity. Qed.

Example bold_item :
  groups (pattern 0) "* **[Zed](https://github.com/z)** - some `code`" = None
  /\ groups (pattern 1) "* **[Zed](https://github.com/z)** - some `code`"
     = Some ["Zed"; "https://github.com/z"; "some `code`"].
Proof. split; vm_compute; reflexivity. Qed.

Example numbered_item :
  groups (pattern 0) "1. [Ab cd]( x ) : **hi there**." = None
  /\ groups (pattern 3) "1. [Ab cd]( x ) : **hi there**."
     = Some ["Ab cd"; " x "; "**hi there**."].
Proof. split; vm_compute; reflexivity. Qed.

Example no_item :
  forallb (fun p => bool_decide (groups p "See [Foo](http://a)" = None))
          Awesome.patterns = true.
Proof. vm_compute. reflexivity. Qed.

Example sub_examples :
  Re.re_sub_empty "^#+\s*" "##  My *tools*" = "My *tools*"
  /\ Re.re_sub_empty "[*_`]" "a*b_c`d" = "abcd".
Proof. split; vm_compute; reflexivity. Qed.

Example split_examples :
  Py.split Py.nl ("a" ++ Py.nl ++ Py.nl ++ "b" ++ Py.nl) = ["a"; ""; "b"; ""]
  /\ Py.split Py.nl "" = [""]
  /\ Py.split "q=" "http://x/?q=abc&q=d" = ["http://x/?"; "abc&"; "d"]
  /\ Py.words "  a b   c " = ["a"; "b"; "c"]
  /\ Py.strip "  alpha  " = "alpha"
  /\ Py.strip_chars " .-:" "- bar thing. " = "bar thing"
  /\ Py.lower "Table of Contents" = "table of contents".
Proof. repeat split; vm_compute; reflexivity. Qed.

(** The elements of a page in document order, and its text. *)
Example page_examples :
  map (fun x => Dom.tag_name (Dom.el x)) (Dom.descendants Demo.nav_page)
  = ["div"; "h2"; "a"; "div"; "h2"; "a"; "a"]
  /\ Dom.get_text Demo.nav_page
     = "Sign in hereLoginCreate a serverNew serverSearch servers"
  /\ length (Dom.select ".card" Demo.nav_page) = 2%nat.
Proof. repeat split; vm_compute; reflexivity. Qed.

End Examples.

(** ** Facts on strings *)

Module PyFacts.

Import Py.

Lemma startswith_app (p s : string) : startswith p (p ++ s) = true.
Proof.
  induction p as [|c p IH]; simpl; [done|].
  by rewrite Ascii.eqb_refl.
Qed.

Lemma contains_here (p s : string) : contains p (p ++ s) = true.
Proof.
  destruct (p ++ s) eqn:Heq; simpl.
  - destruct p; [done|discriminate].
  - rewrite <- Heq at 1. by rewrite startswith_app.
Qed.

Lemma contains_skip (p : string) (c : ascii) (s : string) :
  contains p s = true -> contains p (String c s) = true.
Proof.
  intros H. simpl. destruct (startswith p (String c s)); done.
Qed.

Lemma contains_app_r (p pre s : string) :
  contains p s = true -> contains p (pre ++ s) = true.
Proof.
  intros H. induction pre as [|c pre IH]; [done|].
  change (String c pre ++ s) with (String c (pre ++ s)).
  by apply contains_skip.
Qed.

Lemma contains_app_l (p s post : string) :
  contains p (s ++ (p ++ post)) = true.
Proof. apply contains_app_r, contains_here. Qed.

Lemma lower_app (a b : string) : lower (a ++ b) = lower a ++ lower b.
Proof. induction a as [|c a IH]; simpl; [done|by rewrite IH]. Qed.

Lemma truthy_take (n : nat) (s : string) :
  truthy s = true -> truthy (take (S n) s) = true.
Proof. by destruct s. Qed.

Lemma truthy_nonempty (s : string) : truthy s = true -> s <> "".
Proof. by destruct s. Qed.

Lemma truthy_length (s : string) :
  truthy s = true -> (0 < String.length s)%nat.
Proof. destruct s; simpl; [done|lia]. Qed.

Lemma existsb_orb_false {A} (f g : A -> bool) (l : list A) :
  existsb (fun x => f x || g x) l = false -> existsb f l = false.
Proof.
  induction l as [|x l IH]; simpl; [done|].
  intros [[Hf _]%orb_false_iff Hl]%orb_false_iff.
  by rewrite Hf, IH.
Qed.

End PyFacts.

(** ** The key of the cache *)

(** C9. The key of the cache is not injective: the pairs ("a_b", "c")
    and ("a", "b_c") are distinct but are hashed from the same text,
    so they share one key, whatever the hash function; what is stored
    for the first pair is returned for the second. *)
Theorem cache_key_not_injective (E : Env) :
  ("a_b", "c") <> ("a", "b_c")
  /\ _get_cache_key E "a_b" "c" = _get_cache_key E "a" "b_c"
  /\ forall results w,
       fst (get_cached_results E "a" "b_c" 24
              (snd (cache_results E "a_b" "c" results w)))
       = inr (Some results).
Proof.
  split; [done|]. split; [done|].
  intros results w.
  unfold get_cached_results, cache_results, _get_cache_key; simpl.
  rewrite lookup_insert_eq. simpl.
  replace (now w - now w) with 0 by lia.
  done.
Qed.

(** ** The markdown catalogue *)

Module AwesomeFacts.

Import Awesome.

(** What [try_patterns] appends has passed the two filters on the name. *)
Lemma try_patterns_name (pats : list string)
    (line query_lower current_category source_name : string)
    (r : SearchResult) :
  r ∈ try_patterns pats line query_lower current_category source_name ->
  exists nm, name r = JStr nm
             /\ (2 <= String.length nm)%nat
             /\ Py.any_in skip_patterns (Py.lower nm) = false.
Proof.
  induction pats as [|pat pats IH]; cbn [try_patterns];
    [by intros ?%elem_of_nil|].
  destruct (Re.re_match_multiline pat line) as [m|]; [|done].
  cbv zeta.
  destruct (negb _ || _) eqn:Hshort; [done|].
  destruct (is_noise _ _) eqn:Hnoise; [done|].
  destruct (_ || _ || _); [|by intros ?%elem_of_nil].
  intros ->%list_elem_of_singleton. eexists; split; [done|].
  apply orb_false_iff in Hshort as [_ Hlen].
  apply Nat.ltb_ge in Hlen. split; [done|].
  by apply PyFacts.existsb_orb_false in Hnoise.
Qed.

Lemma scan_lines_name (lines : list string)
    (query_lower current_category source_name : string) (r : SearchResult) :
  r ∈ scan_lines lines query_lower current_category source_name ->
  exists nm, name r = JStr nm
             /\ (2 <= String.length nm)%nat
             /\ Py.any_in skip_patterns (Py.lower nm) = false.
Proof.
  revert current_category.
  induction lines as [|line lines IH]; intros cat; cbn [scan_lines];
    [by intros ?%elem_of_nil|].
  cbv zeta.
  destruct (Py.startswith "#" (Py.strip line)); [by apply IH|].
  intros [H|H]%elem_of_app; [by eapply try_patterns_name|by eapply IH].
Qed.

(** No record of a catalogue has a name of the noise vocabulary, and
    every name has two characters at least. *)
Lemma records_are_not_noise (content : string) (cfg : source_config)
    (query : string) (r : SearchResult) :
  r ∈ _parse_awesome_list_content content cfg query ->
  exists nm, name r = JStr nm
             /\ (2 <= String.length nm)%nat
             /\ Py.any_in skip_patterns (Py.lower nm) = false.
Proof. apply scan_lines_name. Qed.

End AwesomeFacts.

(** C3. On the document of the example, the query "foo" gives exactly
    one record, named "Foo", with address "http://a" and a description
    that contains "bar thing"; the query "bar" gives the same record;
    and for no query is a record named "Table of Contents" returned. *)
Theorem markdown_example (cfg : source_config) :
  let found := Awesome._parse_awesome_list_content Demo.catalogue cfg in
  let foo := Demo.foo_record (cfg_get cfg "name" "GitHub") in
  found "foo" = [foo]
  /\ found "bar" = [foo]
  /\ name foo = JStr "Foo"
  /\ url foo = JStr "http://a"
  /\ Py.contains "bar thing" (text_of (description foo)) = true
  /\ forall query r, r ∈ found query -> name r <> JStr "Table of Contents".
Proof.
  simpl. unfold Awesome._parse_awesome_list_content, Demo.foo_record.
  generalize (cfg_get cfg "name" "GitHub"); intros source_name.
  repeat split; try (vm_compute; reflexivity).
  intros query r Hr Hname.
  apply (AwesomeFacts.scan_lines_name _ _ _ _ r) in Hr as (nm & Hnm & _ & Hclean).
  rewrite Hname in Hnm. injection Hnm as <-.
  vm_compute in Hclean. discriminate.
Qed.

(** ** The parsers of responses *)

Module ParserFacts.

(** The loop of the plain-text parse keeps, in order, the lines that
    are not blank. *)
Lemma text_lines_spec (lines : list string) (source_name : string)
    (results : list SearchResult) :
  text_lines lines source_name results
  = (results ++ map (text_record source_name)
                    (filter (fun line => is_blank line = false) lines))%list.
Proof.
  revert results. induction lines as [|line lines IH]; intros results;
    cbn [text_lines].
  - by rewrite app_nil_r.
  - unfold is_blank at 1. destruct (Py.truthy (Py.strip line)) eqn:Hline.
    + rewrite IH, filter_cons_True by (unfold is_blank; by rewrite Hline).
      by rewrite <- app_assoc.
    + rewrite IH, filter_cons_False; [done|].
      unfold is_blank. by rewrite Hline.
Qed.

Lemma parse_text_spec (txt : string) (cfg : source_config) :
  _parse_text_response txt cfg
  = map (text_record (cfg_get cfg "name" "Unknown")) (kept_lines txt).
Proof. unfold _parse_text_response. by rewrite text_lines_spec. Qed.

Lemma kept_lines_length (txt : string) : (length (kept_lines txt) <= 10)%nat.
Proof.
  unfold kept_lines.
  etransitivity; [apply length_filter|].
  rewrite length_take. lia.
Qed.

Lemma text_record_fields (source_name line : string) :
  is_blank line = false ->
  exists nm, name (text_record source_name line) = JStr nm
             /\ nm <> ""
             /\ (String.length nm <= 100)%nat.
Proof.
  intros Hline. exists (Py.take 100 (Py.strip line)). split; [done|].
  apply negb_false_iff in Hline. split.
  - by apply PyFacts.truthy_nonempty, PyFacts.truthy_take.
  - generalize (Py.strip line) 100%nat. intros s n. revert s.
    induction n as [|n IH]; intros [|c s]; simpl; try lia.
    specialize (IH s). lia.
Qed.

(** The mapping of JSON items makes one record of each object. *)
Lemma api_items_length (items : list json) (source_name : string) :
  length (api_items items source_name)
  = length (filter (fun j => is_object j = true) items).
Proof.
  induction items as [|item items IH]; [done|].
  destruct item; cbn [api_items];
    ((rewrite filter_cons_True by done; simpl; by rewrite IH)
     || (rewrite filter_cons_False by done; exact IH)).
Qed.

(** A record of the generic HTML pipeline comes from an element whose
    extraction gave a name and an address. *)
Lemma extract_fields (E : Env) (element : Dom.located) (cfg : source_config)
    (base_url search_url : string) (r : SearchResult) :
  _extract_result_from_element_enhanced E element cfg base_url search_url
  = Some r ->
  exists nm u, name r = JStr nm /\ url r = JStr u
               /\ Py.truthy nm = true /\ Py.truthy u = true.
Proof.
  unfold _extract_result_from_element_enhanced. cbv zeta.
  destruct (pick_url _ _ _) as [e|u]; [done|].
  match goal with
  | |- context [Py.truthy ?n && Py.truthy u] => set (nm := n)
  end.
  match goal with
  | |- context [result_of (JStr nm) (JStr ?d)] => set (descr := d)
  end.
  destruct (Py.truthy nm) eqn:Hn; [|done].
  destruct (Py.truthy u) eqn:Hu; [|done].
  cbn [andb]. intros [= <-]. by exists nm, u.
Qed.

Lemma keep_valid_elem (E : Env) (elements : list Dom.located)
    (source_name base_url search_url : string) (r : SearchResult) :
  r ∈ keep_valid E elements source_name base_url search_url ->
  exists element cfg,
    element ∈ elements
    /\ _extract_result_from_element_enhanced E element cfg base_url search_url
       = Some r
    /\ _is_valid_result r search_url = true.
Proof.
  induction elements as [|x elements IH]; cbn [keep_valid];
    [by intros ?%elem_of_nil|].
  cbv zeta. intros [H|H]%elem_of_app.
  - destruct (_extract_result_from_element_enhanced _ _ _ _ _) as [r'|] eqn:Hx;
      [|by apply elem_of_nil in H].
    destruct (Py.truthy _ && _is_valid_result r' search_url) eqn:Hok;
      [|by apply elem_of_nil in H].
    apply list_elem_of_singleton in H as ->.
    apply andb_true_iff in Hok as [_ Hvalid].
    eexists x, _. split; [by left|]. by split.
  - destruct (IH H) as (y & cfg & Hy & Hr). exists y, cfg.
    split; [by right|done].
Qed.

(** An address made absolute is not empty when [urljoin] gives none
    that is. *)
Lemma absolute_keeps (E : Env) (base_url href u : string) :
  absolute E base_url href = inr u ->
  href <> "" ->
  urljoin_keeps E base_url -> u <> "".
Proof.
  unfold absolute. intros Hu Hhref Hkeeps.
  destruct (Py.startswith "http" href) eqn:Hhttp; cbn [negb] in Hu.
  - by injection Hu as <-.
  - by apply (Hkeeps href).
Qed.

Lemma append_not_empty (a b : string) : b <> "" -> a ++ b <> "".
Proof.
  intros Hb. destruct a as [|c a]; [done|].
  by change (String c a ++ b) with (String c (a ++ b)).
Qed.

Lemma elem_of_flat_map {A B} (f : A -> list B) (l : list A) (y : B) :
  y ∈ flat_map f l -> exists x, x ∈ l /\ y ∈ f x.
Proof.
  intros (x & Hx & Hy)%list_elem_of_In%in_flat_map.
  exists x. by split; apply list_elem_of_In.
Qed.

(** A record of [_parse_pulsemcp_results] has an address that holds
    [/servers/]. *)
Lemma pulsemcp_records (E : Env) (soup : Dom.node)
    (source_name base_url : string) (r : SearchResult) :
  r ∈ _parse_pulsemcp_results E soup source_name base_url ->
  exists u, url r = JStr u /\ Py.contains "/servers/" u = true.
Proof.
  unfold _parse_pulsemcp_results. cbv zeta.
  intros (card & _ & Hr)%elem_of_flat_map. revert Hr.
  unfold pulsemcp_card. cbv zeta.
  destruct (Dom.find is_link_to (Dom.el card)) as [link_elem|];
    [|by intros ?%elem_of_nil].
  destruct (Py.truthy _); [|by intros ?%elem_of_nil].
  destruct (absolute E base_url _) as [e|u]; [by intros ?%elem_of_nil|].
  destruct (Py.contains "/servers/" u) eqn:Hu;
    [|by intros ?%elem_of_nil].
  destruct (_ && _); [|by intros ?%elem_of_nil].
  intros ->%list_elem_of_singleton. by exists u.
Qed.

(** The name that [_parse_mcpservers_results] makes of a target is not
    empty. *)
Lemma mcpservers_name_not_empty (href : string) :
  fst (mcpservers_name href) <> "".
Proof.
  unfold mcpservers_name. cbv zeta.
  destruct (Py.contains "/" _).
  - destruct (Py.split1 "/" _) as [author repo]. cbn [fst].
    apply append_not_empty. done.
  - cbn [fst]. destruct (Py.truthy _) eqn:Hspaced; [|done].
    by apply PyFacts.truthy_nonempty.
Qed.

(** A record of [_parse_mcpservers_results]: its name is not empty and
    its address is the target of a link, which holds [/servers/], made
    absolute. *)
Lemma mcpservers_records (E : Env) (soup : Dom.node)
    (source_name base_url : string) (r : SearchResult) :
  r ∈ _parse_mcpservers_results E soup source_name base_url ->
  exists nm u href,
    name r = JStr nm /\ nm <> ""
    /\ url r = JStr u /\ absolute E base_url href = inr u
    /\ Py.contains "/servers/" href = true.
Proof.
  unfold _parse_mcpservers_results. cbv zeta.
  intros (link & Hlink & Hr)%elem_of_flat_map. revert Hr.
  apply list_elem_of_filter in Hlink as [Hlink _].
  apply andb_true_iff in Hlink as [_ Hlink].
  unfold Dom.attr_has in Hlink.
  unfold mcpservers_link. cbv zeta.
  destruct (Dom.get_attr "href" (Dom.el (Dom.here link))) as [href|];
    [|done].
  change (default "" (Some href)) with href.
  cbn [Py.any_in existsb] in Hlink. rewrite orb_false_r in Hlink.
  destruct (absolute E base_url href) as [e|u] eqn:Hu;
    [by intros ?%elem_of_nil|].
  pose proof (mcpservers_name_not_empty href) as Hname.
  destruct (mcpservers_name href) as [nm description]. cbn [fst] in Hname.
  intros ->%list_elem_of_singleton. by exists nm, u, href.
Qed.

(** The links of the fall-back that are looked at are links that the
    pattern finds. *)
Lemma elem_of_take {A} (n : nat) (l : list A) (x : A) :
  x ∈ take n l -> x ∈ l.
Proof. apply subseteq_take. Qed.

(** A record of [_parse_mcpserverfinder_results] passed the test that
    the parser puts before it. *)
Lemma finder_records (E : Env) (soup : Dom.node)
    (source_name base_url : string) (r : SearchResult) :
  r ∈ _parse_mcpserverfinder_results E soup source_name base_url ->
  exists nm u,
    name r = JStr nm /\ url r = JStr u
    /\ finder_keeps nm u base_url = true.
Proof.
  unfold _parse_mcpserverfinder_results.
  intros (element & _ & Hr)%elem_of_flat_map. revert Hr.
  unfold finder_element. cbv zeta.
  match goal with
  | |- context [finder_keeps ?n _ base_url] => set (nm := n)
  end.
  match goal with
  | |- context [match ?j with inl _ => [] | inr _ => _ end] =>
      destruct j as [e|u]; [by intros ?%elem_of_nil|]
  end.
  destruct (finder_keeps nm u base_url) eqn:Hkeeps;
    [|by intros ?%elem_of_nil].
  intros ->%list_elem_of_singleton. by exists nm, u.
Qed.

(** A record of the fall-back is made of a link whose text, stripped,
    is longer than three characters. *)
Lemma fallback_records (E : Env) (source_name base_url : string)
    (matches : list (string * string)) :
  forall results r,
    fallback_links E matches source_name base_url = inr results ->
    r ∈ results ->
    exists href txt u,
      (href, txt) ∈ matches
      /\ name r = JStr (Py.strip txt)
      /\ (3 < String.length (Py.strip txt))%nat
      /\ url r = JStr u /\ absolute E base_url href = inr u.
Proof.
  induction matches as [|[href txt] rest IH]; intros results r Hrun Hr.
  - injection Hrun as <-. by apply elem_of_nil in Hr.
  - cbn [fallback_links] in Hrun.
    assert (Hrest : forall results',
               fallback_links E rest source_name base_url = inr results' ->
               r ∈ results' ->
               exists href' txt' u,
                 (href', txt') ∈ (href, txt) :: rest
                 /\ name r = JStr (Py.strip txt')
                 /\ (3 < String.length (Py.strip txt'))%nat
                 /\ url r = JStr u /\ absolute E base_url href' = inr u).
    { intros results' Hrun' Hr'.
      destruct (IH results' r Hrun' Hr') as (h & t & u & Hin & Hrec).
      exists h, t, u. split; [by right|done]. }
    destruct (Nat.ltb_spec 3 (String.length (Py.strip txt))) as [Hlong|_];
      [|by apply (Hrest results)].
    destruct (absolute E base_url href) as [e|u] eqn:Hu; [done|].
    destruct (fallback_links E rest source_name base_url) as [e|results']
      eqn:Hrun'; [done|].
    injection Hrun as <-. apply elem_of_cons in Hr as [->|Hr].
    + exists href, txt, u. split; [by left|done].
    + by apply (Hrest results').
Qed.

End ParserFacts.

(** C4, as the claim states it, fails on five of the extractors. The
    mapping of a JSON answer gives a record with an empty name and no
    address for an item that has none of the expected keys; the
    plain-text parse gives records without any address; the record of
    the GitHub code search has an empty name for a repository whose
    name ends with a slash; the markdown catalogue gives a record
    without any address for an item whose link holds only a space; and
    the extractor of PulseMCP gives a record with an empty name for a
    card whose heading holds no text. *)
Lemma parsers_emit_invalid_records :
  (exists r, _parse_api_response (JObj [("id", JNum "7")]) ∅ = inr [r]
             /\ name r = JStr "" /\ ~ valid_record r)
  /\ (exists r, _parse_text_response "hello" ∅ = [r]
                /\ url r = JStr "" /\ github_url r = JStr ""
                /\ ~ valid_record r)
  /\ (exists r, _parse_github_response JNull ∅ "owner/" = [r]
                /\ name r = JStr "" /\ ~ valid_record r)
  /\ (exists r, Awesome._parse_awesome_list_content "- [Foo]( ) - bar" ∅
                  "foo" = [r]
                /\ url r = JStr "" /\ github_url r = JStr ""
                /\ ~ valid_record r)
  /\ (exists r, _parse_pulsemcp_results Demo.steady Cases.card_page "Pulse"
                  "https://www.pulsemcp.com" = [r]
                /\ name r = JStr "" /\ ~ valid_record r).
Proof.
  split; [|split; [|split; [|split]]]; eexists;
    (split; [vm_compute; reflexivity|]).
  - split; [done|]. by intros [Hname _].
  - split; [done|]. split; [done|]. intros [_ [Hurl|Hurl]]; by apply Hurl.
  - split; [done|]. by intros [Hname _].
  - split; [done|]. split; [done|]. intros [_ [Hurl|Hurl]]; by apply Hurl.
  - split; [done|]. by intros [Hname _].
Qed.

(** C4, amended, extractor by extractor. A record of the generic HTML
    pipeline or of the extractor of MCPServerFinder has a name and an
    [url] that are not empty. A record of the extractor of MCPServers
    or of the fall-back on raw HTML has a name that is not empty, and
    an [url] that is not empty when [urljoin] makes no empty address of
    the base of the source and a target that is not empty (and the
    pattern of the fall-back finds no link with an empty target, as
    its group for the target asks). A record of the plain-text parse
    has a name
    that is not empty and both addresses empty; a record of a markdown
    catalogue has a name of two characters at least. A record of the
    extractor of PulseMCP has an [url] that is not empty, and so has
    the record of the GitHub code search, whose two addresses are the
    same. The mapping of a JSON list gives one record for each of its
    objects, whatever the object holds. *)
Theorem emitted_records_are_named :
  (forall E soup source_name base_url search_url r,
      r ∈ _parse_generic_results E soup source_name base_url search_url ->
      has_name r /\ has_url r)
  /\ (forall E soup source_name base_url r,
         r ∈ _parse_mcpserverfinder_results E soup source_name base_url ->
         has_name r /\ has_url r)
  /\ (forall E soup source_name base_url r,
         r ∈ _parse_mcpservers_results E soup source_name base_url ->
         has_name r /\ (urljoin_keeps E base_url -> has_url r))
  /\ (forall E html cfg results r,
         _basic_fallback_parsing E html cfg = inr results ->
         r ∈ results ->
         has_name r
         /\ (links_have_targets E html ->
             urljoin_keeps E (cfg_get cfg "url" "") -> has_url r))
  /\ (forall txt cfg r,
         r ∈ _parse_text_response txt cfg ->
         has_name r /\ url r = JStr "" /\ github_url r = JStr "")
  /\ (forall content cfg query r,
         r ∈ Awesome._parse_awesome_list_content content cfg query ->
         exists nm, name r = JStr nm /\ (2 <= String.length nm)%nat)
  /\ (forall E soup source_name base_url r,
         r ∈ _parse_pulsemcp_results E soup source_name base_url ->
         has_url r)
  /\ (forall data cfg repo r,
         r ∈ _parse_github_response data cfg repo ->
         has_url r /\ github_url r = url r)
  /\ (forall items cfg,
         exists rs, _parse_api_response (JArr items) cfg = inr rs
                    /\ length rs
                       = length (filter (fun j => is_object j = true) items)).
Proof.
  repeat apply conj.
  - intros E soup source_name base_url search_url r Hr.
    apply ParserFacts.keep_valid_elem in Hr as (x & cfg & _ & Hx & _).
    apply ParserFacts.extract_fields in Hx as (nm & u & Hnm & Hu & Hn & Htu).
    split; [exists nm|exists u]; (split; [done|]);
      by apply PyFacts.truthy_nonempty.
  - intros E soup source_name base_url r Hr.
    apply ParserFacts.finder_records in Hr as (nm & u & Hnm & Hu & Hkeeps).
    unfold finder_keeps in Hkeeps.
    repeat (apply andb_true_iff in Hkeeps as [Hkeeps ?]).
    split; [exists nm|exists u]; (split; [done|]);
      by apply PyFacts.truthy_nonempty.
  - intros E soup source_name base_url r Hr.
    apply ParserFacts.mcpservers_records in Hr
      as (nm & u & href & Hnm & Hne & Hu & Habs & Hservers).
    split; [by exists nm|]. intros Hkeeps. exists u. split; [done|].
    apply (ParserFacts.absolute_keeps E base_url href); [done| |done].
    by intros ->.
  - intros E html cfg results r Hrun Hr. unfold _basic_fallback_parsing in Hrun.
    destruct (ParserFacts.fallback_records E _ _ _ results r Hrun Hr)
      as (href & txt & u & Hmatch & Hnm & Hlong & Hu & Habs).
    split.
    + exists (Py.strip txt). split; [done|].
      destruct (Py.strip txt); [cbn in Hlong; lia|done].
    + intros Htargets Hkeeps. exists u. split; [done|].
      apply (ParserFacts.absolute_keeps E (cfg_get cfg "url" "") href);
        [done| |done].
      apply (Htargets href txt).
      by apply (ParserFacts.elem_of_take 20).
  - intros txt cfg r. rewrite ParserFacts.parse_text_spec.
    intros (line & -> & Hline)%list_elem_of_fmap.
    apply list_elem_of_filter in Hline as [Hline _].
    destruct (ParserFacts.text_record_fields (cfg_get cfg "name" "Unknown")
                line Hline) as (nm & Hnm & Hne & _).
    split; [by exists nm|done].
  - intros content cfg query r Hr.
    apply AwesomeFacts.records_are_not_noise in Hr as (nm & ? & ? & _).
    by exists nm.
  - intros E soup source_name base_url r Hr.
    apply ParserFacts.pulsemcp_records in Hr as (u & Hu & Hservers).
    exists u. split; [done|]. by intros ->.
  - intros data cfg repo r ->%list_elem_of_singleton.
    split; [|done]. eexists. split; [reflexivity|done].
  - intros items cfg. eexists. split; [reflexivity|].
    apply ParserFacts.api_items_length.
Qed.

(** The amended C4 on the pages and the texts of the examples. *)
Lemma emitted_records_are_named_witness :
  (has_name (result_of "Weather server" "No description available"
                       "http://h/server/weather" "" "Finder" "")
   /\ has_url (result_of "Weather server" "No description available"
                         "http://h/server/weather" "" "Finder" ""))
  /\ has_url (result_of "acme/weather tool" "MCP server by acme"
                        "https://mcpservers.org/servers/acme/weather-tool"
                        "" "Org" "")
  /\ has_url (result_of "Weather tool" "Found via basic parsing"
                        "http://h/servers/weather" "" "Raw" "")
  /\ has_name (text_record "Unknown" "hello")
  /\ (exists nm, name (Demo.foo_record "GitHub") = JStr nm
                 /\ (2 <= String.length nm)%nat).
Proof.
  pose proof emitted_records_are_named
    as (_ & Hfinder & Hservers & Hfallback & Htext & Hmarkdown & _).
  split; [|split; [|split; [|split]]].
  - apply (Hfinder Demo.steady Cases.results_page "Finder" "http://h").
    vm_compute. left.
  - apply (Hservers Demo.steady Cases.links_page "Org"
                    "https://mcpservers.org").
    + vm_compute. left.
    + intros href u _ _ [= <-]. vm_compute. discriminate.
  - refine (proj2 (Hfallback Cases.raw_links "<html>" Cases.raw_cfg
                     _ _ eq_refl _) _ _).
    + vm_compute. left.
    + intros href txt Hin ->.
      unfold Cases.raw_links, with_links in Hin. cbn [findall_links] in Hin.
      apply elem_of_cons in Hin as [[=]|Hin].
      apply elem_of_cons in Hin as [[=]|Hin].
      by apply elem_of_nil in Hin.
    + intros href u _ _ [= <-]. vm_compute. discriminate.
  - apply (Htext "hello" ∅). vm_compute. left.
  - apply (Hmarkdown Demo.catalogue ∅ "foo"). vm_compute. left.
Defined.

(** ** The plain-text parse of an answer that is not JSON *)

(** C8, as the claim states it, fails: the body below is not JSON and
    its first line that is not empty is "foo", whatever the number of
    lines to keep, but it comes after ten empty lines, and the strategy
    returns no record. *)
Lemma late_text_gives_nothing :
  json_loads Demo.plain Demo.late_text = None
  /\ (forall n, spec_first_nonempty_lines (S n) Demo.late_text = ["foo"])
  /\ fst (_search_api Demo.plain Demo.api_cfg "q" Demo.empty_world) = inr [].
Proof.
  split; [reflexivity|]. split; [|vm_compute; reflexivity].
  intros n. unfold spec_first_nonempty_lines.
  replace (filter _ _) with ["foo"] by (vm_compute; reflexivity).
  by destruct n.
Qed.

(** C8, amended. When the body of an answer fails JSON decoding, the
    strategy returns the plain-text parse of the body: one record for
    each line that is not blank among the first ten lines of the body,
    in order, named by the stripped line cut to 100 characters; there
    are ten records at most, and none when these lines are all blank. *)
Theorem api_falls_back_to_text (E : Env) (cfg : source_config)
    (query : string) (w : world) (rq : request) (r : response) :
  Py.truthy (cfg_get cfg "search_endpoint" "") = true ->
  api_request E cfg query = inr rq ->
  network E (trace w) rq = Answer r ->
  ~ (400 <= status_code r < 600) ->
  json_loads E (text r) = None ->
  let records :=
    map (text_record (cfg_get cfg "name" "Unknown")) (kept_lines (text r)) in
  fst (_search_api E cfg query w) = inr records
  /\ (length records <= 10)%nat
  /\ forall rec, rec ∈ records ->
       exists nm, name rec = JStr nm /\ nm <> ""
                  /\ (String.length nm <= 100)%nat.
Proof.
  intros Hendpoint Hrq Hnet Hstatus Hjson records. split; [|split].
  - unfold _search_api. rewrite Hendpoint. cbn [negb].
    assert (Hok : (400 <=? status_code r) && (status_code r <? 600) = false).
    { apply andb_false_iff.
      destruct (Z.leb_spec 400 (status_code r)); [|by left].
      destruct (Z.ltb_spec (status_code r) 600); [lia|by right]. }
    unfold api_request in Hrq. cbv zeta in Hrq.
    unfold try_except, bind, lift, session_get, raise_for_status,
      response_json, ret, raise.
    destruct (Py.contains "{query}" (cfg_get cfg "search_endpoint" "")).
    + destruct (format_query E _ _) as [e|u]; [done|].
      injection Hrq as <-.
      rewrite Hnet, Hok, Hjson. cbn.
      by rewrite ParserFacts.parse_text_spec.
    + destruct (build_params E _ _ _) as [e|ps]; [done|].
      injection Hrq as <-.
      rewrite Hnet, Hok, Hjson. cbn.
      by rewrite ParserFacts.parse_text_spec.
  - unfold records. rewrite length_map. apply ParserFacts.kept_lines_length.
  - intros rec (line & -> & Hline)%list_elem_of_fmap.
    apply list_elem_of_filter in Hline as [Hline _].
    by apply ParserFacts.text_record_fields.
Qed.

(** The amended C8 on a body with text on its first and third lines. *)
Lemma api_falls_back_to_text_witness :
  fst (_search_api Demo.plain2 Demo.api_cfg "q" Demo.empty_world)
  = inr [text_record "Api One" "  alpha "; text_record "Api One" "beta"].
Proof.
  refine (proj1 (api_falls_back_to_text Demo.plain2 Demo.api_cfg "q"
                   Demo.empty_world (Request "http://x/api?q=q" [] [])
                   (Response 200 Demo.two_lines) _ _ _ _ _)).
  - reflexivity.
  - reflexivity.
  - reflexivity.
  - simpl. lia.
  - reflexivity.
Defined.

(** ** The cache and the search of one source *)

Module CacheFacts.

Lemma files_log (e : event) (w : world) : files (log e w) = files w.
Proof. done. Qed.

Lemma now_log (e : event) (w : world) : now (log e w) = now w.
Proof. done. Qed.

Lemma gtb_false (a b : Z) : a <= b -> (a >? b) = false.
Proof. intros H. rewrite Z.gtb_ltb. by apply Z.ltb_ge. Qed.

Lemma gtb_true (a b : Z) : b < a -> (a >? b) = true.
Proof. intros H. rewrite Z.gtb_ltb. by apply Z.ltb_lt. Qed.

(** The look-up in the cache never raises. *)
Lemma get_cached_total (E : Env) (source query : string) (ttl : Z)
    (w : world) :
  exists hit w', get_cached_results E source query ttl w = (inr hit, w').
Proof.
  unfold get_cached_results. cbv zeta.
  destruct (files _ !! _) as [f|]; [|by eexists _, _].
  destruct (_ >? _); [by eexists _, _|].
  destruct (pickled f); by eexists _, _.
Qed.

End CacheFacts.

(** C6. With an entry of the cache that has not expired for the source
    and the query, a search with the cache enabled returns the records
    of the entry; the only effects are the two accesses to the file of
    the entry: no request is sent and the cache is left as it was. *)
Theorem cache_hit_without_network (E : Env) (source_id query : string)
    (w : world) (f : cache_file) (results : list SearchResult) :
  let file := _get_cache_file (_get_cache_key E source_id query) in
  files w !! file = Some f ->
  now w - mtime f <= 24 * 3600 ->
  pickled f = Some results ->
  exists w',
    search E source_id query true w = (inr results, w')
    /\ trace w' = (trace w ++ [CacheStat file; CacheLoad file])%list
    /\ count_gets (trace w') = count_gets (trace w)
    /\ files w' = files w.
Proof.
  intros file Hfile Hage Hpickled.
  eexists. split; [|split; [|split]].
  - unfold search, bind, get_cached_results. cbv zeta.
    rewrite CacheFacts.files_log. fold file. rewrite Hfile.
    rewrite CacheFacts.now_log, CacheFacts.gtb_false by done.
    rewrite Hpickled. reflexivity.
  - simpl. by rewrite <- app_assoc.
  - simpl. unfold count_gets. rewrite <- app_assoc, filter_app.
    rewrite length_app. simpl. lia.
  - done.
Qed.

(** C6 on a world whose cache was written ten seconds ago. *)
Lemma cache_hit_without_network_witness :
  exists w',
    search Demo.steady "api1" "q" true
           (Demo.cached_world 10 [Demo.foo_record "x"])
    = (inr [Demo.foo_record "x"], w')
    /\ trace w' = [CacheStat Demo.api1_file; CacheLoad Demo.api1_file]
    /\ count_gets (trace w') = 0%nat
    /\ files w' = files (Demo.cached_world 10 [Demo.foo_record "x"]).
Proof.
  apply (cache_hit_without_network Demo.steady "api1" "q"
           (Demo.cached_world 10 [Demo.foo_record "x"])
           (CacheFile 0 (Some [Demo.foo_record "x"]))).
  - vm_compute. reflexivity.
  - simpl. lia.
  - reflexivity.
Defined.

(** An entry older than [ttl] hours is not returned and its file is
    removed, whatever [ttl] is. *)
Lemma expired_lookup (E : Env) (source_id query : string) (ttl : Z)
    (w : world) (f : cache_file) :
  let file := _get_cache_file (_get_cache_key E source_id query) in
  files w !! file = Some f ->
  ttl * 3600 < now w - mtime f ->
  get_cached_results E source_id query ttl w
  = (inr None, remove_file file (log (CacheStat file) w)).
Proof.
  intros file Hfile Hage.
  unfold get_cached_results. cbv zeta.
  rewrite CacheFacts.files_log. fold file. rewrite Hfile.
  rewrite CacheFacts.now_log, CacheFacts.gtb_true by done.
  reflexivity.
Qed.

(** C5. An entry that is older than the time to live of 24 hours is
    absent for the look-up: [get_cached_results] returns [None] and
    removes the file of the entry, and a search with the cache enabled
    goes on as a search that found no entry, from the world without
    the file. *)
Theorem expired_entry_is_a_miss (E : Env) (source_id query : string)
    (w : world) (f : cache_file) :
  let file := _get_cache_file (_get_cache_key E source_id query) in
  let w' := remove_file file (log (CacheStat file) w) in
  files w !! file = Some f ->
  24 * 3600 < now w - mtime f ->
  get_cached_results E source_id query 24 w = (inr None, w')
  /\ files w' !! file = None
  /\ search E source_id query true w
     = search_live E source_id query true w'.
Proof.
  intros file w' Hfile Hage.
  pose proof (expired_lookup E source_id query 24 w f Hfile Hage) as Hget.
  fold file in Hget. fold w' in Hget.
  split; [done|]. split.
  - unfold w', remove_file. simpl. apply lookup_delete_eq.
  - unfold search, bind. by rewrite Hget.
Qed.

(** C5 on a world whose cache was written 100000 seconds ago: the entry
    is removed and the source is asked again. *)
Lemma expired_entry_is_a_miss_witness :
  let w := Demo.cached_world 100000 [Demo.foo_record "x"] in
  fst (get_cached_results Demo.steady "api1" "q" 24 w) = inr None
  /\ files (snd (get_cached_results Demo.steady "api1" "q" 24 w))
       !! Demo.api1_file = None
  /\ fst (search Demo.steady "api1" "q" true w) = inr [Demo.api_record]
  /\ count_gets (trace (snd (search Demo.steady "api1" "q" true w))) = 1%nat.
Proof.
  intros w.
  destruct (expired_entry_is_a_miss Demo.steady "api1" "q" w
              (CacheFile 0 (Some [Demo.foo_record "x"])))
    as (Hget & Hgone & Hsearch).
  - vm_compute. reflexivity.
  - simpl. lia.
  - rewrite Hget, Hsearch. repeat split; try done.
Defined.

(** ** Computations that leave the cache alone *)

Module Frame.

Lemma untouched_ret {A} (a : A) : cache_untouched (ret a).
Proof. intros w. split; [done|]. exists []. by rewrite app_nil_r. Qed.

Lemma untouched_raise {A} (e : exn) : cache_untouched (@raise A e).
Proof. intros w. split; [done|]. exists []. by rewrite app_nil_r. Qed.

Lemma untouched_lift {A} (r : exn + A) : cache_untouched (lift r).
Proof. intros w. split; [done|]. exists []. by rewrite app_nil_r. Qed.

Lemma untouched_bind {A B} (m : M A) (k : A -> M B) :
  cache_untouched m -> (forall a, cache_untouched (k a)) ->
  cache_untouched (bind m k).
Proof.
  intros Hm Hk w. unfold bind.
  destruct (Hm w) as (Hf & evs & Ht & Hevs).
  destruct (m w) as [[e|a] w1]; simpl in *; [by eauto|].
  destruct (Hk a w1) as (Hf' & evs' & Ht' & Hevs').
  split; [congruence|]. exists (evs ++ evs')%list.
  rewrite Ht', Ht, app_assoc. split; [done|by apply Forall_app].
Qed.

Lemma untouched_try {A} (m : M A) (caught : exn -> bool) (h : exn -> M A) :
  cache_untouched m -> (forall e, cache_untouched (h e)) ->
  cache_untouched (try_except m caught h).
Proof.
  intros Hm Hh w. unfold try_except.
  destruct (Hm w) as (Hf & evs & Ht & Hevs).
  destruct (m w) as [[e|a] w1]; simpl in *; [|by eauto].
  destruct (caught e); simpl; [|by eauto].
  destruct (Hh e w1) as (Hf' & evs' & Ht' & Hevs').
  split; [congruence|]. exists (evs ++ evs')%list.
  rewrite Ht', Ht, app_assoc. split; [done|by apply Forall_app].
Qed.

Lemma untouched_get (E : Env) (rq : request) :
  cache_untouched (session_get E rq).
Proof.
  intros w. unfold session_get.
  destruct (network E (trace w) rq); simpl;
    (split; [done|]; exists [HttpGet rq]; split; [done|]);
    by repeat constructor.
Qed.

Lemma untouched_status (r : response) : cache_untouched (raise_for_status r).
Proof.
  unfold raise_for_status.
  destruct (_ && _); [apply untouched_raise|apply untouched_ret].
Qed.

Lemma untouched_json (E : Env) (r : response) :
  cache_untouched (response_json E r).
Proof.
  unfold response_json.
  destruct (json_loads E (text r)); [apply untouched_ret|apply untouched_raise].
Qed.

Lemma untouched_sleep (seconds : Z) : cache_untouched (sleep seconds).
Proof.
  intros w. split; [done|]. exists [Sleep seconds]. split; [done|].
  by repeat constructor.
Qed.

(** Goes through a computation written with [bind], [try_except] and
    tests, down to the steps above. *)
Ltac untouched :=
  repeat first
    [ apply untouched_ret
    | apply untouched_raise
    | apply untouched_lift
    | apply untouched_get
    | apply untouched_status
    | apply untouched_json
    | apply untouched_sleep
    | apply untouched_bind; [|intros ?]
    | apply untouched_try; [|intros ?]
    | match goal with
      | |- cache_untouched (if ?b then _ else _) => destruct b
      | |- cache_untouched (match ?x with _ => _ end) => destruct x
      end ].

Lemma untouched_api (E : Env) (cfg : source_config) (query : string) :
  cache_untouched (_search_api E cfg query).
Proof. unfold _search_api. cbv zeta. untouched. Qed.

Lemma untouched_url_param (E : Env) (cfg : source_config) (query : string) :
  cache_untouched (_search_url_param E cfg query).
Proof. unfold _search_url_param. cbv zeta. untouched. Qed.

Lemma untouched_github_api (E : Env) (cfg : source_config) (query : string) :
  cache_untouched (_search_github_api E cfg query).
Proof. unfold _search_github_api. cbv zeta. untouched. Qed.

Lemma untouched_awesome_list (E : Env) (cfg : source_config)
    (query : string) :
  cache_untouched (_search_awesome_list E cfg query).
Proof. unfold _search_awesome_list. cbv zeta. untouched. Qed.

Lemma untouched_scrape (E : Env) (cfg : source_config) (query : string) :
  cache_untouched (_search_scrape E cfg query).
Proof. unfold _search_scrape. cbv zeta. untouched. Qed.

Lemma untouched_strategy (E : Env) (search_method : string)
    (run : source_config -> string -> M (list SearchResult))
    (cfg : source_config) (query : string) :
  strategy E search_method = Some run -> cache_untouched (run cfg query).
Proof.
  unfold strategy.
  repeat (destruct (String.eqb search_method _);
          [intros [= <-];
           auto using untouched_api, untouched_url_param,
             untouched_github_api, untouched_awesome_list, untouched_scrape|]).
  done.
Qed.

Lemma untouched_search_section (E : Env) (cfg : source_config)
    (source_id query : string) :
  cache_untouched (search_section E cfg source_id query false).
Proof.
  unfold search_section.
  destruct (dict_is_empty _); [apply untouched_ret|].
  apply untouched_try; [|intros ?; apply untouched_ret].
  cbv zeta.
  destruct (strategy E _) as [run|] eqn:Hrun; [|apply untouched_ret].
  apply untouched_bind; [by eapply untouched_strategy|].
  intros results. untouched.
Qed.

Lemma untouched_search_live (E : Env) (source_id query : string) :
  cache_untouched (search_live E source_id query false).
Proof.
  unfold search_live. apply untouched_bind; [apply untouched_lift|].
  intros cfg. apply untouched_search_section.
Qed.

End Frame.

(** C10. A search with [use_cache=False] leaves the cache as it was:
    the files of the cache directory are the same after it, and none of
    its effects is an access to the cache, be it a look-up, a load, a
    removal or a write. *)
Theorem search_without_cache_leaves_cache (E : Env)
    (source_id query : string) (w : world) :
  let w' := snd (search E source_id query false w) in
  files w' = files w
  /\ exists evs, trace w' = (trace w ++ evs)%list
                 /\ Forall (fun e => is_cache_event e = false) evs.
Proof.
  apply (Frame.untouched_bind (ret None)); [apply Frame.untouched_ret|].
  intros [results|]; [apply Frame.untouched_ret|].
  apply Frame.untouched_search_live.
Qed.

(** A search without the cache that finds a record writes nothing,
    where the same search with the cache writes the entry. *)
Example search_without_cache_example :
  let off := search Demo.steady "api1" "q" false Demo.empty_world in
  let on := search Demo.steady "api1" "q" true Demo.empty_world in
  fst off = inr [Demo.api_record]
  /\ files (snd off) = ∅
  /\ trace (snd off) = [HttpGet (Request "http://x/api?q=q" [] [])]
  /\ fst on = inr [Demo.api_record]
  /\ files (snd on) !! Demo.api1_file
     = Some (CacheFile 0 (Some [Demo.api_record])).
Proof. repeat split; vm_compute; reflexivity. Qed.

(** ** The outcomes of a search *)

Module Total.

Lemma get_down (E : Env) (rq : request) (w : world) :
  network_down E ->
  (exists what, session_get E rq w
                = (inl (RequestException what), log (HttpGet rq) w))
  \/ (exists r, session_get E rq w = (inr r, log (HttpGet rq) w)
                /\ raise_for_status r
                   = raise (RequestException "HTTPError")).
Proof.
  intros Hdown. unfold session_get. specialize (Hdown (trace w) rq).
  destruct (network E (trace w) rq) as [what|r]; [left; by eexists|].
  right. exists r. split; [done|]. unfold raise_for_status.
  destruct Hdown as [H1 H2].
  apply Z.leb_le in H1. apply Z.ltb_lt in H2. by rewrite H1, H2.
Qed.

(** A request followed by the check of its status raises a
    [RequestException] when the network is down. *)
Lemma fetch_down {A} (E : Env) (rq : request) (k : response -> M A)
    (w : world) :
  network_down E ->
  exists what,
    bind (session_get E rq) (fun r => bind (raise_for_status r) (fun _ => k r))
         w
    = (inl (RequestException what), log (HttpGet rq) w).
Proof.
  intros Hdown. unfold bind at 1.
  destruct (get_down E rq w Hdown) as [[what ->]|(r & -> & Hr)];
    [by eexists|].
  rewrite Hr. by eexists.
Qed.

Lemma nothing_try_request (m : M (list SearchResult)) :
  (forall w, exists e w', m w = (inl e, w')) ->
  nothing (try_except m is_request_exception (fun _ => ret [])).
Proof.
  intros Hm w. unfold try_except. destruct (Hm w) as (e & w' & ->).
  destruct (is_request_exception e); [by left|right; by eexists].
Qed.

Lemma bind_lift {A B} (r : exn + A) (k : A -> M B) (w : world) :
  bind (lift r) k w
  = match r with inl e => (inl e, w) | inr a => k a w end.
Proof. unfold bind, lift. by destruct r. Qed.

Lemma bind_assoc {A B C} (m : M A) (k : A -> M B) (k' : B -> M C)
    (w : world) :
  bind (bind m k) k' w = bind m (fun a => bind (k a) k') w.
Proof.
  unfold bind. destruct (m w) as [[e|a] w1]; [done|].
  by destruct (k a w1) as [[e|b] w2].
Qed.

Lemma nothing_api (E : Env) (cfg : source_config) (query : string) :
  network_down E -> nothing (_search_api E cfg query).
Proof.
  intros Hdown. unfold _search_api. cbv zeta.
  destruct (negb _); [by left|].
  apply nothing_try_request. intros w.
  destruct (Py.contains "{query}" _); rewrite bind_assoc, bind_lift.
  - destruct (format_query E _ _) as [e|u]; [by eexists _, _|].
    destruct (fetch_down E (Request u [] [])
                (fun r => bind (try_except
                    (bind (response_json E r)
                       (fun data => lift (_parse_api_response data cfg)))
                    is_json_decode_error
                    (fun _ => ret (_parse_text_response (text r) cfg)))
                  (fun results => ret results)) w Hdown) as [what ->].
    by eexists _, _.
  - destruct (build_params E _ _ _) as [e|ps]; [by eexists _, _|].
    destruct (fetch_down E (Request (cfg_get cfg "search_endpoint" "") ps [])
                (fun r => bind (try_except
                    (bind (response_json E r)
                       (fun data => lift (_parse_api_response data cfg)))
                    is_json_decode_error
                    (fun _ => ret (_parse_text_response (text r) cfg)))
                  (fun results => ret results)) w Hdown) as [what ->].
    by eexists _, _.
Qed.

Lemma nothing_url_param (E : Env) (cfg : source_config) (query : string) :
  network_down E -> nothing (_search_url_param E cfg query).
Proof.
  intros Hdown. unfold _search_url_param. cbv zeta.
  destruct (negb _); [by left|].
  apply nothing_try_request. intros w. rewrite bind_lift.
  destruct (format_query E _ _) as [e|u]; [by eexists _, _|].
  destruct (fetch_down E (Request u [] [])
              (fun r => lift (_parse_search_results_html E (text r) cfg u))
              w Hdown) as [what ->].
  by eexists _, _.
Qed.

Lemma nothing_github_api (E : Env) (cfg : source_config) (query : string) :
  network_down E -> nothing (_search_github_api E cfg query).
Proof.
  intros Hdown. unfold _search_github_api. cbv zeta.
  destruct (negb _); [by left|].
  apply nothing_try_request. intros w. rewrite bind_lift.
  destruct (github_headers E) as [e|headers]; [by eexists _, _|].
  match goal with
  | |- context [session_get E ?rq] =>
      destruct (fetch_down E rq
                  (fun r => bind (response_json E r)
                     (fun data =>
                        ret (_parse_github_response data cfg
                               (cfg_get cfg "search_repo" ""))))
                  w Hdown) as [what ->]
  end.
  by eexists _, _.
Qed.

Lemma nothing_awesome_list (E : Env) (cfg : source_config) (query : string) :
  network_down E -> nothing (_search_awesome_list E cfg query).
Proof.
  intros Hdown. unfold _search_awesome_list. cbv zeta.
  destruct (negb _); [by left|].
  intros w. left. unfold try_except. rewrite bind_lift.
  destruct (github_headers E) as [e0|headers]; [done|].
  match goal with
  | |- context [bind (session_get E ?rq) ?k] =>
      destruct (bind (session_get E rq) k w) as [[e|rs] w'] eqn:Hrun
  end; [done|exfalso].
  unfold bind at 1 in Hrun.
  match type of Hrun with
  | context [session_get E ?rq w] =>
      destruct (get_down E rq w Hdown) as [[what Hget]|(r & Hget & Hr)];
        rewrite Hget in Hrun; [done|]
  end.
  rewrite Hr in Hrun. done.
Qed.

Lemma nothing_scrape (E : Env) (cfg : source_config) (query : string) :
  network_down E -> nothing (_search_scrape E cfg query).
Proof.
  intros Hdown. unfold _search_scrape. cbv zeta.
  destruct (negb _); [by left|].
  apply nothing_try_request. intros w.
  destruct (fetch_down E (Request (cfg_get cfg "url" "") [] [])
              (fun r => lift (_parse_scraped_content E (text r) cfg query))
              w Hdown) as [what ->].
  by eexists _, _.
Qed.

Lemma nothing_strategy (E : Env) (search_method : string)
    (run : source_config -> string -> M (list SearchResult))
    (cfg : source_config) (query : string) :
  network_down E ->
  strategy E search_method = Some run -> nothing (run cfg query).
Proof.
  intros Hdown. unfold strategy.
  repeat (destruct (String.eqb search_method _);
          [intros [= <-];
           auto using nothing_api, nothing_url_param, nothing_github_api,
             nothing_awesome_list, nothing_scrape|]).
  done.
Qed.

(** Once the section of the source is read, the rest of a search never
    raises. *)
Lemma search_section_total (E : Env) (cfg : source_config)
    (source_id query : string) (use_cache : bool) (w : world) :
  exists results w',
    search_section E cfg source_id query use_cache w = (inr results, w').
Proof.
  unfold search_section.
  destruct (dict_is_empty _); [by eexists _, _|].
  unfold try_except.
  match goal with
  | |- context [match ?m w with _ => _ end] =>
      destruct (m w) as [[e|results] w']
  end; by eexists _, _.
Qed.

Lemma search_live_reads (E : Env) (source_id query : string)
    (use_cache : bool) (cfg : source_config) (w : world) :
  get_source_config E source_id = inr cfg ->
  search_live E source_id query use_cache w
  = search_section E cfg source_id query use_cache w.
Proof. intros Hcfg. unfold search_live. by rewrite bind_lift, Hcfg. Qed.

Lemma search_live_raises (E : Env) (source_id query : string)
    (use_cache : bool) (e : exn) (w : world) :
  get_source_config E source_id = inl e ->
  search_live E source_id query use_cache w = (inl e, w).
Proof. intros Hcfg. unfold search_live. by rewrite bind_lift, Hcfg. Qed.

(** The part of a search after the cache returns a list or raises what
    the reading of the section raised. *)
Lemma search_live_outcome (E : Env) (source_id query : string)
    (use_cache : bool) (w : world) :
  (exists results w',
      search_live E source_id query use_cache w = (inr results, w'))
  \/ (exists e, get_source_config E source_id = inl e
                /\ search_live E source_id query use_cache w = (inl e, w)).
Proof.
  destruct (get_source_config E source_id) as [e|cfg] eqn:Hcfg.
  - right. exists e. split; [done|]. by apply search_live_raises.
  - left. rewrite (search_live_reads E source_id query use_cache cfg w Hcfg).
    apply search_section_total.
Qed.

(** In each of the bad cases, the part of a search after the cache
    returns no record. *)
Lemma search_live_worst (E : Env) (source_id query : string)
    (use_cache : bool) (w : world) :
  unknown_source E source_id \/ unknown_method E source_id
  \/ strategy_raises E source_id query w
  \/ (network_down E /\ exists cfg, get_source_config E source_id = inr cfg) ->
  fst (search_live E source_id query use_cache w) = inr [].
Proof.
  intros Hcase.
  assert (exists cfg, get_source_config E source_id = inr cfg) as [cfg Hcfg].
  { destruct Hcase as [Hsrc|[(cfg & ? & _)|[(cfg & ? & ? & ? & ? & _)|[_ ?]]]];
      [by exists ∅|by exists cfg|by exists cfg|done]. }
  rewrite (search_live_reads E source_id query use_cache cfg w Hcfg).
  unfold search_section, dict_is_empty. case_bool_decide as Hempty; [done|].
  cbv zeta.
  destruct Hcase as [Hsrc|[Hmeth|[Hraise|[Hdown _]]]].
  - unfold unknown_source in Hsrc. congruence.
  - destruct Hmeth as (cfg' & Hcfg' & Hmeth).
    assert (cfg' = cfg) as -> by congruence.
    unfold try_except. by rewrite Hmeth.
  - destruct Hraise as (cfg' & run & e & w' & Hcfg' & Hrun & Hrun').
    assert (cfg' = cfg) as -> by congruence.
    unfold try_except, bind. by rewrite Hrun, Hrun'.
  - unfold try_except.
    destruct (strategy E _) as [run|] eqn:Hrun; [|done].
    unfold bind at 1.
    destruct (nothing_strategy E _ run cfg query Hdown Hrun w)
      as [Hr|[e Hr]];
      destruct (run _ query w) as [[e'|rs] w']; simpl in Hr; try done.
    by injection Hr as ->.
Qed.

(** The look-up of [search] in the cache never raises. *)
Lemma lookup_total (E : Env) (source_id query : string) (use_cache : bool)
    (w : world) :
  exists hit w1,
    (if use_cache then get_cached_results E source_id query 24
     else ret None) w = (inr hit, w1).
Proof.
  destruct use_cache; [apply CacheFacts.get_cached_total|by eexists _, _].
Qed.

(** A search returns a list of records when the section of the source
    can be read. *)
Lemma search_total (E : Env) (source_id query : string) (use_cache : bool)
    (cfg : source_config) (w : world) :
  get_source_config E source_id = inr cfg ->
  exists results w',
    search E source_id query use_cache w = (inr results, w').
Proof.
  intros Hcfg. unfold search, bind.
  destruct (lookup_total E source_id query use_cache w) as (hit & w1 & ->).
  destruct hit as [results|]; [by eexists _, _|].
  rewrite (search_live_reads E source_id query use_cache cfg w1 Hcfg).
  apply search_section_total.
Qed.

(** A search returns a list or raises what the reading of the section
    raised, after a miss in the cache. *)
Lemma search_outcome (E : Env) (source_id query : string) (use_cache : bool)
    (w : world) :
  exists w',
    (exists results, search E source_id query use_cache w = (inr results, w'))
    \/ (exists e, get_source_config E source_id = inl e
                  /\ search E source_id query use_cache w = (inl e, w')).
Proof.
  unfold search, bind.
  destruct (lookup_total E source_id query use_cache w) as (hit & w1 & ->).
  destruct hit as [results|]; [exists w1; left; by eexists|].
  destruct (search_live_outcome E source_id query use_cache w1)
    as [(results & w' & ->)|(e & Hcfg & ->)].
  - exists w'. left. by eexists.
  - exists w1. right. by exists e.
Qed.

(** A value that the interpolation refuses makes the reading of its
    section raise. *)
Lemma read_section_refused (E : Env) (sec : gmap string string)
    (option v : string) :
  sec !! option = Some v ->
  interpolate E sec v = None ->
  read_section E sec = inl InterpolationError.
Proof.
  intros Hoption Hrefused. unfold read_section.
  destruct (forallb _ (map_to_list sec)) eqn:Hall; [|done].
  rewrite forallb_forall in Hall.
  specialize (Hall (option, v)). cbn [snd] in Hall.
  rewrite Hrefused in Hall. discriminate Hall.
  by apply list_elem_of_In, elem_of_map_to_list.
Qed.

(** The values of a section that was read. *)
Lemma read_section_values (E : Env) (sec values : gmap string string) :
  read_section E sec = inr values ->
  values = omap (interpolate E sec) sec.
Proof.
  unfold read_section. destruct (forallb _ _); [|done]. by intros [= <-].
Qed.

End Total.

(** C1 fails on a source whose section holds a value that the
    interpolation of the parser refuses, such as an address with an
    escaped character ([%20]). The section is read before the [try] of
    [search], whose handler turns every other failure into the empty
    list: when the cache gives no entry, the search raises the error of
    the interpolation to its caller. *)
Theorem unreadable_section_raises (E : Env) (source_id query : string)
    (use_cache : bool) (sec : gmap string string) (option v : string)
    (w w1 : world) :
  config E !! ("SOURCE_" ++ source_id) = Some sec ->
  sec !! option = Some v ->
  interpolate E sec v = None ->
  (if use_cache then get_cached_results E source_id query 24
   else ret None) w = (inr None, w1) ->
  search E source_id query use_cache w = (inl InterpolationError, w1).
Proof.
  intros Hsec Hoption Hrefused Hmiss. unfold search, bind. rewrite Hmiss.
  apply Total.search_live_raises. unfold get_source_config. rewrite Hsec.
  by apply (Total.read_section_refused E sec option v).
Qed.

(** C1 on the failing input: a source whose endpoint holds [%20],
    searched with and without the cache. *)
Lemma unreadable_section_raises_witness :
  fst (search Cases.escaped "api1" "q" false Demo.empty_world)
  = inl InterpolationError
  /\ fst (search Cases.escaped "api1" "q" true Demo.empty_world)
     = inl InterpolationError.
Proof.
  split.
  - exact (f_equal fst
             (unreadable_section_raises Cases.escaped "api1" "q" false
                Cases.escaped_section "search_endpoint"
                "http://x/api?tag=a%20b&q={query}" Demo.empty_world
                Demo.empty_world eq_refl eq_refl eq_refl eq_refl)).
  - exact (f_equal fst
             (unreadable_section_raises Cases.escaped "api1" "q" true
                Cases.escaped_section "search_endpoint"
                "http://x/api?tag=a%20b&q={query}" Demo.empty_world
                (log (CacheStat (_get_cache_file "api1_q")) Demo.empty_world)
                eq_refl eq_refl eq_refl eq_refl)).
Defined.

(** X25. When the section of the source can be read, a search never
    raises: it returns a list of records. If the cache gives no entry and the
    source is not configured, or its retrieval mode is not known, or its
    strategy raises (a failure of parsing among others), or the network
    is down, the list is empty. *)
Theorem search_returns_when_section_reads (E : Env)
    (source_id query : string) (use_cache : bool) (cfg : source_config)
    (w : world) :
  get_source_config E source_id = inr cfg ->
  (exists results w',
      search E source_id query use_cache w = (inr results, w'))
  /\ (forall w1,
         (if use_cache then get_cached_results E source_id query 24
          else ret None) w = (inr None, w1) ->
         unknown_source E source_id \/ unknown_method E source_id
         \/ strategy_raises E source_id query w1 \/ network_down E ->
         fst (search E source_id query use_cache w) = inr []).
Proof.
  intros Hcfg. split; [by apply (Total.search_total E _ _ _ cfg)|].
  intros w1 Hmiss Hcase. unfold search, bind. rewrite Hmiss.
  apply Total.search_live_worst.
  destruct Hcase as [?|[?|[?|?]]]; [by left|by right; left|
                                    by right; right; left|].
  right. right. right. split; [done|by exists cfg].
Qed.

(** X25 on a source that is not configured, and on a configured source
    when the network is down. *)
Lemma search_returns_when_section_reads_witness :
  fst (search Demo.steady "nowhere" "q" true Demo.empty_world) = inr []
  /\ fst (search Demo.offline "api1" "q" false Demo.empty_world) = inr [].
Proof.
  split.
  - apply (proj2 (search_returns_when_section_reads Demo.steady "nowhere" "q"
                    true ∅ Demo.empty_world eq_refl)
             (log (CacheStat (_get_cache_file "nowhere_q")) Demo.empty_world)).
    + reflexivity.
    + left. reflexivity.
  - apply (proj2 (search_returns_when_section_reads Demo.offline "api1" "q"
                    false Demo.api_cfg Demo.empty_world eq_refl)
             Demo.empty_world).
    + reflexivity.
    + do 3 right. intros tr rq. exact I.
Defined.

(** ** The generic HTML pipeline on navigation links *)

Module HtmlFacts.

Import Dom.

(** Induction on a document, with the property on all the children of
    an element. *)
Lemma node_induction (P : node -> Prop) :
  (forall s, P (Text s)) ->
  (forall t a children, Forall P children -> P (Tag t a children)) ->
  forall n, P n.
Proof.
  intros HText HTag. fix IH 1. intros [s|t a children].
  - apply HText.
  - apply HTag. induction children as [|c children IHc].
    + constructor.
    + constructor; [apply IH|apply IHc].
Qed.

(** The elements of a document with what is around them are the
    elements of the document, in the same order. *)
Lemma places_descendants (n : node) :
  forall ancestors, map here (places ancestors n) = descendants n.
Proof.
  induction n as [s|t a children IH] using node_induction;
    intros ancestors; [done|].
  cbn [places descendants]. set (p := Tag t a children). clearbody p.
  induction children as [|c children IHc]; [done|].
  apply Forall_cons in IH as [Hc Hchildren]. specialize (IHc Hchildren).
  destruct c as [s|t' a' ch']; cbn [flat_map]; [exact IHc|].
  cbn [map here]. rewrite map_app, Hc, IHc. reflexivity.
Qed.

(** The elements below an element are its children that are elements
    and what is below them. *)
Lemma descendants_elem (t : string) (a : list (string * string))
    (children : list node) (x : located) :
  x ∈ descendants (Tag t a children)
  <-> exists c, c ∈ children
                /\ (exists t' a' ch', c = Tag t' a' ch')
                /\ (x = Loc c (Tag t a children) \/ x ∈ descendants c).
Proof.
  cbn [descendants]. rewrite list_elem_of_In, in_flat_map. split.
  - intros (c & Hc & Hx). exists c. rewrite list_elem_of_In. split; [done|].
    destruct c as [s|t' a' ch']; [done|].
    split; [by eexists _, _, _|].
    destruct Hx as [<-|Hx]; [by left|right].
    by apply list_elem_of_In.
  - intros (c & Hc & (t' & a' & ch' & ->) & Hx). exists (Tag t' a' ch').
    split; [by apply list_elem_of_In|].
    destruct Hx as [->|Hx]; [by left|right].
    by apply list_elem_of_In.
Qed.

(** What is below an element of the document is in the document. *)
Lemma descendants_trans (n : node) (x y : located) :
  x ∈ descendants n -> y ∈ descendants (el x) -> y ∈ descendants n.
Proof.
  revert x y. induction n as [s|t a children IH] using node_induction;
    intros x y Hx Hy.
  - by apply elem_of_nil in Hx.
  - apply descendants_elem in Hx as (c & Hc & Helem & Hx).
    apply descendants_elem. exists c. split; [done|]. split; [done|].
    right. destruct Hx as [->|Hx]; [done|].
    rewrite Forall_forall in IH. by apply (IH c Hc x y).
Qed.

Lemma mem_elem (s : string) (l : list string) : Py.mem s l = true -> s ∈ l.
Proof.
  unfold Py.mem. intros (y & Hy & Heq)%existsb_exists.
  apply String.eqb_eq in Heq as ->. by apply list_elem_of_In.
Qed.

(** In a document with navigation links only, a hyperlink points to a
    navigation target. *)
Lemma link_target (soup : node) (x : located) :
  only_nav_links soup = true ->
  x ∈ descendants soup -> is_link (el x) = true ->
  exists h, get_attr "href" (el x) = Some h /\ h ∈ nav_targets.
Proof.
  unfold only_nav_links. rewrite forallb_forall.
  intros Hall Hx Hlink. apply list_elem_of_In in Hx.
  specialize (Hall x Hx). rewrite Hlink in Hall.
  apply mem_elem in Hall.
  unfold is_link, has_attr in Hlink. apply andb_true_iff in Hlink as [_ Hattr].
  destruct (get_attr "href" (el x)) as [h|]; [|done].
  by exists h.
Qed.

Lemma collect_hrefs_nav (links : list located)
    (url_candidates : list (option string)) :
  (forall l, l ∈ links ->
             exists h, get_attr "href" (el l) = Some h /\ h ∈ nav_targets) ->
  Forall nav_or_none url_candidates ->
  Forall nav_or_none (collect_hrefs links url_candidates).
Proof.
  revert url_candidates.
  induction links as [|l links IH]; intros cands Hlinks Hcands;
    cbn [collect_hrefs]; [done|].
  destruct (Hlinks l) as (h & Hh & Hnav); [by left|].
  cbv zeta. rewrite Hh. simpl default.
  assert (Hrest : forall l', l' ∈ links ->
            exists h, get_attr "href" (el l') = Some h /\ h ∈ nav_targets).
  { intros l' Hl'. apply Hlinks. by right. }
  match goal with
  | |- context [if ?b then _ else _] => destruct b
  end; apply IH; try done.
  - by constructor.
  - apply Forall_app. split; [done|]. by constructor.
Qed.

(** The address picked among such candidates is empty or ends with a
    navigation target. *)
Lemma pick_url_nav (E : Env) (url_candidates : list (option string))
    (base_url : string) :
  urljoin_keeps_path E ->
  Forall nav_or_none url_candidates ->
  match pick_url E url_candidates base_url with
  | inl _ => True
  | inr u => u = "" \/ exists pre h, h ∈ nav_targets /\ u = pre ++ h
  end.
Proof.
  intros Hjoin. induction 1 as [|[h|] cands Hh Hcands IH];
    cbn [pick_url]; [by left| |done].
  destruct (Py.truthy h); [|done].
  assert (Hhttp : Py.startswith "http" h = false).
  { simpl in Hh. unfold nav_targets in Hh.
    repeat (apply elem_of_cons in Hh as [->|Hh]; [done|]).
    by apply elem_of_nil in Hh. }
  rewrite Hhttp. cbn [negb].
  destruct (urljoin E base_url h) as [e|u] eqn:Hu; [done|].
  right. destruct (Hjoin base_url h u Hh Hu) as [pre ->]. by exists pre, h.
Qed.

(** An address that ends with a navigation target is refused. *)
Lemma nav_url_is_garbage (r : SearchResult) (search_url pre h : string) :
  h ∈ nav_targets -> url r = JStr (pre ++ h) ->
  _is_valid_result r search_url = false.
Proof.
  intros Hh Hurl. unfold _is_valid_result. cbv zeta. rewrite Hurl.
  cbn [text_of]. rewrite PyFacts.lower_app.
  assert (Hbad : exists p,
             In p ["/new"; "/create"; "/add"; "/search"; "/filter"; "/login";
                   "/register"; "/about"; "/contact"; "/help"; "/faq";
                   "/terms"; "/privacy"; "javascript:"; "mailto:"; "#";
                   "?page="; "?sort="; "?filter="]
             /\ Py.contains p (Py.lower h) = true).
  { unfold nav_targets in Hh.
    apply elem_of_cons in Hh as [->|Hh]; [exists "/login"; split; [|done]|].
    { do 5 right. by left. }
    apply elem_of_cons in Hh as [->|Hh]; [exists "/new"; split; [|done]|].
    { by left. }
    apply elem_of_cons in Hh as [->|Hh]; [exists "/search"; split; [|done]|].
    { do 3 right. by left. }
    by apply elem_of_nil in Hh. }
  destruct Hbad as (p & Hp & Hcontains).
  assert (Hany : Py.any_in
            ["/new"; "/create"; "/add"; "/search"; "/filter"; "/login";
             "/register"; "/about"; "/contact"; "/help"; "/faq";
             "/terms"; "/privacy"; "javascript:"; "mailto:"; "#";
             "?page="; "?sort="; "?filter="]
            (Py.lower pre ++ Py.lower h) = true).
  { unfold Py.any_in. apply existsb_exists. exists p. split; [done|].
    by apply PyFacts.contains_app_r. }
  by rewrite Hany.
Qed.

(** In a document with navigation links only, what is extracted from an
    element is refused. *)
Lemma extract_nav (E : Env) (soup : node) (x : located)
    (cfg : source_config) (base_url search_url : string) (r : SearchResult) :
  urljoin_keeps_path E -> only_nav_links soup = true ->
  x ∈ descendants soup ->
  _extract_result_from_element_enhanced E x cfg base_url search_url = Some r ->
  _is_valid_result r search_url = false.
Proof.
  intros Hjoin Honly Hx. unfold _extract_result_from_element_enhanced.
  cbv zeta.
  match goal with
  | |- context [pick_url E ?cands base_url] =>
      assert (Hcands : Forall nav_or_none cands)
  end.
  { apply collect_hrefs_nav.
    - intros l [Hlink Hl]%list_elem_of_filter.
      apply (link_target soup); [done| |done].
      by apply (descendants_trans soup x).
    - destruct (String.eqb (tag_name (el x)) "a") eqn:Htag; [|done].
      constructor; [|done].
      destruct (get_attr "href" (el x)) as [h|] eqn:Hh; [|done].
      destruct (link_target soup x Honly Hx) as (h' & Hh' & Hnav).
      + unfold is_link, has_attr. rewrite Hh.
        apply String.eqb_eq in Htag.
        destruct (el x) as [s|t a ch]; [done|]. simpl in Htag. subst t.
        done.
      + rewrite Hh in Hh'. by injection Hh' as ->. }
  pose proof (pick_url_nav E _ base_url Hjoin Hcands) as Hpick.
  destruct (pick_url E _ base_url) as [e|u]; [done|].
  destruct Hpick as [->|(pre & h & Hh & ->)].
  - rewrite andb_false_r. done.
  - destruct (_ && _); [|done]. intros [= <-].
    by apply (nav_url_is_garbage _ search_url pre h).
Qed.

Lemma first_selection_sub (selectors : list string) (soup : node)
    (x : located) :
  x ∈ first_selection selectors soup -> x ∈ descendants soup.
Proof.
  induction selectors as [|sel selectors IH]; cbn [first_selection];
    [by intros ?%elem_of_nil|].
  cbv zeta. destruct (_ <? _)%nat; [|done].
  unfold select. destruct sel as [|c sel]; [|destruct (Ascii.eqb c "."%char) eqn:Hc].
  - by intros [_ ?]%list_elem_of_filter.
  - apply Ascii.eqb_eq in Hc as ->. by intros [_ ?]%list_elem_of_filter.
  - intros Hx. 
    assert (x ∈ find_all (is_tag [String c sel]) soup
            \/ x ∈ find_all (fun y => Py.mem sel (classes y)) soup) as [H|H].
    { destruct c as [[] [] [] [] [] [] [] []]; (by left) || (by right). }
    + by apply list_elem_of_filter in H as [_ ?].
    + by apply list_elem_of_filter in H as [_ ?].
Qed.

End HtmlFacts.

(** C7. On a document whose hyperlinks all point to /login, /new or
    /search?q=x, the generic HTML pipeline returns no record, provided
    that [urljoin] keeps the path of these targets. *)
Theorem generic_pipeline_drops_navigation (E : Env) (soup : Dom.node)
    (source_name base_url search_url : string) :
  urljoin_keeps_path E ->
  only_nav_links soup = true ->
  _parse_generic_results E soup source_name base_url search_url = [].
Proof.
  intros Hjoin Honly. apply elem_of_nil_inv. intros r Hr.
  unfold _parse_generic_results in Hr. cbv zeta in Hr.
  apply ParserFacts.keep_valid_elem in Hr as (x & cfg & Hx & Hextract & Hvalid).
  apply subseteq_take in Hx.
  assert (Hin : x ∈ Dom.descendants soup).
  { destruct (first_selection result_selectors soup) as [|y ys] eqn:Hsel.
    - apply list_elem_of_filter in Hx as [_ Hx].
      by apply list_elem_of_filter in Hx as [_ Hx].
    - apply (HtmlFacts.first_selection_sub result_selectors). by rewrite Hsel. }
  rewrite (HtmlFacts.extract_nav E soup x cfg base_url search_url r) in Hvalid;
    done.
Qed.

(** C7 on a page with two cards and a link, all to the navigation. *)
Lemma generic_pipeline_drops_navigation_witness :
  _parse_generic_results Demo.steady Demo.nav_page "S" "http://h" "http://h/s"
  = [].
Proof.
  apply generic_pipeline_drops_navigation.
  - intros base href u _ [= <-]. by exists base.
  - vm_compute. reflexivity.
Defined.

(** ** Computations that take no time *)

Module Clock.




















End Clock.

(** ** The search of a category *)

(** Without a progress callback, a category search is its first pass:
    no source is asked a second time. *)
Lemma no_callback_no_retry (E : Env) (category query : string)
    (listing : gmap string (list string)) (sources : list string)
    (w : world) :
  get_categories E = inr listing ->
  listing !! category = Some sources ->
  search_category E category query None w
  = bind (first_pass E sources 0 (length sources) query None (∅, []))
         (fun st => bind (store_results category (fst st))
                         (fun _ => ret (fst st))) w.
Proof.
  intros Hlisting Hcat. unfold search_category.
  rewrite Total.bind_lift, Hlisting, Hcat.
  unfold bind.
  destruct (first_pass E sources 0 _ query None _ w) as [[e|st] w1]; [done|].
  by destruct (snd st).
Qed.

Module RetryFacts.

(** A search as the loops take it returns. *)
Lemma attempt_total (E : Env) (source_id query : string) (use_cache : bool)
    (w : world) :
  exists rs w1, attempt E source_id query use_cache w = (inr rs, w1).
Proof.
  unfold attempt, try_except.
  destruct (search E source_id query use_cache w) as [[e|rs] w1];
    by eexists _, _.
Qed.

(** A search as the loops take it sends one request at most; this is
    proved with the requests of a search further down, so it is taken
    here from the outcome of the search. *)
Lemma attempt_world (E : Env) (source_id query : string) (use_cache : bool)
    (w : world) :
  snd (attempt E source_id query use_cache w)
  = snd (search E source_id query use_cache w).
Proof.
  unfold attempt, try_except.
  by destruct (search E source_id query use_cache w) as [[e|rs] w1].
Qed.

(** One turn of the loop of the retry: a pause of one second, a search
    that bypasses the cache, and the record of its result. *)
Lemma retry_pass_cons (E : Env) (s : string) (rest : list string)
    (query : string) (st : progress) (w : world) :
  exists rs w1,
    attempt E s query false (snd (sleep 1 w)) = (inr rs, w1)
    /\ retry_pass E (s :: rest) query st w
       = retry_pass E rest query
           (match rs with
            | [] => st
            | _ => (<[s := rs]> (fst st), list_remove s (snd st))
            end) w1.
Proof.
  cbn [retry_pass]. unfold bind at 1. unfold try_except at 1.
  unfold bind at 1. cbn [sleep]. unfold bind at 1.
  unfold attempt, try_except. cbn [snd].
  destruct (search E s query false _) as [[e|rs] w1].
  - exists [], w1. by split.
  - exists rs, w1. split; [done|]. by destruct rs.
Qed.




(** One turn of the first loop. *)
Lemma first_pass_cons (E : Env) (s : string) (rest : list string)
    (i total : nat) (query : string) (f : callback) (st : progress)
    (w : world) :
  returns f ->
  exists rs w1,
    first_pass E (s :: rest) i total query (Some f) st w
    = first_pass E rest (S i) total query (Some f)
        (match rs with
         | [] => (fst st, (snd st ++ [s])%list)
         | _ => (<[s := rs]> (fst st), snd st)
         end) w1.
Proof.
  intros Hf. cbn [first_pass]. unfold bind at 1. cbn [notify].
  destruct (Hf ("Searching " ++ s ++ "...") i total w) as [w0 ->].
  unfold bind at 1. unfold try_except. unfold bind at 1.
  destruct (search E s query true w0) as [[e|rs] w1].
  - by exists [], w1.
  - exists rs, w1. by destruct rs.
Qed.



End RetryFacts.



(** C2 fails on a category search without a progress callback. The
    category has one source, whose first request times out and whose
    later requests are answered with one item. Without a callback the
    source is asked once and is absent from the result, although a
    search that bypasses the cache, run right after, finds the item;
    with a callback the source is asked again after a pause of one
    second and its record is in the result. *)
Theorem retry_needs_a_callback :
  let run cb := search_category Demo.flaky "servers" "q" cb Demo.empty_world in
  fst (run None) = inr ∅
  /\ trace (snd (run None))
     = [CacheStat Demo.api1_file;
        HttpGet (Request "http://x/api?q=q" [] [])]
  /\ fst (search Demo.flaky "api1" "q" false (snd (run None)))
     = inr [Demo.api_record]
  /\ fst (run (Some Demo.quiet)) = inr {[ "api1" := [Demo.api_record] ]}
  /\ trace (snd (run (Some Demo.quiet)))
     = [CacheStat Demo.api1_file;
        HttpGet (Request "http://x/api?q=q" [] []);
        Sleep 1;
        HttpGet (Request "http://x/api?q=q" [] [])].
Proof. repeat split; vm_compute; reflexivity. Qed.

(** * Further properties *)

(** ** The cache: round trips *)

Module CacheMore.

Lemma length_append (a b : string) :
  String.length (a ++ b) = (String.length a + String.length b)%nat.
Proof.
  induction a as [|c a IH]; [done|].
  change (String c a ++ b) with (String c (a ++ b)).
  cbn [String.length]. by rewrite IH.
Qed.

Lemma append_inj_r (a b s : string) : a ++ s = b ++ s -> a = b.
Proof.
  revert b. induction a as [|c a IH]; intros [|d b] H.
  - done.
  - apply (f_equal String.length) in H.
    rewrite !length_append in H. cbn [String.length] in H. lia.
  - apply (f_equal String.length) in H.
    rewrite !length_append in H. cbn [String.length] in H. lia.
  - change (String c (a ++ s) = String d (b ++ s)) in H.
    injection H as -> H. by rewrite (IH b H).
Qed.

(** Two keys have the same file only when they are the same key. *)
Lemma cache_file_inj (k k' : string) :
  _get_cache_file k = _get_cache_file k' -> k = k'.
Proof.
  unfold _get_cache_file, CACHE_DIR. intros H.
  apply (inj (String.append "cache")) in H.
  apply (inj (String.append "/")) in H.
  by apply append_inj_r in H.
Qed.

(** A look-up that finds a readable entry in its time to live. *)
Lemma lookup_hit (E : Env) (source query : string) (ttl : Z) (w : world)
    (f : cache_file) (results : list SearchResult) :
  let file := _get_cache_file (_get_cache_key E source query) in
  files w !! file = Some f ->
  now w - mtime f <= ttl * 3600 ->
  pickled f = Some results ->
  get_cached_results E source query ttl w
  = (inr (Some results), log (CacheLoad file) (log (CacheStat file) w)).
Proof.
  intros file Hfile Hage Hpickled. unfold get_cached_results. cbv zeta.
  rewrite CacheFacts.files_log. fold file. rewrite Hfile.
  rewrite CacheFacts.now_log, CacheFacts.gtb_false by done.
  by rewrite Hpickled.
Qed.

(** What a look-up that returns records has found. *)
Lemma lookup_hit_inv (E : Env) (source query : string) (ttl : Z)
    (w w' : world) (results : list SearchResult) :
  let file := _get_cache_file (_get_cache_key E source query) in
  get_cached_results E source query ttl w = (inr (Some results), w') ->
  exists f, files w !! file = Some f
            /\ now w - mtime f <= ttl * 3600
            /\ pickled f = Some results
            /\ w' = log (CacheLoad file) (log (CacheStat file) w).
Proof.
  intros file. unfold get_cached_results. cbv zeta.
  rewrite CacheFacts.files_log, CacheFacts.now_log. fold file.
  destruct (files w !! file) as [f|] eqn:Hfile; [|done].
  destruct (_ >? _) eqn:Hage; [done|].
  destruct (pickled f) as [rs|] eqn:Hpickled; [|done].
  intros [= <- <-]. exists f. repeat split; try done.
  rewrite Z.gtb_ltb in Hage. by apply Z.ltb_ge in Hage.
Qed.

(** A look-up changes the cache by removing the file it looked at, if at
    all. *)
Lemma lookup_files (E : Env) (source query : string) (ttl : Z) (w : world) :
  let file := _get_cache_file (_get_cache_key E source query) in
  let w' := snd (get_cached_results E source query ttl w) in
  files w' = files w \/ files w' = delete file (files w).
Proof.
  intros file. unfold get_cached_results. cbv zeta.
  rewrite CacheFacts.files_log, CacheFacts.now_log. fold file.
  destruct (files w !! file) as [f|]; [|by left].
  destruct (_ >? _); [by right|].
  destruct (pickled f); [by left|by right].
Qed.

End CacheMore.

(** X1. What [cache_results] stores for a source and a query is what
    [get_cached_results] returns for them as long as the files of the
    cache are the same and the clock is at most [ttl] hours later; the
    write leaves the file of every other key as it was. *)
Theorem cache_round_trip (E : Env) (source query : string)
    (results : list SearchResult) (ttl : Z) (w w1 : world) :
  files w1 = files (snd (cache_results E source query results w)) ->
  now w1 - now w <= ttl * 3600 ->
  fst (get_cached_results E source query ttl w1) = inr (Some results)
  /\ forall source' query',
       _get_cache_key E source' query' <> _get_cache_key E source query ->
       files w1 !! _get_cache_file (_get_cache_key E source' query')
       = files w !! _get_cache_file (_get_cache_key E source' query').
Proof.
  intros Hfiles Hnow. split.
  - rewrite (CacheMore.lookup_hit E source query ttl w1
               (CacheFile (now w) (Some results)) results); [done| |done|done].
    rewrite Hfiles. simpl. apply lookup_insert_eq.
  - intros source' query' Hkey. rewrite Hfiles. simpl.
    apply lookup_insert_ne. intros H. apply Hkey. symmetry.
    by apply CacheMore.cache_file_inj.
Qed.

(** X1 on an entry read an hour after it was written. *)
Lemma cache_round_trip_witness :
  fst (get_cached_results Demo.steady "api1" "q" 24
         (snd (sleep 3600
                 (snd (cache_results Demo.steady "api1" "q"
                         [Demo.api_record] Demo.empty_world)))))
  = inr (Some [Demo.api_record]).
Proof.
  apply (cache_round_trip Demo.steady "api1" "q" [Demo.api_record] 24
           Demo.empty_world).
  - reflexivity.
  - simpl. lia.
Defined.

(** X2. An entry that cannot be unpickled is a miss: the look-up
    returns [None] and removes the file, so that the next look-up finds
    no file. *)
Theorem unreadable_entry_is_removed (E : Env) (source query : string)
    (ttl : Z) (w : world) (f : cache_file) :
  let file := _get_cache_file (_get_cache_key E source query) in
  let w' := snd (get_cached_results E source query ttl w) in
  files w !! file = Some f ->
  pickled f = None ->
  fst (get_cached_results E source query ttl w) = inr None
  /\ files w' = delete file (files w)
  /\ get_cached_results E source query ttl w'
     = (inr None, log (CacheStat file) w').
Proof.
  intros file w' Hfile Hpickled.
  assert (Hrun : fst (get_cached_results E source query ttl w) = inr None
                 /\ files w' = delete file (files w)).
  { unfold w', get_cached_results. cbv zeta.
    rewrite CacheFacts.files_log, CacheFacts.now_log. fold file.
    rewrite Hfile. destruct (_ >? _); [done|]. by rewrite Hpickled. }
  destruct Hrun as [Hnone Hfiles]. split; [done|]. split; [done|].
  unfold get_cached_results. cbv zeta.
  rewrite CacheFacts.files_log. fold file.
  by rewrite Hfiles, lookup_delete_eq.
Qed.

(** X2 on a cache whose file for the source holds no readable data. *)
Lemma unreadable_entry_is_removed_witness :
  let w := World {[ Demo.api1_file := CacheFile 0 None ]} 10 [] ∅ in
  fst (get_cached_results Demo.steady "api1" "q" 24 w) = inr None
  /\ files (snd (get_cached_results Demo.steady "api1" "q" 24 w)) = ∅.
Proof.
  intros w.
  destruct (unreadable_entry_is_removed Demo.steady "api1" "q" 24 w
              (CacheFile 0 None)) as (Hnone & Hfiles & _).
  - vm_compute. reflexivity.
  - reflexivity.
  - split; [done|]. rewrite Hfiles. vm_compute. reflexivity.
Defined.

(** ** The search of one source: what it writes and what it sends *)

Module SearchMore.

Lemma count_gets_app (a b : list event) :
  count_gets (a ++ b) = (count_gets a + count_gets b)%nat.
Proof. unfold count_gets. by rewrite filter_app, length_app. Qed.

Lemma count_gets_log (e : event) (w : world) :
  is_get e = false -> count_gets (trace (log e w)) = count_gets (trace w).
Proof.
  intros He. simpl. rewrite count_gets_app. unfold count_gets at 2.
  rewrite filter_cons_False by (by rewrite He). simpl. lia.
Qed.

(** A search with the cache on a readable entry in its time to live. *)
Lemma search_hit (E : Env) (source_id query : string) (w : world)
    (f : cache_file) (results : list SearchResult) :
  let file := _get_cache_file (_get_cache_key E source_id query) in
  files w !! file = Some f ->
  now w - mtime f <= 24 * 3600 ->
  pickled f = Some results ->
  search E source_id query true w
  = (inr results, log (CacheLoad file) (log (CacheStat file) w)).
Proof.
  intros file Hfile Hage Hpickled. unfold search, bind.
  by rewrite (CacheMore.lookup_hit E source_id query 24 w f results).
Qed.

(** Records that come out of the part after the cache, with the cache
    enabled, were written to the cache last. *)
Lemma search_live_cached (E : Env) (source_id query : string)
    (w w1 : world) (results : list SearchResult) :
  search_live E source_id query true w = (inr results, w1) ->
  results <> [] ->
  exists w_run, w1 = snd (cache_results E source_id query results w_run).
Proof.
  unfold search_live. rewrite Total.bind_lift.
  destruct (get_source_config E source_id) as [e0|cfg]; [done|].
  unfold search_section. cbv zeta.
  destruct (dict_is_empty _); [by intros [= <- <-]|].
  unfold try_except.
  destruct (strategy E _) as [run|]; [|by intros [= <- <-]].
  unfold bind.
  destruct (run _ query w) as [[e|rs] w']; [by intros [= <- <-]|].
  destruct rs as [|r rs]; [by intros [= <- <-]|].
  cbn. intros [= <- <-] _. by exists w'.
Qed.

(** When the part after the cache returns no record, the cache is as it
    was and none of the effects is an access to it. *)
Lemma search_live_empty (E : Env) (source_id query : string)
    (use_cache : bool) (w w1 : world) :
  search_live E source_id query use_cache w = (inr [], w1) ->
  files w1 = files w
  /\ exists evs, trace w1 = (trace w ++ evs)%list
                 /\ Forall (fun e => is_cache_event e = false) evs.
Proof.
  assert (Hsame : files w = files w
                  /\ exists evs, trace w = (trace w ++ evs)%list
                       /\ Forall (fun e => is_cache_event e = false) evs).
  { split; [done|]. exists []. by rewrite app_nil_r. }
  unfold search_live. rewrite Total.bind_lift.
  destruct (get_source_config E source_id) as [e0|cfg]; [done|].
  unfold search_section. cbv zeta.
  destruct (dict_is_empty _); [by intros [= <-]|].
  unfold try_except.
  destruct (strategy E _) as [run|] eqn:Hrun; [|by intros [= <-]].
  unfold bind.
  pose proof (Frame.untouched_strategy E _ run cfg query Hrun w) as Hframe.
  destruct (run _ query w) as [[e|rs] w']; simpl in Hframe;
    [by intros [= <-]|].
  destruct rs as [|r rs]; [by intros [= <-]|].
  destruct use_cache; cbn; by intros [= ].
Qed.

(** The effects of a look-up are accesses to the cache that are not
    writes. *)
Lemma lookup_trace (E : Env) (source query : string) (ttl : Z) (w : world) :
  exists evs,
    trace (snd (get_cached_results E source query ttl w))
    = (trace w ++ evs)%list
    /\ Forall (fun e => is_cache_write e = false /\ is_get e = false) evs.
Proof.
  unfold get_cached_results. cbv zeta. rewrite CacheFacts.files_log.
  destruct (files w !! _) as [f|]; [|by eexists [_]; repeat constructor].
  rewrite CacheFacts.now_log.
  destruct (_ >? _).
  { eexists [_; _]. simpl. rewrite <- app_assoc. by repeat constructor. }
  destruct (pickled f).
  - eexists [_; _]. simpl. rewrite <- app_assoc. by repeat constructor.
  - eexists [_; _; _]. simpl. rewrite <- !app_assoc. by repeat constructor.
Qed.

(** *** Requests *)

Lemma zero_ret {A} (a : A) : sends_at_most 0 (ret a).
Proof. intros w. simpl. lia. Qed.

Lemma zero_raise {A} (e : exn) : sends_at_most 0 (@raise A e).
Proof. intros w. simpl. lia. Qed.

Lemma zero_lift {A} (r : exn + A) : sends_at_most 0 (lift r).
Proof. intros w. simpl. lia. Qed.

Lemma zero_status (r : response) : sends_at_most 0 (raise_for_status r).
Proof.
  unfold raise_for_status. destruct (_ && _); [apply zero_raise|apply zero_ret].
Qed.

Lemma zero_json (E : Env) (r : response) : sends_at_most 0 (response_json E r).
Proof.
  unfold response_json.
  destruct (json_loads E (text r)); [apply zero_ret|apply zero_raise].
Qed.

Lemma zero_lookup (E : Env) (source query : string) (ttl : Z) :
  sends_at_most 0 (get_cached_results E source query ttl).
Proof.
  intros w. destruct (lookup_trace E source query ttl w) as (evs & -> & Hevs).
  rewrite count_gets_app. unfold count_gets at 2.
  assert (filter (fun e => is_get e = true) evs = []) as ->; [|simpl; lia].
  induction Hevs as [|e evs [_ He] _ IH]; [done|].
  rewrite filter_cons_False by (by rewrite He). done.
Qed.

Lemma zero_store (E : Env) (source query : string)
    (results : list SearchResult) :
  sends_at_most 0 (cache_results E source query results).
Proof.
  intros w. unfold cache_results. cbv zeta. cbn [snd].
  rewrite count_gets_log by done. simpl. lia.
Qed.

Lemma one_get (E : Env) (rq : request) : sends_at_most 1 (session_get E rq).
Proof.
  intros w. unfold session_get.
  destruct (network E (trace w) rq); simpl; rewrite count_gets_app;
    unfold count_gets at 2; simpl; lia.
Qed.

Lemma weaken {A} (m : M A) : sends_at_most 0 m -> sends_at_most 1 m.
Proof. intros H w. specialize (H w). lia. Qed.

Lemma bind_add {A B} (n k : nat) (m : M A) (f : A -> M B) :
  sends_at_most n m -> (forall a, sends_at_most k (f a)) ->
  sends_at_most (n + k) (bind m f).
Proof.
  intros Hm Hf w. unfold bind. specialize (Hm w).
  destruct (m w) as [[e|a] w']; simpl in *; [lia|].
  specialize (Hf a w'). lia.
Qed.

Lemma try_add {A} (n k : nat) (m : M A) (caught : exn -> bool)
    (h : exn -> M A) :
  sends_at_most n m -> (forall e, sends_at_most k (h e)) ->
  sends_at_most (n + k) (try_except m caught h).
Proof.
  intros Hm Hh w. unfold try_except. specialize (Hm w).
  destruct (m w) as [[e|a] w']; simpl in *; [|lia].
  destruct (caught e); simpl; [|lia].
  specialize (Hh e w'). lia.
Qed.

(** Solves a goal on a computation that sends nothing. *)
Ltac zero :=
  repeat first
    [ apply zero_ret | apply zero_raise | apply zero_lift
    | apply zero_status | apply zero_json | apply zero_store
    | apply (bind_add 0 0); [|intros ?]
    | apply (try_add 0 0); [|intros ?]
    | match goal with
      | |- sends_at_most _ (if ?b then _ else _) => destruct b
      | |- sends_at_most _ (match ?x with _ => _ end) => destruct x
      end ].

(** Solves a goal on a computation with one request on each path. *)
Ltac one :=
  first
    [ solve [apply weaken; zero]
    | apply one_get
    | apply (bind_add 1 0); [one|intros ?; solve [zero]]
    | apply (bind_add 0 1); [solve [zero]|intros ?; one]
    | apply (try_add 1 0); [one|intros ?; solve [zero]]
    | match goal with
      | |- sends_at_most _ (if ?b then _ else _) => destruct b; one
      | |- sends_at_most _ (match ?x with _ => _ end) => destruct x; one
      end ].

Lemma one_api (E : Env) (cfg : source_config) (query : string) :
  sends_at_most 1 (_search_api E cfg query).
Proof. unfold _search_api. cbv zeta. one. Qed.

Lemma one_url_param (E : Env) (cfg : source_config) (query : string) :
  sends_at_most 1 (_search_url_param E cfg query).
Proof. unfold _search_url_param. cbv zeta. one. Qed.

Lemma one_github_api (E : Env) (cfg : source_config) (query : string) :
  sends_at_most 1 (_search_github_api E cfg query).
Proof. unfold _search_github_api. cbv zeta. one. Qed.

Lemma one_awesome_list (E : Env) (cfg : source_config) (query : string) :
  sends_at_most 1 (_search_awesome_list E cfg query).
Proof. unfold _search_awesome_list. cbv zeta. one. Qed.

Lemma one_scrape (E : Env) (cfg : source_config) (query : string) :
  sends_at_most 1 (_search_scrape E cfg query).
Proof. unfold _search_scrape. cbv zeta. one. Qed.

Lemma one_strategy (E : Env) (search_method : string)
    (run : source_config -> string -> M (list SearchResult))
    (cfg : source_config) (query : string) :
  strategy E search_method = Some run -> sends_at_most 1 (run cfg query).
Proof.
  unfold strategy.
  repeat (destruct (String.eqb search_method _);
          [intros [= <-];
           auto using one_api, one_url_param, one_github_api,
             one_awesome_list, one_scrape|]).
  done.
Qed.

Lemma one_search_live (E : Env) (source_id query : string)
    (use_cache : bool) :
  sends_at_most 1 (search_live E source_id query use_cache).
Proof.
  unfold search_live. apply (bind_add 0 1); [apply zero_lift|].
  intros cfg. unfold search_section. cbv zeta.
  destruct (dict_is_empty _); [apply weaken, zero_ret|].
  apply (try_add 1 0); [|intros ?; apply zero_ret].
  destruct (strategy E _) as [run|] eqn:Hrun; [|apply weaken, zero_ret].
  apply (bind_add 1 0); [by eapply one_strategy|].
  intros results. zero.
Qed.

Lemma one_search (E : Env) (source_id query : string) (use_cache : bool) :
  sends_at_most 1 (search E source_id query use_cache).
Proof.
  unfold search. apply (bind_add 0 1).
  - destruct use_cache; [apply zero_lookup|apply zero_ret].
  - intros [results|]; [apply weaken, zero_ret|apply one_search_live].
Qed.

End SearchMore.

(** X3. A search with the cache that returns records is repeatable
    while its entry lasts. When the search leaves a readable entry for
    its key (in the source a write that fails is passed over in silence,
    and then there is none), the entry holds the records that were
    returned; and the same search, run in any later world where that
    entry is still in place and not older than 24 hours on the clock of
    that world, returns the same records from the cache, sends no
    request and leaves the cache as it is. *)
Theorem repeated_search_hits_cache (E : Env) (source_id query : string)
    (w w1 : world) (results stored : list SearchResult) (f : cache_file) :
  let file := _get_cache_file (_get_cache_key E source_id query) in
  search E source_id query true w = (inr results, w1) ->
  results <> [] ->
  files w1 !! file = Some f ->
  pickled f = Some stored ->
  stored = results
  /\ forall w2,
       files w2 !! file = Some f ->
       now w2 - mtime f <= 24 * 3600 ->
       exists w3,
         search E source_id query true w2 = (inr results, w3)
         /\ count_gets (trace w3) = count_gets (trace w2)
         /\ files w3 = files w2.
Proof.
  intros file Hsearch Hne Hentry Hstored.
  assert (exists f, files w1 !! _get_cache_file
                                  (_get_cache_key E source_id query) = Some f
                    /\ now w1 - mtime f <= 24 * 3600
                    /\ pickled f = Some results) as (f' & Hfile & Hage & Hf).
  { unfold search, bind in Hsearch.
    destruct (get_cached_results E source_id query 24 w) as [[e|hit] w0]
      eqn:Hget; [done|].
    destruct hit as [rs|].
    - injection Hsearch as -> ->.
      apply CacheMore.lookup_hit_inv in Hget
        as (f0 & Hfile & Hage & Hf & ->).
      by exists f0.
    - apply SearchMore.search_live_cached in Hsearch as [w_run ->]; [|done].
      eexists. simpl. rewrite lookup_insert_eq. split; [done|].
      simpl. split; [lia|done]. }
  fold file in Hfile. rewrite Hentry in Hfile. injection Hfile as <-.
  split; [congruence|].
  intros w2 Hfile2 Hage2.
  eexists. split; [by apply (SearchMore.search_hit E source_id query w2 f)|].
  split; [|done].
  by rewrite !SearchMore.count_gets_log.
Qed.

(** X3 on the source of the example: the search run an hour later sends
    nothing. *)
Lemma repeated_search_hits_cache_witness :
  exists w3,
    search Demo.steady "api1" "q" true
      (snd (sleep 3600
              (snd (search Demo.steady "api1" "q" true Demo.empty_world))))
    = (inr [Demo.api_record], w3)
    /\ count_gets (trace w3) = 1%nat.
Proof.
  destruct (repeated_search_hits_cache Demo.steady "api1" "q"
              Demo.empty_world
              (snd (search Demo.steady "api1" "q" true Demo.empty_world))
              [Demo.api_record] [Demo.api_record]
              (CacheFile 0 (Some [Demo.api_record])))
    as [_ Hlater].
  - vm_compute. reflexivity.
  - done.
  - vm_compute. reflexivity.
  - reflexivity.
  - destruct (Hlater (snd (sleep 3600
                       (snd (search Demo.steady "api1" "q" true
                               Demo.empty_world)))))
      as (w3 & Hsecond & Hgets & _).
    + vm_compute. reflexivity.
    + vm_compute. discriminate.
    + exists w3. split; [exact Hsecond|]. rewrite Hgets.
      vm_compute. reflexivity.
Defined.

(** X4. A search that returns no record writes nothing to the cache:
    none of its effects is a write, and every entry of the cache after
    it was there before, unchanged. *)
Theorem empty_result_is_not_cached (E : Env) (source_id query : string)
    (use_cache : bool) (w w1 : world) :
  search E source_id query use_cache w = (inr [], w1) ->
  (exists evs, trace w1 = (trace w ++ evs)%list
               /\ Forall (fun e => is_cache_write e = false) evs)
  /\ forall file f, files w1 !! file = Some f -> files w !! file = Some f.
Proof.
  unfold search, bind. intros Hsearch.
  assert (exists hit w0,
            (if use_cache then get_cached_results E source_id query 24
             else ret None) w = (inr hit, w0)
            /\ (exists evs, trace w0 = (trace w ++ evs)%list
                  /\ Forall (fun e => is_cache_write e = false) evs)
            /\ (forall file f, files w0 !! file = Some f ->
                               files w !! file = Some f))
    as (hit & w0 & Hget & (evs0 & Htrace0 & Hevs0) & Hfiles0).
  { destruct use_cache.
    - destruct (CacheFacts.get_cached_total E source_id query 24 w)
        as (hit & w0 & Hget).
      exists hit, w0. split; [done|].
      pose proof (SearchMore.lookup_trace E source_id query 24 w) as Ht.
      pose proof (CacheMore.lookup_files E source_id query 24 w) as Hf.
      rewrite Hget in Ht, Hf. simpl in Ht, Hf. split.
      + destruct Ht as (evs & -> & Hevs). exists evs. split; [done|].
        eapply Forall_impl; [exact Hevs|]. by intros e [? _].
      + intros file f. destruct Hf as [->| ->]; [done|].
        by intros [_ ?]%lookup_delete_Some.
    - exists None, w. split; [done|]. split; [|done].
      exists []. by rewrite app_nil_r. }
  rewrite Hget in Hsearch. destruct hit as [rs|].
  - injection Hsearch as -> <-. split; [by exists evs0|done].
  - apply SearchMore.search_live_empty in Hsearch
      as (Hfiles & evs & Htrace & Hevs).
    split.
    + exists (evs0 ++ evs)%list. rewrite Htrace, Htrace0, app_assoc.
      split; [done|]. apply Forall_app. split; [done|].
      eapply Forall_impl; [exact Hevs|]. by intros [].
    + intros file f. rewrite Hfiles. apply Hfiles0.
Qed.

(** X4 on a search whose request times out. *)
Lemma empty_result_is_not_cached_witness :
  exists evs,
    trace (snd (search Demo.flaky "api1" "q" true Demo.empty_world))
    = (trace Demo.empty_world ++ evs)%list
    /\ Forall (fun e => is_cache_write e = false) evs.
Proof.
  exact (proj1 (empty_result_is_not_cached Demo.flaky "api1" "q" true
                  Demo.empty_world
                  (snd (search Demo.flaky "api1" "q" true Demo.empty_world))
                  ltac:(vm_compute; reflexivity))).
Defined.

(** X5. A search of one source sends one request at most, whatever the
    strategy, the configuration and the answers. *)
Theorem one_request_per_search (E : Env) (source_id query : string)
    (use_cache : bool) (w : world) :
  (count_gets (trace (snd (search E source_id query use_cache w)))
   <= count_gets (trace w) + 1)%nat.
Proof. apply SearchMore.one_search. Qed.

(** Each strategy returns at once when its field is missing. *)
Lemma strategies_need_their_field (E : Env) (cfg : source_config)
    (query : string) (w : world) :
  (cfg_get cfg "search_endpoint" "" = "" ->
   _search_api E cfg query w = (inr [], w)
   /\ _search_url_param E cfg query w = (inr [], w))
  /\ (cfg_get cfg "search_repo" "" = "" ->
      _search_github_api E cfg query w = (inr [], w)
      /\ _search_awesome_list E cfg query w = (inr [], w))
  /\ (cfg_get cfg "url" "" = "" -> _search_scrape E cfg query w = (inr [], w)).
Proof.
  unfold _search_api, _search_url_param, _search_github_api,
    _search_awesome_list, _search_scrape.
  cbv zeta. split; [|split]; intros ->; try split; done.
Qed.

(** X6. A configured source that lacks the field its strategy needs
    gives no record and not a single effect: a search without the cache
    leaves the world as it was, no request is sent. The field is
    [search_endpoint] for [api] and [url_param], [search_repo] for
    [github_api] and [awesome_list], [url] for [scrape]. *)
Theorem missing_field_sends_nothing (E : Env) (source_id query : string)
    (cfg : source_config) (field : string) (w : world) :
  get_source_config E source_id = inr cfg ->
  cfg <> ∅ ->
  required_field (cfg_get cfg "search_method" "scrape") = Some field ->
  cfg_get cfg field "" = "" ->
  search E source_id query false w = (inr [], w).
Proof.
  intros Hread Hcfg Hfield Hmissing.
  destruct (strategies_need_their_field E cfg query w)
    as (Hendpoint & Hrepo & Hurl).
  unfold search, search_live, search_section, lift, bind, ret.
  rewrite Hread. cbv zeta.
  unfold dict_is_empty. rewrite bool_decide_eq_false_2 by done.
  unfold try_except, bind, strategy. unfold required_field in Hfield.
  repeat (destruct (String.eqb (cfg_get cfg "search_method" "scrape") _);
          [injection Hfield as <-|]).
  - by rewrite (proj1 (Hendpoint Hmissing)).
  - by rewrite (proj2 (Hendpoint Hmissing)).
  - by rewrite (proj1 (Hrepo Hmissing)).
  - by rewrite (proj2 (Hrepo Hmissing)).
  - by rewrite (Hurl Hmissing).
  - done.
Qed.

(** X6 on a source of the [api] mode without an endpoint. *)
Lemma missing_field_sends_nothing_witness :
  search Cases.bare "api1" "q" false Demo.empty_world
  = (inr [], Demo.empty_world).
Proof.
  apply (missing_field_sends_nothing Cases.bare "api1" "q"
           (<["name" := "Api One"]> (<["search_method" := "api"]> ∅))
           "search_endpoint").
  - vm_compute. reflexivity.
  - vm_compute. discriminate.
  - reflexivity.
  - reflexivity.
Defined.

(** ** The answers of the APIs *)

Module ApiMore.

Lemma status_passes (r : response) :
  status_ok r -> raise_for_status r = ret tt.
Proof.
  intros Hok. unfold raise_for_status.
  destruct (Z.leb_spec 400 (status_code r)); [|done].
  destruct (Z.ltb_spec (status_code r) 600); [|done].
  exfalso. apply Hok. lia.
Qed.

Lemma status_test (r : response) :
  status_ok r -> (400 <=? status_code r) && (status_code r <? 600) = false.
Proof.
  intros Hok. apply andb_false_iff.
  destruct (Z.leb_spec 400 (status_code r)); [|by left].
  destruct (Z.ltb_spec (status_code r) 600); [|by right].
  exfalso. apply Hok. lia.
Qed.

End ApiMore.

(** X7. When the request of an API source, the one built from its
    endpoint and its parameters, is answered with a good status by a
    JSON object whose [results] are null, a boolean or a number, the
    mapping of the answer raises a [TypeError], which [_search_api] lets
    through; the search of the source turns it into an empty result. *)
Theorem results_must_be_iterable (E : Env) (source_id query : string)
    (cfg : source_config) (w : world) (rq : request) (r : response)
    (d : list (string * json)) (v : json) :
  get_source_config E source_id = inr cfg ->
  cfg_get cfg "search_method" "scrape" = "api" ->
  Py.truthy (cfg_get cfg "search_endpoint" "") = true ->
  api_request E cfg query = inr rq ->
  network E (trace w) rq = Answer r ->
  status_ok r ->
  json_loads E (text r) = Some (JObj d) ->
  dict_get "results" d = Some v ->
  non_iterable v = true ->
  fst (_search_api E cfg query w)
  = inl (Error "TypeError: object is not iterable")
  /\ fst (search E source_id query false w) = inr [].
Proof.
  intros Hread Hmethod Hendpoint Hrq Hnet Hok Hjson Hresults Hv.
  assert (Hraise : fst (_search_api E cfg query w)
                   = inl (Error "TypeError: object is not iterable")).
  { assert (Hparse : _parse_api_response (JObj d) cfg
                       = inl (Error "TypeError: object is not iterable")).
    { unfold _parse_api_response. rewrite Hresults. cbv zeta. by destruct v. }
    unfold _search_api. rewrite Hendpoint. cbn [negb].
    pose proof (ApiMore.status_test r Hok) as Hstatus.
    unfold api_request in Hrq. cbv zeta in Hrq.
    unfold try_except, bind, lift, session_get, raise_for_status,
      response_json, ret, raise.
    destruct (Py.contains "{query}" (cfg_get cfg "search_endpoint" "")).
    - destruct (format_query E _ _) as [e|u]; [done|].
      injection Hrq as <-.
      by rewrite Hnet, Hstatus, Hjson, Hparse.
    - destruct (build_params E _ _ _) as [e|ps]; [done|].
      injection Hrq as <-.
      by rewrite Hnet, Hstatus, Hjson, Hparse. }
  split; [done|].
  change (search E source_id query false w)
    with (search_live E source_id query false w).
  apply Total.search_live_worst. right. right. left.
  destruct (_search_api E cfg query w) as [[e|rs] w'] eqn:Hrun; [|done].
  exists cfg, (_search_api E), e, w'. by rewrite Hmethod.
Qed.

(** X8. When its request is answered with a good status and a body that
    is JSON, [_search_github_api] returns one record, that of the
    repository of the source, whatever the answer holds; the request is
    a code search for the query in the file of the repository. *)
Theorem github_search_gives_the_repository (E : Env) (cfg : source_config)
    (query : string) (headers : list (string * string)) (w : world)
    (r : response) (data : json) :
  Py.truthy (cfg_get cfg "search_repo" "") = true ->
  github_headers E = inr headers ->
  network E (trace w) (code_search_request cfg query headers) = Answer r ->
  status_ok r ->
  json_loads E (text r) = Some data ->
  _search_github_api E cfg query w
  = (inr [repository_record cfg (cfg_get cfg "search_repo" "")],
     log (HttpGet (code_search_request cfg query headers)) w).
Proof.
  intros Hrepo Hheaders Hnet Hok Hjson.
  unfold _search_github_api. rewrite Hrepo. cbn [negb]. cbv zeta.
  rewrite Hheaders.
  unfold try_except, bind, lift, session_get.
  fold (code_search_request cfg query headers). rewrite Hnet.
  rewrite (ApiMore.status_passes r Hok). unfold ret at 1.
  unfold response_json. rewrite Hjson. done.
Qed.

(** X7 on an API that answers with null results. *)
Lemma results_must_be_iterable_witness :
  fst (_search_api Cases.null_results Demo.api_cfg "q" Demo.empty_world)
  = inl (Error "TypeError: object is not iterable")
  /\ fst (search Cases.null_results "api1" "q" false Demo.empty_world)
     = inr [].
Proof.
  apply (results_must_be_iterable Cases.null_results "api1" "q"
           Demo.api_cfg Demo.empty_world (Request "http://x/api?q=q" [] [])
           (Response 200 "NULL") [("results", JNull)] JNull).
  - vm_compute. reflexivity.
  - reflexivity.
  - reflexivity.
  - reflexivity.
  - reflexivity.
  - unfold status_ok. simpl. lia.
  - reflexivity.
  - reflexivity.
  - reflexivity.
Defined.

(** X8 on a repository: the record is named after the last part of
    the name of the repository. *)
Lemma github_search_gives_the_repository_witness :
  fst (_search_github_api Demo.steady Cases.hub_cfg "weather"
         Demo.empty_world)
  = inr [result_of "mcp-servers" "" "https://github.com/owner/mcp-servers"
           "https://github.com/owner/mcp-servers" "Hub" ""].
Proof.
  rewrite (github_search_gives_the_repository Demo.steady Cases.hub_cfg
             "weather" [] Demo.empty_world (Response 200 "ITEMS")
             (JArr [JObj Demo.api_item])).
  - vm_compute. reflexivity.
  - reflexivity.
  - reflexivity.
  - reflexivity.
  - unfold status_ok. simpl. lia.
  - reflexivity.
Defined.

(** ** The markdown catalogue: what its records are *)

Module AwesomeMore.

Import Awesome.

Lemma startswith_app_r (p s t : string) :
  Py.startswith p s = true -> Py.startswith p (s ++ t) = true.
Proof.
  revert s. induction p as [|c p IH]; intros [|d s]; try done.
  change (String d s ++ t) with (String d (s ++ t)). cbn [Py.startswith].
  destruct (Ascii.eqb c d); [apply IH|done].
Qed.

Lemma startswith_nil (p : string) : Py.startswith p "" = true -> p = "".
Proof. by destruct p. Qed.

Lemma contains_nil (s : string) : Py.contains "" s = true.
Proof. by destruct s. Qed.

Lemma contains_unfold (p s : string) :
  Py.contains p s
  = if Py.startswith p s then true
    else match s with
         | EmptyString => false
         | String _ s' => Py.contains p s'
         end.
Proof. by destruct s. Qed.

(** A text found in [s] is found in [s] followed by more. *)
Lemma contains_app_prefix (p s t : string) :
  Py.contains p s = true -> Py.contains p (s ++ t) = true.
Proof.
  induction s as [|c s IH]; rewrite contains_unfold.
  - destruct (Py.startswith p "") eqn:Hp; [|done].
    apply startswith_nil in Hp as ->. intros _. apply contains_nil.
  - destruct (Py.startswith p (String c s)) eqn:Hp.
    + intros _. rewrite contains_unfold.
      by rewrite (startswith_app_r p (String c s) t Hp).
    + intros H. change (String c s ++ t) with (String c (s ++ t)).
      apply PyFacts.contains_skip. by apply IH.
Qed.

Lemma append_nil_r (s : string) : s ++ "" = s.
Proof.
  induction s as [|c s IH]; [done|].
  change (String c s ++ "") with (String c (s ++ "")). by rewrite IH.
Qed.

(** The stored description begins with the cleaned one, and is never
    empty. *)
Lemma enhance_spec (descr current_category : string) :
  enhance descr current_category <> ""
  /\ (Py.truthy descr = true ->
      exists more, enhance descr current_category = descr ++ more).
Proof.
  unfold enhance.
  destruct (Py.truthy current_category && _) eqn:Hcat.
  - destruct descr as [|c descr]; cbn [Py.truthy].
    + apply andb_true_iff in Hcat as [Hcat _]. rewrite Hcat. cbn [negb andb].
      split; [|done]. destruct current_category; done.
    + cbn [negb andb]. split; [done|]. intros _. by eexists.
  - destruct descr as [|c descr]; cbn [Py.truthy negb andb].
    + split; [|done]. by destruct (Py.truthy current_category).
    + split; [done|]. intros _. exists "". by rewrite append_nil_r.
Qed.

(** What [try_patterns] appends: a record built from a name, an address
    and a description that, with the section, match the query. *)
Lemma try_patterns_inv (pats : list string)
    (line query_lower current_category source_name : string)
    (r : SearchResult) :
  r ∈ try_patterns pats line query_lower current_category source_name ->
  exists nm u descr : string,
    r = result_of nm (enhance descr current_category) u
          (if Py.contains "github.com" u then u else "")
          source_name current_category
    /\ Py.contains query_lower (Py.lower nm)
       || Py.contains query_lower (Py.lower descr)
       || Py.contains query_lower (Py.lower current_category) = true.
Proof.
  induction pats as [|pat pats IH]; cbn [try_patterns];
    [by intros ?%elem_of_nil|].
  destruct (Re.re_match_multiline pat line) as [m|]; [|done].
  cbv zeta.
  destruct (negb _ || _); [done|].
  destruct (is_noise _ _); [done|].
  destruct (_ || _ || _) eqn:Hq; [|by intros ?%elem_of_nil].
  intros ->%list_elem_of_singleton. by eexists _, _, _.
Qed.

Lemma scan_lines_inv (lines : list string)
    (query_lower current_category source_name : string) (r : SearchResult) :
  r ∈ scan_lines lines query_lower current_category source_name ->
  exists cat nm u descr : string,
    r = result_of nm (enhance descr cat) u
          (if Py.contains "github.com" u then u else "") source_name cat
    /\ Py.contains query_lower (Py.lower nm)
       || Py.contains query_lower (Py.lower descr)
       || Py.contains query_lower (Py.lower cat) = true.
Proof.
  revert current_category.
  induction lines as [|line lines IH]; intros cat; cbn [scan_lines];
    [by intros ?%elem_of_nil|].
  cbv zeta.
  destruct (Py.startswith "#" (Py.strip line)); [by apply IH|].
  intros [H|H]%elem_of_app; [|by eapply IH].
  exists cat. by apply try_patterns_inv in H.
Qed.

(** With the empty query every item passes the filter. *)
Lemma try_patterns_sublist (pats : list string)
    (line query_lower current_category source_name : string) :
  try_patterns pats line query_lower current_category source_name
  `sublist_of` try_patterns pats line "" current_category source_name.
Proof.
  induction pats as [|pat pats IH]; cbn [try_patterns]; [done|].
  destruct (Re.re_match_multiline pat line) as [m|]; [|done].
  cbv zeta.
  destruct (negb _ || _); [done|].
  destruct (is_noise _ _); [done|].
  rewrite !contains_nil. cbn [orb].
  destruct (_ || _ || _); [done|]. apply sublist_nil_l.
Qed.

Lemma scan_lines_sublist (lines : list string)
    (query_lower current_category source_name : string) :
  scan_lines lines query_lower current_category source_name
  `sublist_of` scan_lines lines "" current_category source_name.
Proof.
  revert current_category.
  induction lines as [|line lines IH]; intros cat; cbn [scan_lines]; [done|].
  cbv zeta.
  destruct (Py.startswith "#" (Py.strip line)); [apply IH|].
  apply sublist_app; [apply try_patterns_sublist|apply IH].
Qed.

End AwesomeMore.

(** X9. Every record of a markdown catalogue matches the query: the
    query, in lower case, is part of the name, of the description or of
    the section of the record, in lower case. *)
Theorem markdown_records_match_query (content : string)
    (cfg : source_config) (query : string) (r : SearchResult) :
  r ∈ Awesome._parse_awesome_list_content content cfg query ->
  Py.contains (Py.lower query) (Py.lower (text_of (name r)))
  || Py.contains (Py.lower query) (Py.lower (text_of (description r)))
  || Py.contains (Py.lower query) (Py.lower (category r)) = true.
Proof.
  intros Hr. apply AwesomeMore.scan_lines_inv in Hr
    as (cat & nm & u & descr & -> & Hq).
  cbn [name description category result_of text_of].
  apply orb_true_iff in Hq as [Hq|Hq]; [|by rewrite Hq, orb_true_r].
  apply orb_true_iff in Hq as [Hq|Hq]; [by rewrite Hq|].
  apply orb_true_iff. left. apply orb_true_iff. right.
  destruct (Py.truthy descr) eqn:Hd.
  - destruct (proj2 (AwesomeMore.enhance_spec descr cat) Hd) as [more ->].
    rewrite PyFacts.lower_app. by apply AwesomeMore.contains_app_prefix.
  - destruct descr; [|done]. cbn [Py.lower] in Hq.
    rewrite AwesomeMore.contains_unfold in Hq.
    destruct (Py.startswith (Py.lower query) "") eqn:Hp; [|done].
    apply AwesomeMore.startswith_nil in Hp as ->. apply AwesomeMore.contains_nil.
Qed.

(** X9 on the document of the first example. *)
Lemma markdown_records_match_query_witness :
  Py.contains "bar" "foo" || Py.contains "bar" "bar thing (category: servers)"
  || Py.contains "bar" "servers" = true.
Proof.
  apply (markdown_records_match_query Demo.catalogue ∅ "BAR"
           (Demo.foo_record "GitHub")).
  vm_compute. left.
Defined.

(** X10. The query only filters a catalogue: the records returned for
    a query are among those returned for the empty query, in the same
    order. *)
Theorem markdown_query_only_filters (content : string)
    (cfg : source_config) (query : string) :
  Awesome._parse_awesome_list_content content cfg query
  `sublist_of` Awesome._parse_awesome_list_content content cfg "".
Proof. apply AwesomeMore.scan_lines_sublist. Qed.

(** X11. Every record of a markdown catalogue has a description that is
    not empty, the name of the source as its source, and as its GitHub
    address the address of the item when that address contains
    "github.com", the empty text otherwise. *)
Theorem markdown_records_are_described (content : string)
    (cfg : source_config) (query : string) (r : SearchResult) :
  r ∈ Awesome._parse_awesome_list_content content cfg query ->
  (exists d, description r = JStr d /\ d <> "")
  /\ source r = cfg_get cfg "name" "GitHub"
  /\ github_url r
     = if Py.contains "github.com" (text_of (url r)) then url r else JStr "".
Proof.
  intros Hr. apply AwesomeMore.scan_lines_inv in Hr
    as (cat & nm & u & descr & -> & _).
  cbn [name description url github_url source result_of text_of].
  split; [|split; [done|]].
  - eexists. split; [done|]. apply AwesomeMore.enhance_spec.
  - by destruct (Py.contains "github.com" u).
Qed.

(** X11 on an item without a description, hosted on GitHub. *)
Lemma markdown_records_are_described_witness :
  exists r,
    Awesome._parse_awesome_list_content "* [Zed](https://github.com/z)" ∅ ""
    = [r]
    /\ description r = JStr "Tool from awesome list"
    /\ github_url r = JStr "https://github.com/z".
Proof.
  eexists. split; [vm_compute; reflexivity|].
  split; [reflexivity|].
  apply (markdown_records_are_described "* [Zed](https://github.com/z)" ∅ "").
  vm_compute. left.
Defined.

(** ** The generic HTML pipeline: what it returns *)

Module HtmlMore.

Lemma take_length (n : nat) (s : string) :
  (String.length (Py.take n s) <= n)%nat.
Proof.
  revert s. induction n as [|n IH]; intros [|c s]; cbn; try lia.
  specialize (IH s). lia.
Qed.

(** The description picked for an element is not empty and has 200
    characters at most. *)
Lemma pick_description_bounds (candidates : list (option Dom.node))
    (nm : string) :
  pick_description candidates nm <> ""
  /\ (String.length (pick_description candidates nm) <= 200)%nat.
Proof.
  induction candidates as [|[desc_elem|] candidates IH];
    cbn [pick_description]; [split; [done|cbn; lia]| |done].
  cbv zeta.
  destruct (Py.truthy (Dom.get_text desc_elem)) eqn:Htext; [|done].
  cbn [andb].
  match goal with |- context [if ?b then _ else _] => destruct b end;
    [|done].
  split; [|apply take_length].
  by apply PyFacts.truthy_nonempty, PyFacts.truthy_take.
Qed.

(** The shape of the record extracted from an element. *)
Lemma extract_shape (E : Env) (element : Dom.located) (cfg : source_config)
    (base_url search_url : string) (r : SearchResult) :
  _extract_result_from_element_enhanced E element cfg base_url search_url
  = Some r ->
  source r = cfg_get cfg "name" "Unknown"
  /\ github_url r = JStr ""
  /\ category r = ""
  /\ exists d, description r = JStr d /\ d <> ""
               /\ (String.length d <= 200)%nat.
Proof.
  unfold _extract_result_from_element_enhanced. cbv zeta.
  set (d := pick_description _ _).
  assert (Hd : d <> "" /\ (String.length d <= 200)%nat)
    by apply pick_description_bounds.
  clearbody d.
  destruct (pick_url _ _ _) as [e|u]; [done|].
  destruct (_ && _); [|done]. intros [= <-].
  cbn [source github_url category description result_of].
  repeat split. by exists d.
Qed.

(** What the loop over the elements keeps was extracted from one of
    them, with the name of the source, and is valid. *)
Lemma keep_valid_inv (E : Env) (elements : list Dom.located)
    (source_name base_url search_url : string) (r : SearchResult) :
  r ∈ keep_valid E elements source_name base_url search_url ->
  exists element,
    element ∈ elements
    /\ _extract_result_from_element_enhanced E element
         (<["name" := source_name]> (<["url" := base_url]> ∅))
         base_url search_url = Some r
    /\ Py.truthy (Py.strip (text_of (name r))) = true
    /\ _is_valid_result r search_url = true.
Proof.
  induction elements as [|x elements IH]; cbn [keep_valid];
    [by intros ?%elem_of_nil|].
  cbv zeta. intros [H|H]%elem_of_app.
  - destruct (_extract_result_from_element_enhanced _ _ _ _ _) as [r'|] eqn:Hx;
      [|by apply elem_of_nil in H].
    destruct (Py.truthy _ && _is_valid_result r' search_url) eqn:Hok;
      [|by apply elem_of_nil in H].
    apply list_elem_of_singleton in H as ->.
    apply andb_true_iff in Hok as [Hname Hvalid].
    exists x. split; [by left|]. by repeat split.
  - destruct (IH H) as (y & Hy & Hr). exists y.
    split; [by right|done].
Qed.

Lemma keep_valid_length (E : Env) (elements : list Dom.located)
    (source_name base_url search_url : string) :
  (length (keep_valid E elements source_name base_url search_url)
   <= length elements)%nat.
Proof.
  induction elements as [|x elements IH]; cbn [keep_valid]; [done|].
  cbv zeta. rewrite length_app. cbn [length].
  destruct (_extract_result_from_element_enhanced _ _ _ _ _) as [r|];
    [destruct (_ && _)|]; simpl; lia.
Qed.

Lemma existsb_false_elem {A} (f : A -> bool) (l : list A) (x : A) :
  existsb f l = false -> x ∈ l -> f x = false.
Proof.
  intros Hl Hx. destruct (f x) eqn:Hfx; [|done].
  rewrite <- Hl. symmetry. apply existsb_exists. exists x.
  split; [by apply list_elem_of_In|done].
Qed.

End HtmlMore.

(** X12. The generic HTML pipeline returns 50 records at most, whatever
    the size of the page. *)
Theorem generic_pipeline_ceiling (E : Env) (soup : Dom.node)
    (source_name base_url search_url : string) :
  (length (_parse_generic_results E soup source_name base_url search_url)
   <= 50)%nat.
Proof.
  unfold _parse_generic_results. cbv zeta.
  etransitivity; [apply HtmlMore.keep_valid_length|].
  rewrite length_take. lia.
Qed.

(** X13. Every record of the generic HTML pipeline passed the final
    filter: its address contains none of the utility paths, its name,
    once stripped, has three characters at least and is none of the
    generic words; it carries the name of the source, no GitHub
    address, and a description that is not empty and has 200 characters
    at most. *)
Theorem generic_records_are_filtered (E : Env) (soup : Dom.node)
    (source_name base_url search_url : string) (r : SearchResult) :
  r ∈ _parse_generic_results E soup source_name base_url search_url ->
  (forall p, p ∈ garbage_patterns ->
             Py.contains p (Py.lower (text_of (url r))) = false)
  /\ (3 <= String.length (Py.strip (text_of (name r))))%nat
  /\ (Py.strip (Py.lower (text_of (name r))) ∉ generic_names)
  /\ source r = source_name
  /\ github_url r = JStr ""
  /\ exists d, description r = JStr d /\ d <> ""
               /\ (String.length d <= 200)%nat.
Proof.
  intros Hr. apply HtmlMore.keep_valid_inv in Hr
    as (x & _ & Hextract & _ & Hvalid).
  apply HtmlMore.extract_shape in Hextract as (Hsource & Hgithub & _ & Hdescr).
  unfold _is_valid_result in Hvalid. cbv zeta in Hvalid.
  fold garbage_patterns generic_names in Hvalid.
  destruct (Py.any_in garbage_patterns _) eqn:Hgarbage; [done|].
  destruct (negb _ || Py.mem _ generic_names || _) eqn:Hname; [done|].
  apply orb_false_iff in Hname as [Hname Hlen].
  apply orb_false_iff in Hname as [_ Hgeneric].
  split; [|split; [|split; [|split; [|split; done]]]].
  - intros p Hp.
    exact (HtmlMore.existsb_false_elem
             (fun p => Py.contains p (Py.lower (text_of (url r))))
             garbage_patterns p Hgarbage Hp).
  - by apply Nat.ltb_ge in Hlen.
  - intros Hin. apply list_elem_of_In in Hin.
    assert (Py.mem (Py.strip (Py.lower (text_of (name r)))) generic_names
            = true); [|congruence].
    apply existsb_exists. eexists. split; [exact Hin|]. apply String.eqb_refl.
  - rewrite Hsource. unfold cfg_get. by rewrite lookup_insert_eq.
Qed.

(** X13 on a page with two results: both are returned, with their
    addresses made absolute. *)
Lemma generic_records_are_filtered_witness :
  map (fun r => (name r, url r))
      (_parse_generic_results Demo.steady Cases.results_page "S" "http://h"
                              "http://h/s")
  = [(JStr "Weather server", JStr "http://h/server/weather");
     (JStr "Clock server", JStr "http://h/server/clock")]
  /\ forall p, p ∈ garbage_patterns ->
       Py.contains p "http://h/server/weather" = false.
Proof.
  split; [vm_compute; reflexivity|].
  apply (generic_records_are_filtered Demo.steady Cases.results_page "S"
           "http://h" "http://h/s"
           (result_of "Weather server" "No description available"
                      "http://h/server/weather" "" "S" "")).
  vm_compute. left.
Defined.

(** ** The category search as a whole *)

Module CategoryMore.

(** One turn of the first loop, with or without a callback. *)
Lemma first_pass_step (E : Env) (s : string) (rest : list string)
    (i total : nat) (query : string) (cb : option callback) (st : progress)
    (w : world) :
  callback_returns cb ->
  exists rs w1,
    first_pass E (s :: rest) i total query cb st w
    = first_pass E rest (S i) total query cb
        (match rs with
         | [] => (fst st, (snd st ++ [s])%list)
         | _ => (<[s := rs]> (fst st), snd st)
         end) w1.
Proof.
  intros Hcb. destruct cb as [f|].
  - by apply RetryFacts.first_pass_cons.
  - cbn [first_pass]. unfold bind at 1. cbn [notify]. unfold ret at 1.
    unfold bind at 1. unfold try_except. unfold bind at 1.
    destruct (search E s query true w) as [[e|rs] w1].
    + by exists [], w1.
    + exists rs, w1. by destruct rs.
Qed.

(** The first loop returns; an entry of its map was there before or is
    the list, not empty, of one of the sources. *)
Lemma first_pass_returns (E : Env) (query : string) (cb : option callback)
    (sources : list string) :
  callback_returns cb ->
  forall (i total : nat) (st : progress) (w : world),
    exists st' w',
      first_pass E sources i total query cb st w = (inr st', w')
      /\ (forall s rs, fst st' !! s = Some rs ->
            fst st !! s = Some rs \/ (s ∈ sources /\ rs <> [])).
Proof.
  intros Hcb. induction sources as [|s rest IH]; intros i total st w.
  - exists st, w. split; [done|]. by left.
  - destruct (first_pass_step E s rest i total query cb st w Hcb)
      as (rs & w1 & ->).
    destruct (IH (S i) total
                (match rs with
                 | [] => (fst st, (snd st ++ [s])%list)
                 | _ => (<[s := rs]> (fst st), snd st)
                 end) w1) as (st' & w' & Hrun & Hentries).
    exists st', w'. split; [done|].
    intros s0 rs0 Hlook. destruct (Hentries s0 rs0 Hlook) as [Hold|[Hin Hne]].
    + destruct rs as [|r rs]; [by left|]. cbn [fst] in Hold.
      destruct (decide (s0 = s)) as [->|Hdiff].
      * rewrite lookup_insert_eq in Hold. injection Hold as <-.
        right. split; [by left|done].
      * rewrite lookup_insert_ne in Hold by done. by left.
    + right. split; [by right|done].
Qed.

(** The loop of the retry returns, with the same invariant. *)
Lemma retry_pass_returns (E : Env) (query : string) (pending : list string) :
  forall (st : progress) (w : world),
    exists st' w',
      retry_pass E pending query st w = (inr st', w')
      /\ (forall s rs, fst st' !! s = Some rs ->
            fst st !! s = Some rs \/ (s ∈ pending /\ rs <> [])).
Proof.
  induction pending as [|s rest IH]; intros st w.
  - exists st, w. split; [done|]. by left.
  - destruct (RetryFacts.retry_pass_cons E s rest query st w)
      as (rs & w1 & _ & ->).
    destruct (IH (match rs with
                  | [] => st
                  | _ => (<[s := rs]> (fst st), list_remove s (snd st))
                  end) w1) as (st' & w' & Hrun & Hentries).
    exists st', w'. split; [done|].
    intros s0 rs0 Hlook. destruct (Hentries s0 rs0 Hlook) as [Hold|[Hin Hne]].
    + destruct rs as [|r rs]; [by left|]. cbn [fst] in Hold.
      destruct (decide (s0 = s)) as [->|Hdiff].
      * rewrite lookup_insert_eq in Hold. injection Hold as <-.
        right. split; [by left|done].
      * rewrite lookup_insert_ne in Hold by done. by left.
    + right. split; [by right|done].
Qed.

(** The sources that the first loop lists as failed are among those it
    was given or those listed before. *)
Lemma first_pass_failed (E : Env) (query : string) (cb : option callback)
    (sources : list string) :
  forall (i total : nat) (st st' : progress) (w w' : world),
    first_pass E sources i total query cb st w = (inr st', w') ->
    forall s, s ∈ snd st' -> s ∈ snd st \/ s ∈ sources.
Proof.
  induction sources as [|s rest IH]; intros i total st st' w w' Hrun s0 Hs0.
  - injection Hrun as <- _. by left.
  - cbn [first_pass] in Hrun. unfold bind at 1 in Hrun.
    destruct (notify cb _ i total w) as [[e|[]] w0]; [done|].
    unfold bind at 1 in Hrun. unfold try_except in Hrun.
    unfold bind at 1 in Hrun.
    destruct (search E s query true w0) as [[e|[|r rs]] w1]; cbn in Hrun;
      destruct (IH _ _ _ _ _ _ Hrun s0 Hs0) as [Hold|Hin];
      try (right; by right); cbn [snd] in Hold.
    + apply elem_of_app in Hold as [Hold|Hold%list_elem_of_singleton];
        [by left|]. subst s0. right. by left.
    + apply elem_of_app in Hold as [Hold|Hold%list_elem_of_singleton];
        [by left|]. subst s0. right. by left.
    + by left.
Qed.

(** The requests of the first loop: one for each source at most; and it
    lists one failed source for each source at most. *)
Lemma first_pass_sends (E : Env) (query : string) (cb : option callback)
    (sources : list string) :
  silent cb ->
  forall (i total : nat) (st : progress) (w : world),
    (count_gets (trace (snd (first_pass E sources i total query cb st w)))
     <= count_gets (trace w) + length sources)%nat
    /\ forall st', fst (first_pass E sources i total query cb st w) = inr st' ->
         (length (snd st') <= length (snd st) + length sources)%nat.
Proof.
  intros Hsilent. induction sources as [|s rest IH]; intros i total st w.
  - cbn. split; [lia|]. intros st' [= <-]. lia.
  - remember (first_pass E (s :: rest) i total query cb st w) as out
      eqn:Hout.
    cbn [first_pass] in Hout. unfold bind at 1 in Hout.
    assert (Hn : sends_at_most 0
                   (notify cb ("Searching " ++ s ++ "...") i total)).
    { destruct cb as [f|]; [apply Hsilent|apply SearchMore.zero_ret]. }
    specialize (Hn w).
    destruct (notify cb _ i total w) as [[e|[]] w0]; cbn [snd fst] in Hn.
    { subst out. cbn [snd fst]. split; [lia|done]. }
    unfold bind at 1 in Hout. unfold try_except in Hout.
    unfold bind at 1 in Hout.
    pose proof (SearchMore.one_search E s query true w0) as Hone.
    destruct (search E s query true w0) as [[e|[|r rs]] w1];
      cbn [snd] in Hone; cbn [length];
      cbn [ret is_exception] in Hout; subst out;
      match goal with
      | |- context [first_pass E rest (S i) total query cb ?st1 w1] =>
          destruct (IH (S i) total st1 w1) as [Hcount Hfailed]
      end;
      (split; [lia|]); intros st' Hst'; specialize (Hfailed st' Hst');
      cbn [snd] in Hfailed; rewrite ?length_app in Hfailed;
      cbn [length] in Hfailed; lia.
Qed.

(** The requests of the loop of the retry: one for each pending source
    at most. *)
Lemma retry_pass_sends (E : Env) (query : string) (pending : list string) :
  forall (st : progress) (w : world),
    (count_gets (trace (snd (retry_pass E pending query st w)))
     <= count_gets (trace w) + length pending)%nat.
Proof.
  induction pending as [|s rest IH]; intros st w; [cbn; lia|].
  destruct (RetryFacts.retry_pass_cons E s rest query st w)
    as (rs & w1 & Hsearch & ->).
  pose proof (SearchMore.one_search E s query false (snd (sleep 1 w))) as Hone.
  rewrite <- (RetryFacts.attempt_world E s query false) in Hone.
  rewrite Hsearch in Hone. cbn [snd sleep trace] in Hone.
  rewrite SearchMore.count_gets_app in Hone.
  change (count_gets [Sleep 1]) with 0%nat in Hone.
  etransitivity; [apply IH|]. cbn [length]. lia.
Qed.

(** The category search returns when its callback does; its result is
    kept by the manager and holds lists, not empty, of sources of the
    category. *)
Lemma search_category_spec (E : Env) (category query : string)
    (cb : option callback) (w : world) :
  callback_returns cb ->
  match get_categories E with
  | inl e => search_category E category query cb w = (inl e, w)
  | inr listing =>
      exists final w',
        search_category E category query cb w = (inr final, w')
        /\ match listing !! category with
           | None => final = ∅ /\ w' = w
           | Some sources =>
               manager_results w' !! category = Some final
               /\ forall s rs, final !! s = Some rs -> s ∈ sources /\ rs <> []
           end
  end.
Proof.
  intros Hcb. unfold search_category. rewrite Total.bind_lift.
  destruct (get_categories E) as [e|listing]; [done|].
  destruct (listing !! category) as [sources|]; [|by exists ∅, w].
  destruct (first_pass_returns E query cb sources Hcb 0
              (length sources) (∅, []) w) as (st1 & w1 & Hfirst & Hentries).
  assert (Hfailed : forall s, s ∈ snd st1 -> s ∈ sources).
  { intros s Hs.
    destruct (first_pass_failed E query cb sources _ _ _ _ _ _
                Hfirst s Hs) as [Hnil|Hin]; [|done].
    by apply elem_of_nil in Hnil. }
  unfold bind at 1. rewrite Hfirst. cbv beta iota.
  assert (Hok : forall s rs, fst st1 !! s = Some rs -> s ∈ sources /\ rs <> []).
  { intros s rs Hlook. by destruct (Hentries s rs Hlook). }
  assert (Hstore : forall (st : progress) (w2 : world),
            (forall s rs, fst st !! s = Some rs -> s ∈ sources /\ rs <> []) ->
            exists final w',
              bind (ret st) (fun st => bind (store_results category (fst st))
                                            (fun _ => ret (fst st))) w2
              = (inr final, w')
              /\ manager_results w' !! category = Some final
              /\ forall s rs, final !! s = Some rs -> s ∈ sources /\ rs <> []).
  { intros st w2 Hst. eexists _, _. split; [reflexivity|].
    split; [|done]. cbn. by rewrite lookup_insert_eq. }
  destruct (snd st1) as [|s0 failed] eqn:Hsnd.
  { apply (Hstore st1 w1 Hok). }
  destruct cb as [f|]; [|apply (Hstore st1 w1 Hok)].
  unfold bind at 1. unfold bind at 1.
  destruct (Hcb "Retrying failed sources..." (length sources)
              (length sources) w1) as [w2 ->].
  destruct (retry_pass_returns E query (s0 :: failed) st1 w2)
    as (st2 & w3 & -> & Hretry).
  apply (Hstore st2 w3).
  intros s rs Hlook. destruct (Hretry s rs Hlook) as [Hold|[Hin Hne]].
  - by apply Hok.
  - split; [|done]. by apply Hfailed.
Qed.

End CategoryMore.

(** X14. A category search starts by reading the listing of the
    categories, outside any handler: when that reading raises (a value
    of the section that cannot be interpolated), the category search
    raises the same error at once and nothing has happened. When the
    listing is read, a category search whose callback, when there is
    one, returns, returns itself. For a category that is not in the
    listing the result is empty and nothing happens. Otherwise every
    entry of the result is the list, not empty, of a source of the
    category, and the result is what the manager keeps for the
    category. *)
Theorem category_search_returns (E : Env) (category query : string)
    (cb : option callback) (w : world) :
  callback_returns cb ->
  match get_categories E with
  | inl e => search_category E category query cb w = (inl e, w)
  | inr listing =>
      exists final w',
        search_category E category query cb w = (inr final, w')
        /\ match listing !! category with
           | None => final = ∅ /\ w' = w
           | Some sources =>
               manager_results w' !! category = Some final
               /\ forall s rs, final !! s = Some rs -> s ∈ sources /\ rs <> []
           end
  end.
Proof. apply CategoryMore.search_category_spec. Qed.

(** X14 on the category of the example, whose only source answers at
    the second request. *)
Lemma category_search_returns_witness :
  exists final w',
    search_category Demo.flaky "servers" "q" (Some Demo.quiet)
                    Demo.empty_world = (inr final, w')
    /\ manager_results w' !! "servers" = Some final.
Proof.
  assert (Hlisting : get_categories Demo.flaky
                     = inr {["servers" := ["api1"]]})
    by (vm_compute; reflexivity).
  assert (Hcb : callback_returns (Some Demo.quiet))
    by (intros status current total w; by eexists).
  pose proof (category_search_returns Demo.flaky "servers" "q"
                (Some Demo.quiet) Demo.empty_world Hcb) as Hspec.
  rewrite Hlisting in Hspec.
  destruct Hspec as (final & w' & Hrun & Hrest).
  exists final, w'. split; [exact Hrun|].
  rewrite lookup_singleton_eq in Hrest. exact (proj1 Hrest).
Defined.

(** X15. The requests of a category search whose callback sends none:
    two for each source of the category at most, and one for each
    source at most when there is no callback. *)
Theorem category_search_request_bound (E : Env) (category query : string)
    (cb : option callback) (listing : gmap string (list string))
    (sources : list string) (w : world) :
  silent cb ->
  get_categories E = inr listing ->
  listing !! category = Some sources ->
  let sent := count_gets (trace (snd (search_category E category query cb w)))
  in
  (sent <= count_gets (trace w) + 2 * length sources)%nat
  /\ (cb = None -> (sent <= count_gets (trace w) + length sources)%nat).
Proof.
  intros Hsilent Hlisting Hcat. cbv zeta.
  remember (search_category E category query cb w) as out eqn:Hout.
  unfold search_category in Hout.
  rewrite Total.bind_lift, Hlisting, Hcat in Hout.
  destruct (CategoryMore.first_pass_sends E query cb sources Hsilent 0
              (length sources) (∅, []) w) as [Hcount Hfailed].
  unfold bind in Hout.
  destruct (first_pass E sources 0 (length sources) query cb (∅, []) w)
    as [[e|st1] w1]; cbn [snd fst] in *;
    [subst out; cbn [snd]; split; [lia|intros _; lia]|].
  specialize (Hfailed st1 eq_refl). cbn [length] in Hfailed.
  destruct (snd st1) as [|s0 failed] eqn:Hsnd.
  { subst out. cbv [ret store_results]. cbn [snd trace].
    split; [lia|intros _; lia]. }
  destruct cb as [f|].
  2:{ subst out. cbv [ret store_results]. cbn [snd trace].
      split; [lia|intros _; lia]. }
  split; [|done].
  pose proof (Hsilent "Retrying failed sources..." (length sources)
                (length sources) w1) as Hnote.
  destruct (f "Retrying failed sources..." (length sources)
              (length sources) w1) as [[e|[]] w2]; cbn [snd] in *;
    [subst out; cbn [snd]; lia|].
  pose proof (CategoryMore.retry_pass_sends E query (s0 :: failed) st1 w2)
    as Hretry.
  destruct (retry_pass E (s0 :: failed) query st1 w2) as [[e|st2] w3];
    subst out; cbv [ret store_results]; cbn [snd length trace] in *; lia.
Qed.

(** X15 on the category of the example: one source, two requests. *)
Lemma category_search_request_bound_witness :
  (count_gets (trace (snd (search_category Demo.flaky "servers" "q"
                             (Some Demo.quiet) Demo.empty_world)))
   <= 2)%nat.
Proof.
  destruct (category_search_request_bound Demo.flaky "servers" "q"
              (Some Demo.quiet) {["servers" := ["api1"]]} ["api1"]
              Demo.empty_world) as [Hsent _].
  - intros status current total w. cbn. lia.
  - vm_compute. reflexivity.
  - vm_compute. reflexivity.
  - exact Hsent.
Defined.

(** ** The sources of a category *)

Module StripFacts.

Lemma append_assoc (a b c : string) : (a ++ b) ++ c = a ++ (b ++ c).
Proof.
  induction a as [|x a IH]; [done|].
  change (String x ((a ++ b) ++ c) = String x (a ++ (b ++ c))).
  by rewrite IH.
Qed.

Lemma rev_acc_app (s acc : string) : Py.rev_acc s acc = Py.rev s ++ acc.
Proof.
  unfold Py.rev. revert acc. induction s as [|c s IH]; intros acc; [done|].
  cbn [Py.rev_acc]. rewrite (IH (String c acc)), (IH (String c "")).
  by rewrite append_assoc.
Qed.

Lemma rev_cons (c : ascii) (s : string) :
  Py.rev (String c s) = Py.rev s ++ String c "".
Proof. unfold Py.rev at 1. cbn [Py.rev_acc]. apply rev_acc_app. Qed.

Lemma rev_snoc (s : string) (c : ascii) :
  Py.rev (s ++ String c "") = String c (Py.rev s).
Proof.
  induction s as [|x s IH]; [done|].
  change (String x s ++ String c "") with (String x (s ++ String c "")).
  by rewrite !rev_cons, IH.
Qed.

Lemma rev_involutive (s : string) : Py.rev (Py.rev s) = s.
Proof.
  induction s as [|c s IH]; [done|]. by rewrite rev_cons, rev_snoc, IH.
Qed.

Lemma lstrip_idempotent (p : ascii -> bool) (s : string) :
  Py.lstrip_by p (Py.lstrip_by p s) = Py.lstrip_by p s.
Proof.
  induction s as [|c s IH]; [done|]. cbn [Py.lstrip_by].
  destruct (p c) eqn:Hc; [done|]. cbn [Py.lstrip_by]. by rewrite Hc.
Qed.

(** Stripping on the left stops at a character that is kept. *)
Lemma lstrip_snoc (p : ascii -> bool) (s : string) (c : ascii) :
  p c = false ->
  Py.lstrip_by p (s ++ String c "") = Py.lstrip_by p s ++ String c "".
Proof.
  intros Hc. induction s as [|x s IH].
  - change ("" ++ String c "") with (String c "").
    cbn [Py.lstrip_by]. by rewrite Hc.
  - change (String x s ++ String c "") with (String x (s ++ String c "")).
    cbn [Py.lstrip_by]. by destruct (p x).
Qed.

(** Stripping on the right keeps a text stripped on the left. *)
Lemma rstrip_keeps_left (p : ascii -> bool) (s : string) :
  Py.lstrip_by p s = s ->
  Py.lstrip_by p (Py.rev (Py.lstrip_by p (Py.rev s)))
  = Py.rev (Py.lstrip_by p (Py.rev s)).
Proof.
  destruct s as [|c s]; [done|]. cbn [Py.lstrip_by].
  destruct (p c) eqn:Hc.
  - intros H. apply (f_equal String.length) in H.
    assert (Hle : forall t, (String.length (Py.lstrip_by p t)
                             <= String.length t)%nat).
    { induction t as [|x t IHt]; [done|]. cbn [Py.lstrip_by].
      destruct (p x); cbn [String.length]; lia. }
    specialize (Hle s). cbn [String.length] in H. lia.
  - intros _. rewrite rev_cons, lstrip_snoc, rev_snoc by done.
    cbn [Py.lstrip_by]. by rewrite Hc.
Qed.

Lemma strip_by_idempotent (p : ascii -> bool) (s : string) :
  Py.strip_by p (Py.strip_by p s) = Py.strip_by p s.
Proof.
  unfold Py.strip_by.
  rewrite (rstrip_keeps_left p (Py.lstrip_by p s))
    by apply lstrip_idempotent.
  by rewrite rev_involutive, lstrip_idempotent.
Qed.

End StripFacts.

(** X16. Every source that [get_categories] lists for a category is a
    piece between two commas of the configured value, as the
    interpolation of the parser expands it, stripped of the white space
    around it, and is not empty. *)
Theorem category_sources_are_stripped (E : Env) (category : string)
    (listing : gmap string (list string)) (sources : list string)
    (s : string) :
  get_categories E = inr listing ->
  listing !! category = Some sources ->
  s ∈ sources ->
  s <> ""
  /\ Py.strip s = s
  /\ exists sec raw sources_str piece,
       config E !! "CATEGORIES" = Some sec
       /\ sec !! category = Some raw
       /\ interpolate E sec raw = Some sources_str
       /\ piece ∈ Py.split "," sources_str
       /\ s = Py.strip piece.
Proof.
  unfold get_categories. intros Hlisting Hcat Hs.
  destruct (config E !! "CATEGORIES") as [sec|];
    [|injection Hlisting as <-; by rewrite lookup_empty in Hcat].
  destruct (read_section E sec) as [e|values] eqn:Hread; [done|].
  apply Total.read_section_values in Hread as ->.
  injection Hlisting as <-.
  rewrite lookup_fmap, lookup_omap in Hcat.
  destruct (sec !! category) as [raw|] eqn:Hsec; [|done].
  cbn in Hcat.
  destruct (interpolate E sec raw) as [sources_str|] eqn:Hvalue; [|done].
  injection Hcat as <-.
  apply list_elem_of_filter in Hs as [Htruthy Hs].
  apply list_elem_of_In, in_map_iff in Hs as (piece & <- & Hpiece).
  split; [by apply PyFacts.truthy_nonempty|].
  split; [apply StripFacts.strip_by_idempotent|].
  exists sec, raw, sources_str, piece. repeat split; [done..|].
  by apply list_elem_of_In.
Qed.

(** X16 on the category of the example. *)
Lemma category_sources_are_stripped_witness : Py.strip "api1" = "api1".
Proof.
  apply (category_sources_are_stripped Demo.flaky "servers"
           {["servers" := ["api1"]]} ["api1"] "api1").
  - vm_compute. reflexivity.
  - vm_compute. reflexivity.
  - by left.
Defined.

(** ** The search history *)

Module HistoryFacts.
Import History.

Lemma key_inj (i j : nat) : key i = key j -> i = j.
Proof.
  unfold key, str. intros H. apply (inj (String.append "search_")) in H.
  apply (f_equal NilEmpty.uint_of_string) in H. rewrite !NilEmpty.usu in H.
  injection H as H. apply (f_equal Nat.of_uint) in H.
  by rewrite !DecimalNat.Unsigned.of_to in H.
Qed.

Lemma plain_empty : percent_free "".
Proof. reflexivity. Qed.

Lemma truthy_strip (s : string) :
  Py.truthy (Py.strip s) = true -> Py.truthy s = true.
Proof. by destruct s. Qed.

(** Writing a plain value to a section that exists. *)
Lemma section_set_plain (P : Platform) (c : ini) (sec : gmap string string)
    (k v : string) :
  keeps_plain_values P -> percent_free v ->
  c !! "SEARCH_HISTORY" = Some sec ->
  section_set P "SEARCH_HISTORY" k v c
  = (inr tt, <["SEARCH_HISTORY" := <[k := v]> sec]> c).
Proof.
  intros HP Hv Hsec. unfold section_set. rewrite Hsec.
  destruct (HP v Hv) as [-> _]. by destruct (Py.truthy v).
Qed.

(** The loop that clears the entries does not raise, sets each of its
    options to the empty text and leaves the others. *)
Lemma clear_spec (P : Platform) (indices : list nat) :
  forall (c : ini) (sec : gmap string string),
    c !! "SEARCH_HISTORY" = Some sec ->
    exists sec',
      clear_entries P indices c = (inr tt, <["SEARCH_HISTORY" := sec']> c)
      /\ (forall i, i ∈ indices -> sec' !! key i = Some "")
      /\ (forall k, (forall i, i ∈ indices -> k <> key i) ->
                    sec' !! k = sec !! k).
Proof.
  induction indices as [|i rest IH]; intros c sec Hsec.
  - exists sec. split; [by rewrite insert_id|].
    split; [by intros i ?%elem_of_nil|done].
  - cbn [clear_entries]. unfold section_set. rewrite Hsec. cbn [Py.truthy].
    destruct (IH (<["SEARCH_HISTORY" := <[key i := ""]> sec]> c)
                (<[key i := ""]> sec)) as (sec' & -> & Hset & Hframe);
      [by rewrite lookup_insert_eq|].
    exists sec'. split; [by rewrite insert_insert_eq|]. split.
    + intros j [->|Hj]%elem_of_cons; [|by apply Hset].
      destruct (decide (i ∈ rest)) as [Hin|Hout]; [by apply Hset|].
      rewrite Hframe; [by rewrite lookup_insert_eq|].
      intros i' Hi' Heq%key_inj. by subst i'.
    + intros k Hk. rewrite Hframe.
      * rewrite lookup_insert_ne; [done|]. intros Heq.
        by apply (Hk i); [left|].
      * intros i' Hi'. apply Hk. by right.
Qed.

(** The loop that writes plain entries does not raise, sets the option
    of each entry and leaves the others. *)
Lemma write_spec (P : Platform) (history : list string) :
  keeps_plain_values P ->
  forall (i : nat) (c : ini) (sec : gmap string string),
    Forall percent_free history ->
    c !! "SEARCH_HISTORY" = Some sec ->
    exists sec',
      write_entries P i history c
      = (inr tt, <["SEARCH_HISTORY" := sec']> c)
      /\ (forall j v, history !! j = Some v ->
                      sec' !! key (i + j) = Some v)
      /\ (forall k, (forall j, (j < length history)%nat -> k <> key (i + j)) ->
                    sec' !! k = sec !! k).
Proof.
  intros HP. induction history as [|x rest IH]; intros i c sec Hplain Hsec.
  - exists sec. split; [by rewrite insert_id|]. split; [|done].
    by intros j v ?.
  - apply Forall_cons in Hplain as [Hx Hrest]. cbn [write_entries].
    rewrite (section_set_plain P c sec (key i) x HP Hx Hsec).
    destruct (IH (S i) (<["SEARCH_HISTORY" := <[key i := x]> sec]> c)
                (<[key i := x]> sec) Hrest)
      as (sec' & -> & Hset & Hframe); [by rewrite lookup_insert_eq|].
    exists sec'. split; [by rewrite insert_insert_eq|]. split.
    + intros [|j] v Hv.
      * injection Hv as <-. rewrite Nat.add_0_r.
        rewrite Hframe; [by rewrite lookup_insert_eq|].
        intros j _ Heq%key_inj. lia.
      * replace (i + S j)%nat with (S i + j)%nat by lia. by apply Hset.
    + intros k Hk. rewrite Hframe.
      * rewrite lookup_insert_ne; [done|]. intros Heq.
        apply (Hk 0%nat); [cbn; lia|]. by rewrite Nat.add_0_r.
      * intros j Hj. replace (S i + j)%nat with (i + S j)%nat by lia.
        apply Hk. cbn. lia.
Qed.

(** Reading plain values: the entries that are not empty, in the order
    of the options. *)
Lemma read_spec (P : Platform) (sec : gmap string string) :
  keeps_plain_values P ->
  forall (vals : list string) (i : nat) (acc : list string),
    (forall j v, vals !! j = Some v ->
                 sec !! key (i + j) = Some v /\ percent_free v) ->
    read_entries P sec (seq i (length vals)) acc
    = inr (acc ++ List.filter Py.truthy vals)%list.
Proof.
  intros HP. induction vals as [|v vals IH]; intros i acc Hvals.
  - cbn. by rewrite app_nil_r.
  - cbn [length seq read_entries]. unfold section_get.
    destruct (Hvals 0%nat v eq_refl) as [Hv Hplain].
    rewrite Nat.add_0_r in Hv. rewrite Hv.
    destruct (HP v Hplain) as [_ ->]. rewrite IH.
    + cbn [List.filter]. destruct (Py.truthy v); [|done].
      by rewrite <- app_assoc.
    + intros j v' Hj. replace (S i + j)%nat with (i + S j)%nat by lia.
      by apply Hvals.
Qed.

(** What the loop of [get_search_history] adds is not empty. *)
Lemma read_truthy (P : Platform) (sec : gmap string string)
    (indices : list nat) :
  forall (acc history : list string),
    read_entries P sec indices acc = inr history ->
    Forall (fun s => Py.truthy s = true) acc ->
    Forall (fun s => Py.truthy s = true) history.
Proof.
  induction indices as [|i rest IH]; intros acc history Hread Hacc.
  - by injection Hread as <-.
  - cbn [read_entries] in Hread.
    destruct (section_get P sec (key i) "") as [e|search]; [done|].
    apply (IH _ _ Hread). destruct (Py.truthy search) eqn:Hs; [|done].
    apply Forall_app. split; [done|]. by apply Forall_singleton.
Qed.

Lemma history_truthy (P : Platform) (c : ini) (history : list string) :
  get_search_history P c = inr history ->
  Forall (fun s => Py.truthy s = true) history.
Proof.
  unfold get_search_history. destruct (c !! "SEARCH_HISTORY") as [sec|].
  - intros H. by apply (read_truthy P sec (seq 1 10) [] history H).
  - by intros [= <-].
Qed.

Lemma list_remove_absent (x : string) (l : list string) :
  Py.mem x l = false -> list_remove x l = l.
Proof.
  unfold Py.mem. induction l as [|y l IH]; [done|]. cbn [existsb list_remove].
  intros [Hxy Hl]%orb_false_iff. rewrite Hxy. by rewrite IH.
Qed.

Lemma list_remove_sublist (x : string) (l : list string) :
  sublist (list_remove x l) l.
Proof.
  induction l as [|y l IH]; [done|]. cbn [list_remove].
  destruct (String.eqb x y); [by apply sublist_cons|by apply sublist_skip].
Qed.

Lemma list_remove_NoDup (x : string) (l : list string) :
  NoDup l -> x ∉ list_remove x l.
Proof.
  induction l as [|y l IH]; [by intros _ ?%elem_of_nil|].
  intros [Hy Hl]%NoDup_cons. cbn [list_remove].
  destruct (String.eqb_spec x y) as [->|Hne]; [done|].
  intros [?|?]%elem_of_cons; [done|by apply IH].
Qed.

Lemma filter_padding (h : list string) (n : nat) :
  Forall (fun s => Py.truthy s = true) h ->
  List.filter Py.truthy (h ++ replicate n "")%list = h.
Proof.
  intros Hh. rewrite List.filter_app.
  replace (List.filter Py.truthy (replicate n "")) with (@nil string)
    by (induction n; [done|by cbn]).
  rewrite app_nil_r. induction Hh as [|x h Hx _ IH]; [done|].
  cbn [List.filter]. by rewrite Hx, IH.
Qed.

(** The entries that [add_to_search_history] writes. *)
Lemma new_history (search_term : string) (old : list string) :
  take 10 (search_term
           :: (if Py.mem search_term old then list_remove search_term old
               else old))
  = take 10 (search_term :: list_remove search_term old).
Proof.
  destruct (Py.mem search_term old) eqn:Hmem; [done|].
  by rewrite list_remove_absent.
Qed.

(** Adding a plain term to a history of plain entries. *)
Lemma add_spec (P : Platform) (search_term : string) (m : manager)
    (old : list string) :
  keeps_plain_values P ->
  Py.truthy (Py.strip search_term) = true ->
  percent_free search_term ->
  get_search_history P (config m) = inr old ->
  Forall percent_free old ->
  exists c,
    add_to_search_history P search_term m
    = (inr tt, save_config P (Manager c (config_file m)))
    /\ get_search_history P c
       = inr (take 10 (search_term :: list_remove search_term old))
    /\ forall section, section <> "SEARCH_HISTORY" ->
                       c !! section = config m !! section.
Proof.
  intros HP Hterm Hplain Hold Hplain_old.
  unfold add_to_search_history. rewrite Hterm, Hold. cbn [negb]. cbv zeta.
  rewrite new_history.
  set (h := take 10 (search_term :: list_remove search_term old)).
  set (c0 := match config m !! "SEARCH_HISTORY" with
             | Some _ => config m
             | None => <["SEARCH_HISTORY" := ∅]> (config m)
             end).
  assert (Hc0 : exists sec0, c0 !! "SEARCH_HISTORY" = Some sec0
                /\ forall section, section <> "SEARCH_HISTORY" ->
                                   c0 !! section = config m !! section).
  { unfold c0. destruct (config m !! "SEARCH_HISTORY") as [sec0|] eqn:Hsec.
    - by exists sec0.
    - exists ∅. split; [by rewrite lookup_insert_eq|].
      intros section Hne. by rewrite lookup_insert_ne. }
  destruct Hc0 as (sec0 & Hsec0 & Hframe0).
  destruct (clear_spec P (seq 1 10) c0 sec0 Hsec0)
    as (sec1 & -> & Hcleared & _).
  assert (Hh_sub : h ⊆ search_term :: old).
  { unfold h. etransitivity; [apply subseteq_take|].
    intros x [->|Hx]%elem_of_cons; [by left|]. right.
    by apply (elem_of_sublist _ _ _ Hx (list_remove_sublist search_term old)). }
  assert (Hh_plain : Forall percent_free h).
  { apply Forall_forall. intros x Hx. apply Hh_sub in Hx.
    apply elem_of_cons in Hx as [->|Hx]; [done|].
    by apply (proj1 (Forall_forall _ _) Hplain_old). }
  assert (Hh_truthy : Forall (fun s => Py.truthy s = true) h).
  { apply Forall_forall. intros x Hx. apply Hh_sub in Hx.
    apply elem_of_cons in Hx as [->|Hx]; [by apply truthy_strip|].
    by apply (proj1 (Forall_forall _ _) (history_truthy P _ _ Hold)). }
  assert (Hh_length : (length h <= 10)%nat).
  { unfold h. rewrite length_take. lia. }
  destruct (write_spec P h HP 1 (<["SEARCH_HISTORY" := sec1]> c0) sec1 Hh_plain)
    as (sec2 & -> & Hwritten & Hkept); [by rewrite lookup_insert_eq|].
  rewrite insert_insert_eq.
  exists (<["SEARCH_HISTORY" := sec2]> c0). split; [done|]. split.
  - unfold get_search_history. rewrite lookup_insert_eq.
    pose (vals := (h ++ replicate (10 - length h) "")%list).
    assert (Hlen : length vals = 10%nat).
    { unfold vals. rewrite length_app, length_replicate. lia. }
    rewrite <- Hlen. rewrite (read_spec P sec2 HP vals 1 []).
    + unfold vals. by rewrite filter_padding.
    + intros j v Hj. unfold vals in Hj.
      apply lookup_app_Some in Hj as [Hj|[Hge Hj]].
      * split; [by apply Hwritten|].
        apply (proj1 (Forall_forall _ _) Hh_plain).
        by apply list_elem_of_lookup_2 in Hj.
      * apply lookup_replicate in Hj as [-> Hj]. split; [|apply plain_empty].
        rewrite Hkept.
        -- apply Hcleared. apply list_elem_of_In, in_seq. lia.
        -- intros j' Hj' Heq%key_inj. lia.
  - intros section Hne. rewrite lookup_insert_ne by done. by apply Hframe0.
Qed.

End HistoryFacts.

(** X17. Adding a search term to the history and reading the history
    back: the term comes first, followed by the former entries without
    the first occurrence of the term, ten entries in all at most. This
    holds for a term that is not blank and, as the former entries, has
    no interpolation character. The other sections of the configuration
    stay as they are, and the file holds the new configuration when it
    could be written. *)
Theorem history_round_trip (P : History.Platform) (search_term : string)
    (m : History.manager) (old : list string) :
  History.keeps_plain_values P ->
  Py.truthy (Py.strip search_term) = true ->
  History.percent_free search_term ->
  History.get_search_history P (History.config m) = inr old ->
  Forall History.percent_free old ->
  exists m',
    History.add_to_search_history P search_term m = (inr tt, m')
    /\ History.get_search_history P (History.config m')
       = inr (take 10 (search_term :: list_remove search_term old))
    /\ (forall section, section <> "SEARCH_HISTORY" ->
          History.config m' !! section = History.config m !! section)
    /\ History.config_file m'
       = if History.writable P (History.config m')
         then Some (History.config m') else History.config_file m.
Proof.
  intros HP Hterm Hplain Hold Hplain_old.
  destruct (HistoryFacts.add_spec P search_term m old HP Hterm Hplain Hold
              Hplain_old) as (c & -> & Hget & Hframe).
  eexists. split; [done|]. unfold History.save_config.
  cbn [History.config History.config_file].
  destruct (History.writable P c) eqn:Hw;
    cbn [History.config History.config_file]; by rewrite Hw.
Qed.

(** X17 on a history of three entries: the entry that is searched again
    moves to the front. *)
Lemma history_round_trip_witness :
  exists m',
    History.add_to_search_history History.strict "beta" History.three
    = (inr tt, m')
    /\ History.get_search_history History.strict (History.config m')
       = inr ["beta"; "alpha"; "gamma"].
Proof.
  destruct (history_round_trip History.strict "beta" History.three
              ["alpha"; "beta"; "gamma"]) as (m' & Hadd & Hget & _).
  - intros v Hv. unfold History.percent_free in Hv. cbn. by rewrite Hv.
  - reflexivity.
  - reflexivity.
  - vm_compute. reflexivity.
  - repeat constructor.
  - exists m'. split; [exact Hadd|exact Hget].
Defined.

(** X18. The history after a term was added, under the conditions of
    X17: the term is its first entry, it has ten entries at most, each
    of them is the term or a former entry, it has no entry twice when
    the former history had none twice, and it keeps every former entry
    when there were fewer than ten. *)
Theorem history_is_most_recent_first (P : History.Platform)
    (search_term : string) (m m' : History.manager) (old new : list string) :
  History.keeps_plain_values P ->
  Py.truthy (Py.strip search_term) = true ->
  History.percent_free search_term ->
  History.get_search_history P (History.config m) = inr old ->
  Forall History.percent_free old ->
  History.add_to_search_history P search_term m = (inr tt, m') ->
  History.get_search_history P (History.config m') = inr new ->
  new !! 0%nat = Some search_term
  /\ (length new <= 10)%nat
  /\ (forall s, s ∈ new -> s = search_term \/ s ∈ old)
  /\ (NoDup old -> NoDup new)
  /\ ((length old < 10)%nat -> forall s, s ∈ old -> s ∈ new).
Proof.
  intros HP Hterm Hplain Hold Hplain_old Hadd Hnew.
  destruct (HistoryFacts.add_spec P search_term m old HP Hterm Hplain Hold
              Hplain_old) as (c & Hadd' & Hget & _).
  rewrite Hadd' in Hadd. injection Hadd as <-.
  assert (Hc : History.config
                 (History.save_config P
                    (History.Manager c (History.config_file m))) = c).
  { unfold History.save_config. by destruct (History.writable P _). }
  rewrite Hc, Hget in Hnew.
  assert (Hh : new = take 10 (search_term :: list_remove search_term old))
    by congruence.
  clear Hnew. subst new.
  pose proof (HistoryFacts.list_remove_sublist search_term old) as Hsub.
  split; [done|]. split; [rewrite length_take; lia|]. split; [|split].
  - intros s Hs%subseteq_take. apply elem_of_cons in Hs as [->|Hs];
      [by left|]. right. by apply (elem_of_sublist _ _ _ Hs Hsub).
  - intros Hnodup. apply (sublist_NoDup _ (search_term
                                           :: list_remove search_term old)).
    + apply NoDup_cons. split; [by apply HistoryFacts.list_remove_NoDup|].
      by apply (sublist_NoDup _ _ Hnodup Hsub).
    + apply sublist_take.
  - intros Hshort s Hs.
    assert (Hlen : (length (list_remove search_term old) <= length old)%nat)
      by (by apply sublist_length).
    rewrite take_ge by (cbn [length]; lia).
    destruct (String.eqb_spec s search_term) as [->|Hne]; [by left|].
    right. clear -Hs Hne. induction old as [|y old IH];
      [by apply elem_of_nil in Hs|].
    cbn [list_remove]. destruct (String.eqb_spec search_term y) as [<-|Hy].
    + by apply elem_of_cons in Hs as [?|?].
    + apply elem_of_cons in Hs as [->|Hs]; [by left|]. right. by apply IH.
Qed.

(** X18 on a history of three entries and a new term. *)
Lemma history_is_most_recent_first_witness :
  ["delta"; "alpha"; "beta"; "gamma"] !! 0%nat = Some "delta"
  /\ NoDup ["delta"; "alpha"; "beta"; "gamma"].
Proof.
  destruct (history_is_most_recent_first History.strict "delta" History.three
              (snd (History.add_to_search_history History.strict "delta"
                      History.three))
              ["alpha"; "beta"; "gamma"] ["delta"; "alpha"; "beta"; "gamma"])
    as (Hfirst & _ & _ & Hnodup & _).
  - intros v Hv. unfold History.percent_free in Hv. cbn. by rewrite Hv.
  - reflexivity.
  - reflexivity.
  - vm_compute. reflexivity.
  - repeat constructor.
  - vm_compute. reflexivity.
  - vm_compute. reflexivity.
  - split; [exact Hfirst|]. apply Hnodup.
    apply NoDup_cons. split; [by intros [?|[?|?%elem_of_nil]%elem_of_cons]%elem_of_cons|].
    apply NoDup_cons. split; [by intros [?|?%elem_of_nil]%elem_of_cons|].
    apply NoDup_singleton.
Defined.

(** X19. A term that the interpolation of the parser refuses costs the
    whole history: [add_to_search_history] raises after it has cleared
    the ten entries, so that the history read next is empty; the file is
    not written. *)
Theorem refused_term_wipes_history (P : History.Platform)
    (search_term : string) (m : History.manager) (old : list string)
    (e : exn) :
  History.keeps_plain_values P ->
  Py.truthy (Py.strip search_term) = true ->
  History.before_set P search_term = inl e ->
  History.get_search_history P (History.config m) = inr old ->
  exists m',
    History.add_to_search_history P search_term m = (inl e, m')
    /\ History.get_search_history P (History.config m') = inr []
    /\ History.config_file m' = History.config_file m.
Proof.
  intros HP Hterm Hrefused Hold.
  unfold History.add_to_search_history. rewrite Hterm, Hold. cbn [negb].
  cbv zeta. rewrite HistoryFacts.new_history.
  set (c0 := match History.config m !! "SEARCH_HISTORY" with
             | Some _ => History.config m
             | None => <["SEARCH_HISTORY" := ∅]> (History.config m)
             end).
  assert (Hc0 : exists sec0, c0 !! "SEARCH_HISTORY" = Some sec0).
  { unfold c0.
    destruct (History.config m !! "SEARCH_HISTORY") as [sec0|] eqn:Hsec.
    - by exists sec0.
    - exists ∅. by rewrite lookup_insert_eq. }
  destruct Hc0 as (sec0 & Hsec0).
  destruct (HistoryFacts.clear_spec P (seq 1 10) c0 sec0 Hsec0)
    as (sec1 & -> & Hcleared & _).
  cbn [take History.write_entries]. unfold History.section_set.
  rewrite lookup_insert_eq.
  rewrite (HistoryFacts.truthy_strip _ Hterm), Hrefused.
  eexists. split; [done|]. split; [|done].
  cbn [History.config]. unfold History.get_search_history.
  rewrite lookup_insert_eq.
  change 10%nat with (length (replicate 10 "")) at 1.
  rewrite (HistoryFacts.read_spec P sec1 HP (replicate 10 "") 1 []);
    [done|].
  intros j v [-> Hj]%lookup_replicate. split; [|done].
  apply Hcleared. apply list_elem_of_In, in_seq. lia.
Qed.

(** X19 on a history of three entries and a term with a percent sign. *)
Lemma refused_term_wipes_history_witness :
  exists m',
    History.add_to_search_history History.strict "100% working"
                                  History.three
    = (inl (Error "ValueError"), m')
    /\ History.get_search_history History.strict (History.config m')
       = inr [].
Proof.
  destruct (refused_term_wipes_history History.strict "100% working"
              History.three ["alpha"; "beta"; "gamma"]
              (Error "ValueError")) as (m' & Hadd & Hget & _).
  - intros v Hv. unfold History.percent_free in Hv. cbn. by rewrite Hv.
  - reflexivity.
  - reflexivity.
  - vm_compute. reflexivity.
  - exists m'. split; [exact Hadd|exact Hget].
Defined.

(** ** The list of results of the window *)

Module WindowFacts.
Import Window.

Lemma index_label (source_id rest : string) :
  Py.mem_char "]" source_id = false ->
  index "]" (source_id ++ String "]" rest) = Some (String.length source_id).
Proof.
  induction source_id as [|c s IH]; intros Hs; [done|].
  change (String c s ++ String "]" rest)
    with (String c (s ++ String "]" rest)).
  cbn [Py.mem_char] in Hs. cbn [index String.length].
  destruct (Ascii.eqb "]" c); [done|]. by rewrite IH.
Qed.

Lemma take_app_length (a b : string) : Py.take (String.length a) (a ++ b) = a.
Proof.
  induction a as [|c a IH]; [by destruct b|].
  change (String c a ++ b) with (String c (a ++ b)).
  cbn [String.length Py.take]. by rewrite IH.
Qed.

Lemma drop_app_length (a b : string) : Py.drop (String.length a) (a ++ b) = b.
Proof.
  induction a as [|c a IH]; [by destruct b|].
  change (String c a ++ b) with (String c (a ++ b)).
  cbn [String.length Py.drop]. by rewrite IH.
Qed.

Lemma find_named (result_name : string) (results : list SearchResult)
    (r : SearchResult) :
  r ∈ results -> named result_name r = true ->
  exists r', List.find (named result_name) results = Some r'
             /\ r' ∈ results /\ named result_name r' = true.
Proof.
  intros Hr Hnamed. destruct (List.find (named result_name) results)
    as [r'|] eqn:Hfind.
  - exists r'. split; [done|]. apply find_some in Hfind as [Hin Hn].
    split; [by apply list_elem_of_In|done].
  - apply list_elem_of_In in Hr.
    by rewrite (find_none _ _ Hfind r Hr) in Hnamed.
Qed.

Lemma named_inv (result_name : string) (r : SearchResult) :
  named result_name r = true -> display_name r = JStr result_name.
Proof.
  unfold named. destruct (display_name r); try done.
  by intros ->%String.eqb_eq.
Qed.

End WindowFacts.

(** X20. The label of a result of the list leads back to a result: for
    a source whose identifier has no closing bracket and a result whose
    displayed name is a text, [on_result_select] on the label finds the
    first result of that source with that displayed name. It is the
    result of the label when the displayed names of the source are
    distinct. *)
Theorem selection_finds_the_labelled_result (str_of : json -> string)
    (current_results : gmap string (gmap string (list SearchResult)))
    (category source_id : string) (by_source : gmap string (list SearchResult))
    (results : list SearchResult) (r : SearchResult) (shown : string) :
  (forall s, str_of (JStr s) = s) ->
  current_results !! category = Some by_source ->
  by_source !! source_id = Some results ->
  r ∈ results ->
  Py.mem_char "]" source_id = false ->
  Window.display_name r = JStr shown ->
  exists r',
    Window.on_result_select current_results category
      (Window.display_text str_of source_id r) = Some r'
    /\ List.find (Window.named shown) results = Some r'
    /\ Window.display_name r' = JStr shown
    /\ (NoDup (map Window.display_name results) -> r' = r).
Proof.
  intros Hstr Hcat Hsource Hr Hbracket Hshown.
  destruct (WindowFacts.find_named shown results r Hr)
    as (r' & Hfind & Hin & Hnamed).
  { unfold Window.named. rewrite Hshown. apply String.eqb_refl. }
  apply WindowFacts.named_inv in Hnamed.
  exists r'. split; [|split; [done|split; [done|]]].
  - unfold Window.on_result_select, Window.display_text.
    rewrite Hcat, Hshown, Hstr.
    change ("[" ++ source_id ++ "] " ++ shown)
      with (String "[" (source_id ++ String "]" (String " " shown))).
    cbn [Py.truthy negb Py.startswith Window.index Ascii.eqb Bool.eqb].
    cbn match. rewrite WindowFacts.index_label by done.
    cbn [fmap option_fmap option_map]. cbv zeta.
    rewrite Nat.sub_succ, Nat.sub_0_r. cbn [Py.drop].
    rewrite WindowFacts.take_app_length, Hsource.
    replace (S (String.length source_id) + 2)%nat
      with (S (String.length source_id + 2))%nat by lia.
    cbn [Py.drop].
    replace (String.length source_id + 2)%nat
      with (String.length (source_id ++ "] ")) by
      (rewrite CacheMore.length_append; cbn; lia).
    change (source_id ++ String "]" (String " " shown))
      with (source_id ++ ("] " ++ shown)).
    rewrite <- StripFacts.append_assoc, WindowFacts.drop_app_length.
    done.
  - intros Hnodup. apply list_elem_of_lookup in Hr as [i Hi].
    apply list_elem_of_lookup in Hin as [j Hj].
    assert (i = j); [|congruence].
    apply (NoDup_lookup _ i j (JStr shown) Hnodup);
      rewrite list_lookup_fmap; [rewrite Hi|rewrite Hj]; cbn; congruence.
Qed.

(** X20 on a tab with two results of the same name: the label of the
    second leads to the first. *)
Lemma selection_finds_the_labelled_result_witness :
  Window.on_result_select Window.twins "servers" "[api1] Foo"
  = Some (result_of "Foo" "first" "http://a" "" "Api One" "").
Proof.
  destruct (selection_finds_the_labelled_result text_of Window.twins
              "servers" "api1"
              {["api1" := [result_of "Foo" "first" "http://a" "" "Api One" "";
                           result_of "Foo" "second" "http://b" "" "Api One" ""]]}
              [result_of "Foo" "first" "http://a" "" "Api One" "";
               result_of "Foo" "second" "http://b" "" "Api One" ""]
              (result_of "Foo" "second" "http://b" "" "Api One" "") "Foo")
    as (r' & Hselect & Hfind & _).
  - done.
  - vm_compute. reflexivity.
  - vm_compute. reflexivity.
  - right. left.
  - reflexivity.
  - reflexivity.
  - vm_compute in Hfind. injection Hfind as <-. exact Hselect.
Defined.

(** ** The search of the window *)

Module GuiFacts.
Import Gui.

Lemma callback_of_status (update_status : string -> M unit) :
  status_returns update_status ->
  callback_returns (Some (progress_callback update_status)).
Proof. intros Hs status current total w. apply Hs. Qed.

Lemma dict_set_elem {V} (k : string) (v : V) (d : list (string * V))
    (entry : string * V) :
  entry ∈ dict_set k v d -> entry = (k, v) \/ entry ∈ d.
Proof.
  induction d as [|[k' v'] d IH]; cbn [dict_set].
  - intros ->%list_elem_of_singleton. by left.
  - destruct (String.eqb k k').
    + intros [->|H]%elem_of_cons; [by left|]. right. by right.
    + intros [->|H]%elem_of_cons; [right; by left|].
      destruct (IH H) as [->|Hd]; [by left|]. right. by right.
Qed.

Lemma dict_set_keys {V} (k : string) (v : V) (d : list (string * V)) :
  NoDup (map fst d) -> NoDup (map fst (dict_set k v d)).
Proof.
  induction d as [|[k' v'] d IH]; cbn [dict_set map fst].
  - intros _. apply NoDup_singleton.
  - intros [Hk' Hd]%NoDup_cons.
    destruct (String.eqb_spec k k') as [->|Hne]; cbn [map fst].
    + by apply NoDup_cons.
    + apply NoDup_cons. split; [|by apply IH].
      intros Hin. apply list_elem_of_fmap in Hin as ([k2 v2] & Hk2 & Hin).
      cbn in Hk2. subst k2.
      apply dict_set_elem in Hin as [[= -> ->]|Hin]; [done|].
      apply Hk'. apply list_elem_of_fmap. by exists (k', v2).
Qed.

(** The loop over the categories returns when the dialog does, and
    keeps what is stated of [all_results]. *)
Lemma search_categories_spec (E : Env) (update_status : string -> M unit)
    (search_term : string) (selected : list string)
    (listing : gmap string (list string)) :
  status_returns update_status ->
  get_categories E = inr listing ->
  forall (categories : list string) (all_results : results_by_category)
         (w : world),
    categories ⊆ selected ->
    Forall (has_results listing selected) all_results ->
    NoDup (map fst all_results) ->
    exists all_results' w',
      search_categories E update_status categories search_term all_results w
      = (inr all_results', w')
      /\ Forall (has_results listing selected) all_results'
      /\ NoDup (map fst all_results').
Proof.
  intros Hstatus Hlisting. induction categories as [|category rest IH];
    intros all_results w Hsub Hall Hkeys.
  - by exists all_results, w.
  - cbn [search_categories]. unfold bind at 1.
    destruct (Hstatus ("Searching " ++ Py.title (Py.replace "_" " " category)
                       ++ "...") w) as [w0 ->].
    unfold bind at 1.
    pose proof (callback_of_status update_status Hstatus) as Hcb.
    assert (Hrun : exists final w1,
               search_category E category search_term
                 (Some (progress_callback update_status)) w0 = (inr final, w1)
               /\ forall s rs, final !! s = Some rs ->
                    rs <> [] /\ exists sources,
                      listing !! category = Some sources
                      /\ s ∈ sources).
    { pose proof (CategoryMore.search_category_spec E category search_term
                    (Some (progress_callback update_status)) w0 Hcb) as Hspec.
      rewrite Hlisting in Hspec.
      destruct Hspec as (final & w1 & Hrun & Hshape).
      exists final, w1. split; [done|]. intros s rs Hlook.
      destruct (listing !! category) as [sources|].
      - destruct Hshape as [_ Hshape].
        destruct (Hshape s rs Hlook) as [Hin Hne]. split; [done|].
        by exists sources.
      - destruct Hshape as [-> _]. by rewrite lookup_empty in Hlook. }
    destruct Hrun as (final & w1 & -> & Hfinal).
    apply IH.
    + intros x Hx. apply Hsub. by right.
    + destruct (bool_decide (final = ∅)) eqn:Hempty; [done|].
      apply bool_decide_eq_false in Hempty.
      apply Forall_forall. intros entry Hentry.
      apply dict_set_elem in Hentry as [->|Hentry];
        [|by apply (proj1 (Forall_forall _ _) Hall)].
      split; [apply Hsub; by left|]. by split.
    + destruct (bool_decide (final = ∅)); [done|]. by apply dict_set_keys.
Qed.

(** When the listing of the categories cannot be read, the loop raises
    at its first category, after the update of the dialog. *)
Lemma search_categories_raises (E : Env) (update_status : string -> M unit)
    (search_term category : string) (rest : list string)
    (all_results : results_by_category) (e : exn) (w w0 : world) :
  get_categories E = inl e ->
  update_status ("Searching " ++ Py.title (Py.replace "_" " " category)
                 ++ "...") w = (inr tt, w0) ->
  search_categories E update_status (category :: rest) search_term
                    all_results w = (inl e, w0).
Proof.
  intros Hlisting Hstatus. cbn [search_categories]. unfold bind at 1.
  rewrite Hstatus. unfold bind at 1. unfold search_category.
  by rewrite Total.bind_lift, Hlisting.
Qed.

Lemma sum_list_elem (l : list nat) (n : nat) :
  n ∈ l -> (n <= sum_list l)%nat.
Proof.
  induction l as [|m l IH]; [by intros ?%elem_of_nil|].
  intros [->|H]%elem_of_cons; cbn; [lia|]. specialize (IH H). lia.
Qed.

(** A category with an entry that is not empty has a positive total. *)
Lemma category_total_positive
    (category_results : gmap string (list SearchResult)) :
  category_results <> ∅ ->
  (forall s rs, category_results !! s = Some rs -> rs <> []) ->
  (0 < category_total category_results)%nat.
Proof.
  intros Hne Hentries.
  apply map_choose in Hne as (s & rs & Hs).
  specialize (Hentries s rs Hs).
  assert (Hin : length rs ∈ map (fun entry : string * list SearchResult =>
                                   length (snd entry))
                                (map_to_list category_results)).
  { apply list_elem_of_fmap. exists (s, rs). split; [done|].
    by apply elem_of_map_to_list. }
  apply sum_list_elem in Hin. unfold category_total.
  destruct rs; [done|]. cbn [length] in Hin. lia.
Qed.

End GuiFacts.

(** X21. The search of the window, when the updates of the loading
    dialog return. When the listing of the categories is read, the loop
    over the selected categories returns, and the search schedules the
    handler of success with what the loop collected, in the world that
    the loop left; the scheduling is inside the [try], so when it raises
    the handler of errors is scheduled next. Every category that is
    handed over was selected and has one entry at least; every entry is
    the list, not empty, of a source of the category; so each category
    that is handed over has a positive total and gets its tab, and no
    category is handed over twice. When the listing cannot be read, a
    search over one category at least schedules the handler of errors,
    with the error of the reading, after the first update of the dialog;
    a search over no category schedules the handler of success with
    nothing. *)
Theorem perform_search_hands_over_results (E : Env)
    (update_status : string -> M unit) (after : Gui.scheduled -> M unit)
    (search_term : string) (categories : list string) (w : world) :
  Gui.status_returns update_status ->
  let on_error := fun e => after (Gui._handle_search_error e) in
  match get_categories E, categories with
  | inr listing, _ =>
      exists all_results w',
        Gui.search_categories E update_status categories search_term [] w
        = (inr all_results, w')
        /\ Gui._perform_search E update_status after search_term categories w
           = try_except (after (Gui._handle_search_success all_results
                                                           search_term))
                        is_exception on_error w'
        /\ NoDup (map fst all_results)
        /\ forall entry, entry ∈ all_results ->
             Gui.has_results listing categories entry
             /\ (0 < Gui.category_total (snd entry))%nat
  | inl e, category :: _ =>
      exists w0,
        update_status ("Searching "
                       ++ Py.title (Py.replace "_" " " category) ++ "...") w
        = (inr tt, w0)
        /\ Gui._perform_search E update_status after search_term categories w
           = on_error e w0
  | inl e, [] =>
      Gui._perform_search E update_status after search_term categories w
      = try_except (after (Gui._handle_search_success [] search_term))
                   is_exception on_error w
  end.
Proof.
  intros Hstatus on_error.
  destruct (get_categories E) as [e|listing] eqn:Hlisting.
  - destruct categories as [|category rest]; [done|].
    destruct (Hstatus ("Searching "
                       ++ Py.title (Py.replace "_" " " category) ++ "...") w)
      as [w0 Hupdate].
    exists w0. split; [done|].
    unfold Gui._perform_search, try_except. unfold bind at 1.
    by rewrite (GuiFacts.search_categories_raises E update_status search_term
                  category rest [] e w w0 Hlisting Hupdate).
  - destruct (GuiFacts.search_categories_spec E update_status search_term
                categories listing Hstatus Hlisting categories [] w)
      as (all_results & w' & Hloop & Hall & Hkeys);
      [done|constructor|constructor|].
    exists all_results, w'. split; [done|]. split.
    { unfold Gui._perform_search, try_except. unfold bind at 1.
      by rewrite Hloop. }
    split; [done|].
    intros entry Hentry.
    pose proof (proj1 (Forall_forall _ _) Hall entry Hentry) as Hhas.
    split; [done|]. destruct Hhas as (_ & Hne & Hentries).
    apply GuiFacts.category_total_positive; [done|].
    intros s rs Hlook. by destruct (Hentries s rs Hlook).
Qed.

(** X21 on the category of the example, whose source answers at the
    second request: the handler of success is scheduled. *)
Lemma perform_search_hands_over_results_witness :
  exists all_results w',
    Gui.search_categories Demo.flaky Gui.no_dialog ["servers"] "q" []
                          Demo.empty_world
    = (inr all_results, w')
    /\ Gui._perform_search Demo.flaky Gui.no_dialog Gui.main_thread "q"
                           ["servers"] Demo.empty_world
       = (inr tt, w')
    /\ NoDup (map fst all_results).
Proof.
  assert (Hlisting : get_categories Demo.flaky
                     = inr {["servers" := ["api1"]]})
    by (vm_compute; reflexivity).
  assert (Hstatus : Gui.status_returns Gui.no_dialog)
    by (intros status w; by eexists).
  pose proof (perform_search_hands_over_results Demo.flaky Gui.no_dialog
                Gui.main_thread "q" ["servers"] Demo.empty_world Hstatus)
    as Hspec.
  cbv zeta in Hspec. rewrite Hlisting in Hspec.
  destruct Hspec as (all_results & w' & Hloop & Hrun & Hkeys & _).
  exists all_results, w'.
  split; [exact Hloop|]. split; [exact Hrun|exact Hkeys].
Defined.

(** ** Clearing the cache *)

Module ClearFacts.

Lemma mem_char_app (c : ascii) (a b : string) :
  Py.mem_char c (a ++ b) = Py.mem_char c a || Py.mem_char c b.
Proof.
  induction a as [|x a IH]; [done|].
  change (String x a ++ b) with (String x (a ++ b)). cbn [Py.mem_char].
  by destruct (Ascii.eqb c x).
Qed.

(** The file of a key without separator is right under the cache
    directory. *)
Lemma cache_file_listed (cache_key : string) :
  Py.mem_char "/" cache_key = false ->
  listed (_get_cache_file cache_key) = true.
Proof.
  intros Hkey. unfold listed, _get_cache_file, CACHE_DIR.
  change ("cache" ++ "/" ++ cache_key ++ ".pkl")
    with ("cache/" ++ (cache_key ++ ".pkl")).
  change ("cache" ++ "/") with "cache/".
  rewrite PyFacts.startswith_app.
  change (Py.drop (String.length "cache" + 1)
            ("cache/" ++ (cache_key ++ ".pkl")))
    with (cache_key ++ ".pkl").
  by rewrite mem_char_app, Hkey.
Qed.

(** The files after a sequence of removals. *)
Lemma files_after_removals (file_paths : list string) :
  forall (w : world) (file : string),
    files (foldl (fun w file_path => remove_file file_path w) w file_paths)
    !! file
    = if bool_decide (file ∈ file_paths) then None else files w !! file.
Proof.
  induction file_paths as [|p rest IH]; intros w file; [done|].
  cbn [foldl]. rewrite IH. cbn [remove_file log set_files files].
  destruct (decide (file = p)) as [->|Hne].
  - rewrite lookup_delete_eq.
    rewrite (bool_decide_eq_true_2 (p ∈ p :: rest)) by (by left).
    by destruct (bool_decide (p ∈ rest)).
  - rewrite lookup_delete_ne by done.
    destruct (decide (file ∈ rest)) as [Hin|Hout].
    + rewrite !bool_decide_eq_true_2; [done|by right|done].
    + rewrite !bool_decide_eq_false_2; [done| |done].
      by intros [?|?]%elem_of_cons.
Qed.

(** A removal is no request. *)
Lemma removals_send_nothing (file_paths : list string) :
  forall (w : world),
    count_gets
      (trace (foldl (fun w file_path => remove_file file_path w) w file_paths))
    = count_gets (trace w).
Proof.
  induction file_paths as [|p rest IH]; intros w; [done|].
  cbn [foldl]. rewrite IH. unfold remove_file.
  by rewrite SearchMore.count_gets_log.
Qed.

End ClearFacts.

(** X22. After [clear_cache], no search is answered from the cache:
    whatever the source and the query, their file is gone and the
    look-up finds nothing. Clearing sends no request and keeps the files
    that are not right under the cache directory. *)
Theorem cleared_cache_misses (E : Env) (source query : string)
    (max_age_hours : Z) (w : world) :
  digests_are_names E ->
  let w' := snd (clear_cache w) in
  fst (clear_cache w) = inr tt
  /\ files w' !! _get_cache_file (_get_cache_key E source query) = None
  /\ fst (get_cached_results E source query max_age_hours w') = inr None
  /\ count_gets (trace w') = count_gets (trace w)
  /\ forall file, listed file = false -> files w' !! file = files w !! file.
Proof.
  intros Hnames. cbv zeta. unfold clear_cache. cbn [fst snd].
  set (file_paths := List.filter listed (map fst (map_to_list (files w)))).
  assert (Hgone : files (foldl (fun w file_path => remove_file file_path w)
                           w file_paths)
                  !! _get_cache_file (_get_cache_key E source query) = None).
  { rewrite ClearFacts.files_after_removals.
    destruct (decide (_get_cache_file (_get_cache_key E source query)
                      ∈ file_paths)) as [Hin|Hout].
    - by rewrite bool_decide_eq_true_2.
    - rewrite bool_decide_eq_false_2 by done.
      destruct (files w !! _get_cache_file (_get_cache_key E source query))
        as [f|] eqn:Hf; [|done].
      exfalso. apply Hout. unfold file_paths.
      apply list_elem_of_In, filter_In. split.
      + apply list_elem_of_In, list_elem_of_fmap.
        exists (_get_cache_file (_get_cache_key E source query), f).
        split; [done|]. by apply elem_of_map_to_list.
      + apply ClearFacts.cache_file_listed, Hnames. }
  split; [done|]. split; [done|]. split; [|split].
  - unfold get_cached_results. cbv zeta. cbn [log files].
    by rewrite Hgone.
  - apply ClearFacts.removals_send_nothing.
  - intros file Hfile. rewrite ClearFacts.files_after_removals.
    rewrite bool_decide_eq_false_2; [done|].
    unfold file_paths. intros Hin%list_elem_of_In%filter_In.
    destruct Hin as [_ Hin]. congruence.
Qed.

(** X22 on a cache with one entry: the entry is found before the cache
    is cleared and not after. *)
Lemma cleared_cache_misses_witness :
  fst (get_cached_results one_digest "api1" "q" 24 one_entry)
  = inr (Some [Demo.api_record])
  /\ fst (get_cached_results one_digest "api1" "q" 24
            (snd (clear_cache one_entry)))
     = inr None.
Proof.
  split; [vm_compute; reflexivity|].
  apply (cleared_cache_misses one_digest "api1" "q" 24 one_entry).
  intros s. reflexivity.
Defined.

(** ** The strategy of the curated lists *)

(** X23. [_search_awesome_list] never raises, whatever the network, the
    answer and the configuration: every failure inside gives the empty
    list. It sends one request at most and leaves the files of the
    cache as they are. *)
Theorem awesome_list_strategy_never_raises (E : Env) (cfg : source_config)
    (query : string) (w : world) :
  exists results w',
    _search_awesome_list E cfg query w = (inr results, w')
    /\ files w' = files w
    /\ (count_gets (trace w') <= count_gets (trace w) + 1)%nat.
Proof.
  pose proof (SearchMore.one_awesome_list E cfg query w) as Hone.
  destruct (Frame.untouched_awesome_list E cfg query w) as [Hfiles _].
  assert (Hret : exists results,
             fst (_search_awesome_list E cfg query w) = inr results).
  { unfold _search_awesome_list. cbv zeta.
    destruct (negb _); [by exists []|]. unfold try_except.
    match goal with
    | |- context [match ?m w with _ => _ end] =>
        destruct (m w) as [[e|results] w']
    end; cbn; by eexists. }
  destruct Hret as [results Hret].
  destruct (_search_awesome_list E cfg query w) as [out w'].
  cbn [fst snd] in *. subst out. by exists results, w'.
Qed.

(** ** The extractors written for one site, and the fall-back *)

Module SiteMore.

(** A loop whose turns add one record at most adds no more records than
    it has turns. *)
Lemma flat_map_length {A B} (f : A -> list B) (l : list A) :
  (forall x, (length (f x) <= 1)%nat) ->
  (length (flat_map f l) <= length l)%nat.
Proof.
  intros Hone. induction l as [|x l IH]; [done|].
  cbn [flat_map length]. rewrite length_app. specialize (Hone x). lia.
Qed.

Lemma finder_element_length (E : Env) (element : Dom.place)
    (source_name base_url : string) :
  (length (finder_element E element source_name base_url) <= 1)%nat.
Proof.
  unfold finder_element. cbv zeta.
  match goal with
  | |- context [match ?j with inl _ => [] | inr _ => _ end] =>
      destruct j as [e|u]; [cbn; lia|]
  end.
  destruct (finder_keeps _ u base_url); cbn; lia.
Qed.

Lemma pulsemcp_card_length (E : Env) (card : Dom.node)
    (source_name base_url : string) :
  (length (pulsemcp_card E card source_name base_url) <= 1)%nat.
Proof.
  unfold pulsemcp_card. cbv zeta.
  destruct (Dom.find is_link_to card) as [link_elem|]; [|cbn; lia].
  destruct (Py.truthy _); [|cbn; lia].
  destruct (absolute E base_url _) as [e|u]; [cbn; lia|].
  destruct (_ && _); cbn; lia.
Qed.

(** A record of [_parse_pulsemcp_results] with the test on its
    address. *)
Lemma pulsemcp_shape (E : Env) (soup : Dom.node)
    (source_name base_url : string) (r : SearchResult) :
  r ∈ _parse_pulsemcp_results E soup source_name base_url ->
  exists nm descr u : string,
    r = result_of nm descr u "" source_name ""
    /\ Py.contains "/servers/" u = true
    /\ u <> base_url
    /\ Py.any_in ["?q="; "search"; "filter"] u = false.
Proof.
  unfold _parse_pulsemcp_results. cbv zeta.
  intros (card & _ & Hr)%ParserFacts.elem_of_flat_map. revert Hr.
  unfold pulsemcp_card. cbv zeta.
  destruct (Dom.find is_link_to (Dom.el card)) as [link_elem|];
    [|by intros ?%elem_of_nil].
  destruct (Py.truthy _); [|by intros ?%elem_of_nil].
  destruct (absolute E base_url _) as [e|u]; [by intros ?%elem_of_nil|].
  destruct (Py.contains "/servers/" u) eqn:Hservers;
    [|by intros ?%elem_of_nil].
  destruct (String.eqb_spec u base_url) as [->|Hbase];
    [by intros ?%elem_of_nil|].
  destruct (Py.any_in _ u) eqn:Hskip; [by intros ?%elem_of_nil|].
  cbn [andb negb]. intros ->%list_elem_of_singleton.
  by eexists _, _, u.
Qed.

(** The fall-back makes one record at most of each link. *)
Lemma fallback_links_length (E : Env) (source_name base_url : string)
    (matches : list (string * string)) :
  forall results,
    fallback_links E matches source_name base_url = inr results ->
    (length results <= length matches)%nat.
Proof.
  induction matches as [|[href txt] rest IH]; intros results Hrun.
  - by injection Hrun as <-.
  - cbn [fallback_links] in Hrun. cbn [length].
    destruct (3 <? String.length (Py.strip txt))%nat.
    + destruct (absolute E base_url href) as [e|u]; [done|].
      destruct (fallback_links E rest source_name base_url) as [e|results'];
        [done|].
      injection Hrun as <-. cbn [length]. specialize (IH results' eq_refl).
      lia.
    + specialize (IH results Hrun). lia.
Qed.

End SiteMore.

(** X26. The extractor of MCPServerFinder returns 50 records at most,
    whatever the page. Every record passed the test of the extractor:
    its name is not [No name] and is longer than two characters once
    stripped; its address, in lower case, holds none of the words
    [search], [filter], [new], [create], [add], [login], [register],
    and it holds [/server] or [/mcp] in lower case, or the base address
    of the source. *)
Theorem finder_records_are_kept (E : Env) (soup : Dom.node)
    (source_name base_url : string) :
  let results :=
    _parse_mcpserverfinder_results E soup source_name base_url in
  (length results <= 50)%nat
  /\ forall r, r ∈ results ->
       exists nm u,
         name r = JStr nm /\ url r = JStr u
         /\ nm <> "No name"
         /\ (2 < String.length (Py.strip nm))%nat
         /\ Py.any_in ["search"; "filter"; "new"; "create"; "add"; "login";
                       "register"] (Py.lower u) = false
         /\ (Py.contains "/server" (Py.lower u) = true
             \/ Py.contains "/mcp" (Py.lower u) = true
             \/ Py.contains base_url u = true).
Proof.
  cbv zeta. split.
  - unfold _parse_mcpserverfinder_results.
    etransitivity;
      [apply SiteMore.flat_map_length; intros x;
       apply SiteMore.finder_element_length|].
    rewrite length_take. lia.
  - intros r Hr.
    apply ParserFacts.finder_records in Hr as (nm & u & Hnm & Hu & Hkeeps).
    exists nm, u. split; [done|]. split; [done|].
    unfold finder_keeps in Hkeeps.
    apply andb_true_iff in Hkeeps as [Hkeeps Hpage].
    apply andb_true_iff in Hkeeps as [Hkeeps Hlong].
    apply andb_true_iff in Hkeeps as [Hkeeps Hskip].
    apply andb_true_iff in Hkeeps as [_ Hnoname].
    split; [|split; [|split]].
    + intros ->. done.
    + by apply Nat.ltb_lt.
    + by apply negb_true_iff.
    + apply orb_true_iff in Hpage as [Hpage|Hpage]; [|by right; right].
      apply orb_true_iff in Hpage as [Hpage|Hpage];
        [by left|by right; left].
Qed.

(** X27. The fall-back on raw HTML, when it returns, returns 20
    records at most. Every record is made of a link that the pattern
    finds: its name is the text of the link, stripped, and is longer
    than three characters; its address is the target of the link when
    this starts with [http], and what [urljoin] makes of the base
    address and the target otherwise. *)
Theorem fallback_records_come_from_links (E : Env) (html : string)
    (cfg : source_config) (results : list SearchResult) :
  _basic_fallback_parsing E html cfg = inr results ->
  (length results <= 20)%nat
  /\ forall r, r ∈ results ->
       exists href txt u : string,
         (href, txt) ∈ findall_links E html
         /\ r = result_of (Py.strip txt) "Found via basic parsing" u ""
                          (cfg_get cfg "name" "Unknown") ""
         /\ (3 < String.length (Py.strip txt))%nat
         /\ (if Py.startswith "http" href then u = href
             else urljoin E (cfg_get cfg "url" "") href = inr u).
Proof.
  unfold _basic_fallback_parsing. cbv zeta. intros Hrun. split.
  - apply SiteMore.fallback_links_length in Hrun.
    rewrite length_take in Hrun. lia.
  - revert results Hrun.
    generalize (ParserFacts.elem_of_take 20 (findall_links E html)).
    induction (take 20 (findall_links E html)) as [|[href txt] rest IH];
      intros Hsub results Hrun r Hr.
    + injection Hrun as <-. by apply elem_of_nil in Hr.
    + assert (Hrest : forall x, x ∈ rest -> x ∈ findall_links E html).
      { intros x Hx. apply Hsub. by right. }
      cbn [fallback_links] in Hrun.
      destruct (Nat.ltb_spec 3 (String.length (Py.strip txt))) as [Hlong|_];
        [|by apply (IH Hrest results)].
      unfold absolute in Hrun.
      destruct (Py.startswith "http" href) eqn:Hhttp; cbn [negb] in Hrun.
      * destruct (fallback_links E rest _ _) as [e|results'] eqn:Hrun';
          [done|].
        injection Hrun as <-. apply elem_of_cons in Hr as [->|Hr];
          [|by apply (IH Hrest results')].
        exists href, txt, href. rewrite Hhttp.
        split; [apply Hsub; by left|done].
      * destruct (urljoin E _ href) as [e|u] eqn:Hu; [done|].
        destruct (fallback_links E rest _ _) as [e|results'] eqn:Hrun';
          [done|].
        injection Hrun as <-. apply elem_of_cons in Hr as [->|Hr];
          [|by apply (IH Hrest results')].
        exists href, txt, u. rewrite Hhttp.
        split; [apply Hsub; by left|done].
Qed.

(** X27 on raw HTML with two links, one of them with a short text. *)
Lemma fallback_records_come_from_links_witness :
  _basic_fallback_parsing Cases.raw_links "<html>" Cases.raw_cfg
  = inr [result_of "Weather tool" "Found via basic parsing"
                   "http://h/servers/weather" "" "Raw" ""]
  /\ (length [result_of "Weather tool" "Found via basic parsing"
                        "http://h/servers/weather" "" "Raw" ""] <= 20)%nat.
Proof.
  split; [reflexivity|].
  apply (proj1 (fallback_records_come_from_links Cases.raw_links "<html>"
                  Cases.raw_cfg _ eq_refl)).
Defined.

(** X28. The extractor of PulseMCP returns one record at most for each
    card of the page. The address of every record holds [/servers/],
    is not the base address of the source and holds none of [?q=],
    [search] and [filter]; its second address is empty and its source
    is the name of the source. *)
Theorem pulsemcp_records_are_server_pages (E : Env) (soup : Dom.node)
    (source_name base_url : string) :
  let server_cards :=
    Dom.find_all (fun n => Dom.is_tag ["div"] n
                           && Dom.attr_has "data-test-id"
                                           ["mcp-server-grid-card"] n)
                 soup in
  let results := _parse_pulsemcp_results E soup source_name base_url in
  (length results <= length server_cards)%nat
  /\ forall r, r ∈ results ->
       exists u,
         url r = JStr u
         /\ Py.contains "/servers/" u = true
         /\ u <> base_url
         /\ Py.any_in ["?q="; "search"; "filter"] u = false
         /\ github_url r = JStr ""
         /\ source r = source_name.
Proof.
  cbv zeta. split.
  - unfold _parse_pulsemcp_results. cbv zeta.
    apply SiteMore.flat_map_length. intros x.
    apply SiteMore.pulsemcp_card_length.
  - intros r Hr.
    apply SiteMore.pulsemcp_shape in Hr
      as (nm & descr & u & -> & Hservers & Hbase & Hskip).
    by exists u.
Qed.
